(** * Service-center backend: job lifecycle, inventory ledger, invoice ledger

    A shallow embedding of the Django models and endpoints that carry the
    job state machine ([jobs/models.py]), the stock ledger
    ([inventory/models.py]), the GST tax engine ([core/utils.py]) and the
    invoice ledger ([billing/models.py], [billing/serializers.py],
    [billing/views.py]), followed by the properties proved about them.

    Conventions of the embedding:
    - a Python exception is a value of [Exception]; a call either
      [Returned] a value or [Raised] an exception;
    - a model instance is a record; the database is a record of tables
      (lists of rows); [atomic] restores the database when its body raises,
      the Python objects keep whatever the body assigned to them;
    - [decimal.Decimal] is a coefficient and a number of fractional digits,
      with exact arithmetic (see [PyDecimal]). *)

From Stdlib Require Import ZArith List String Ascii Bool Lia DecimalString.
From Stdlib Require Import QArith Qround Qabs.
From Stdlib Require DecimalZ DecimalPos.
Import ListNotations.

Local Open Scope Z_scope.

(* ===================================================================== *)
(** * Part I.  The embedding                                              *)
(* ===================================================================== *)

(** ** Python's [decimal.Decimal]

    A finite decimal [coef * 10^(-places)].  Addition, subtraction and
    multiplication follow the General Decimal Arithmetic rules for the
    exponent of the result; the two divisions the code performs (by 2 and
    by 100) are exact and keep the exponent as close to the dividend's as
    the quotient allows, as [Decimal.__truediv__] does.  The arithmetic is
    exact: it coincides with Python's default context (28 significant
    digits) as long as no coefficient exceeds 28 digits, which
    [field_inputs_stay_within_precision] below establishes for the values
    the model fields can hold. *)
Module PyDecimal.

Record Decimal : Type := mkDecimal { coef : Z; places : nat }.

Definition pow10 (n : nat) : Z := 10 ^ Z.of_nat n.

(** The coefficient of [d] written with [n] fractional digits
    ([n >= places d]). *)
Definition rescale (d : Decimal) (n : nat) : Z :=
  coef d * pow10 (n - places d).

(** [Decimal('0')], [Decimal('0.00')], [Decimal('0.01')], [Decimal('2')],
    [Decimal('100')]. *)
Definition dec_0 : Decimal := mkDecimal 0 0.
Definition dec_0_00 : Decimal := mkDecimal 0 2.
Definition dec_0_01 : Decimal := mkDecimal 1 2.
Definition dec_2 : Decimal := mkDecimal 2 0.
Definition dec_100 : Decimal := mkDecimal 100 0.

(** [Decimal(str(n))] for a Python int. *)
Definition of_int (n : Z) : Decimal := mkDecimal n 0.

Definition add (a b : Decimal) : Decimal :=
  let n := Nat.max (places a) (places b) in
  mkDecimal (rescale a n + rescale b n) n.

Definition sub (a b : Decimal) : Decimal :=
  let n := Nat.max (places a) (places b) in
  mkDecimal (rescale a n - rescale b n) n.

Definition mul (a b : Decimal) : Decimal :=
  mkDecimal (coef a * coef b) (places a + places b).

(** [x / Decimal('2')]: exact; the exponent of [x] is kept when the
    coefficient is even, one more digit is needed otherwise. *)
Definition div_2 (x : Decimal) : Decimal :=
  if Z.even (coef x)
  then mkDecimal (coef x / 2) (places x)
  else mkDecimal (coef x * 5) (S (places x)).

(** [x / Decimal('100')] and [x / 100]: exact; trailing zeros of the
    coefficient are consumed before the exponent is lowered. *)
Definition div_100 (x : Decimal) : Decimal :=
  if coef x mod 100 =? 0 then mkDecimal (coef x / 100) (places x)
  else if coef x mod 10 =? 0 then mkDecimal (coef x / 10) (S (places x))
  else mkDecimal (coef x) (S (S (places x))).

(** Comparisons are numeric, whatever the exponents. *)
Definition compare (a b : Decimal) : comparison :=
  let n := Nat.max (places a) (places b) in
  Z.compare (rescale a n) (rescale b n).

Definition eqb (a b : Decimal) : bool :=
  match compare a b with Eq => true | _ => false end.
Definition ltb (a b : Decimal) : bool :=
  match compare a b with Lt => true | _ => false end.
Definition leb (a b : Decimal) : bool :=
  match compare a b with Gt => false | _ => true end.
Definition gtb (a b : Decimal) : bool := ltb b a.

(** Rounding modes of the [decimal] module that the code uses:
    [ROUND_HALF_UP] where it is passed, [ROUND_HALF_EVEN] where
    [quantize] is called without a rounding argument (the rounding of the
    default context). *)
Inductive Rounding : Type := ROUND_HALF_UP | ROUND_HALF_EVEN.

(** [round_div r c s]: the integer nearest to [c / s] ([s > 0]); a tie
    goes away from zero under [ROUND_HALF_UP] and to the even neighbour
    under [ROUND_HALF_EVEN]. *)
Definition round_div (r : Rounding) (c s : Z) : Z :=
  let q := Z.abs c / s in
  let rem := Z.abs c mod s in
  let up :=
    match Z.compare (2 * rem) s with
    | Lt => false
    | Gt => true
    | Eq => match r with
            | ROUND_HALF_UP => true
            | ROUND_HALF_EVEN => Z.odd q
            end
    end in
  Z.sgn c * (if up then q + 1 else q).

(** [d.quantize(e, rounding)]: the value of [d] with the exponent of
    [e]. *)
Definition quantize (d e : Decimal) (r : Rounding) : Decimal :=
  let n := places e in
  if (places d <=? n)%nat
  then mkDecimal (rescale d n) n
  else mkDecimal (round_div r (coef d) (pow10 (places d - n))) n.

(** [d.quantize(e)]: the context's rounding. *)
Definition quantize_default (d e : Decimal) : Decimal :=
  quantize d e ROUND_HALF_EVEN.

(** [len(d.as_tuple().digits)]: the number of digits of the coefficient
    (1 for a zero coefficient). *)
Definition digits (d : Decimal) : nat :=
  Init.Decimal.nb_digits (N.to_uint (Z.abs_N (coef d))).

(** [str(d)], as [Decimal.__str__] writes it: plain notation when the
exponent is at most 0 and the number is not smaller than 1E-6 in
magnitude, scientific notation otherwise. *)
Definition str (d : Decimal) : string :=
  let sign := if coef d <? 0 then "-"%string else EmptyString in
  let int_ := NilZero.string_of_uint (N.to_uint (Z.abs_N (coef d))) in
  let len := String.length int_ in
  let leftdigits := Z.of_nat len - Z.of_nat (places d) in
  let zeros (n : Z) := string_of_list_ascii (repeat "0"%char (Z.to_nat n)) in
  if -6 <? leftdigits then
    if leftdigits <=? 0 then
      (sign ++ "0." ++ zeros (- leftdigits) ++ int_)%string
    else if Z.of_nat len <=? leftdigits then
      (sign ++ int_)%string
    else
      (sign ++ substring 0 (Z.to_nat leftdigits) int_ ++ "."
            ++ substring (Z.to_nat leftdigits) (places d) int_)%string
  else
    (sign ++ substring 0 1 int_
          ++ (if (1 <? len)%nat
              then ("." ++ substring 1 (len - 1) int_)%string
              else EmptyString)
          ++ "E" ++ NilZero.string_of_int (Z.to_int (leftdigits - 1)))%string.

(** Same number, possibly written with different exponents. *)
Definition same_value (a b : Decimal) : Prop :=
  coef a * pow10 (places b) = coef b * pow10 (places a).

(** The default context keeps 28 significant digits. *)
Definition within_precision (d : Decimal) : Prop :=
  Z.abs (coef d) < 10 ^ 28.

(** A value a [DecimalField(max_digits, decimal_places)] can hold. *)
Definition fits_field (max_digits decimal_places : nat) (d : Decimal)
  : Prop :=
  (places d <= decimal_places)%nat /\
  Z.abs (rescale d decimal_places) < pow10 max_digits.

End PyDecimal.

Import PyDecimal.

(** ** [core/utils.py] *)
Module CoreUtils.

(** The dict returned by [calculate_gst]. *)
Record GstBreakdown : Type := mkGst {
  cgst_rate : Decimal;
  cgst_amount : Decimal;
  sgst_rate : Decimal;
  sgst_amount : Decimal;
  igst_rate : Decimal;
  igst_amount : Decimal;
  total_tax : Decimal;
  total_amount : Decimal
}.

(** [calculate_gst(base_amount, gst_rate, is_interstate=False)].
    [base] and [rate] are [Decimal(str(base_amount))] and
    [Decimal(str(gst_rate))]. *)
Definition calculate_gst (base rate : Decimal) (is_interstate : bool)
  : GstBreakdown :=
  let two_places := dec_0_01 in
  if is_interstate then
    let igst_rate := rate in
    let igst_amount :=
      quantize (div_100 (mul base rate)) two_places ROUND_HALF_UP in
    {| cgst_rate := dec_0;
       cgst_amount := dec_0;
       sgst_rate := dec_0;
       sgst_amount := dec_0;
       igst_rate := igst_rate;
       igst_amount := igst_amount;
       total_tax := igst_amount;
       total_amount :=
         quantize (add base igst_amount) two_places ROUND_HALF_UP |}
  else
    let half_rate := div_2 rate in
    let cgst_amount :=
      quantize (div_100 (mul base half_rate)) two_places ROUND_HALF_UP in
    let sgst_amount :=
      quantize (div_100 (mul base half_rate)) two_places ROUND_HALF_UP in
    let total_tax := add cgst_amount sgst_amount in
    {| cgst_rate := half_rate;
       cgst_amount := cgst_amount;
       sgst_rate := half_rate;
       sgst_amount := sgst_amount;
       igst_rate := dec_0;
       igst_amount := dec_0;
       total_tax := total_tax;
       total_amount :=
         quantize (add base total_tax) two_places ROUND_HALF_UP |}.

End CoreUtils.

(** ** Python runtime: exceptions, outcomes, mutable state *)
Module Py.

(** The exception classes the modelled code raises:
    [ValueError] (builtin), the [core/exceptions.py] hierarchy rooted at
    [BusinessRuleViolation], DRF's [serializers.ValidationError] and the
    ORM's [Model.DoesNotExist] and [DatabaseError]. *)
Inductive Exception : Type :=
| ValueError (msg : string)
| BusinessRuleViolation (msg : string)
| InvalidStatusTransition (msg : string)
| InsufficientInventory (msg : string)
| JobReadOnlyError (msg : string)
| ValidationError (msg : string)
| DoesNotExist (msg : string)
| DatabaseError (msg : string).

Definition message (e : Exception) : string :=
  match e with
  | ValueError m | BusinessRuleViolation m | InvalidStatusTransition m
  | InsufficientInventory m | JobReadOnlyError m | ValidationError m
  | DoesNotExist m | DatabaseError m => m
  end.

Inductive Outcome (A : Type) : Type :=
| Returned (a : A)
| Raised (e : Exception).
Arguments Returned {A} a.
Arguments Raised {A} e.

(** A computation over a state [S] (the Python objects in scope, the
    database, the notification outbox) that returns or raises.  The state
    reached when an exception propagates is part of the result: Python
    does not undo assignments. *)
Definition M (S A : Type) : Type := S -> Outcome A * S.

Definition ret {S A} (a : A) : M S A := fun s => (Returned a, s).
Definition raise {S A} (e : Exception) : M S A := fun s => (Raised e, s).
Definition bind {S A B} (c : M S A) (k : A -> M S B) : M S B :=
  fun s => match c s with
           | (Returned a, s') => k a s'
           | (Raised e, s') => (Raised e, s')
           end.
Definition get {S} : M S S := fun s => (Returned s, s).
Definition modify {S} (f : S -> S) : M S unit := fun s => (Returned tt, f s).
Definition when {S} (b : bool) (c : M S unit) : M S unit :=
  if b then c else ret tt.

(** [with transaction.atomic(): body].  [db] and [set_db] project the
    database out of the state.  When [body] raises, the database is put
    back as it was on entry and the exception propagates; everything else
    in the state stays as [body] left it. *)
Definition atomic {S DB A} (db : S -> DB) (set_db : DB -> S -> S)
    (body : M S A) : M S A :=
  fun s => match body s with
           | (Returned a, s') => (Returned a, s')
           | (Raised e, s') => (Raised e, set_db (db s) s')
           end.

(** [try: body  except Exception as e: handler(e)]. *)
Definition try_except {S A} (body : M S A) (handler : Exception -> M S A)
  : M S A :=
  fun s => match body s with
           | (Returned a, s') => (Returned a, s')
           | (Raised e, s') => handler e s'
           end.

(** What [Model.save(update_fields=[...])] raises when no stored row has
    the primary key of the object. *)
Definition no_rows_affected : Exception :=
  DatabaseError "Save with update_fields did not affect any rows.".

(** [uuid.UUID]: a 128-bit number.  A [UUID] object is always truthy;
    [None] is the only falsy primary key, hence [option UUID] below. *)
Definition UUID : Type := N.

Definition truthy_pk (pk : option UUID) : bool :=
  match pk with Some _ => true | None => false end.

(** [str(n)] for a Python int. *)
Definition str_int (n : Z) : string := NilZero.string_of_int (Z.to_int n).

(** [timezone.now()] is read from the environment of the call. *)
Definition Timestamp : Type := Z.

(** Primary key of a [core.User]. *)
Definition User : Type := UUID.

End Py.

Import Py.

Declare Scope py_scope.
Delimit Scope py_scope with py.
Notation "x <- c ;; k" := (bind c (fun x => k))
  (at level 61, c at next level, right associativity) : py_scope.
Notation "c ;; k" := (bind c (fun _ => k))
  (at level 61, right associativity) : py_scope.

(** ** [core/models.py]: the branch and its document counters *)
Module Core.

(** What [settings] and the clock provide to a call. *)
Record Env : Type := mkEnv {
  now : Timestamp;               (* timezone.now() *)
  today_year : Z;                (* timezone.now().date().year *)
  today_month : Z;               (* timezone.now().date().month *)
  FINANCIAL_YEAR_START_MONTH : Z (* settings, default 4 *)
}.

Record Branch : Type := mkBranch {
  pk : UUID;
  code : string;
  invoice_prefix : string;
  invoice_current_number : Z;
  jobcard_prefix : string;
  jobcard_current_number : Z
}.

(** [s[-n:]]. *)
Definition last_chars (n : nat) (s : string) : string :=
  substring (String.length s - n) n s.

(** [s.zfill(width)]: zeros go after a leading sign. *)
Definition zfill (width : nat) (s : string) : string :=
  let zeros := string_of_list_ascii
                 (repeat "0"%char (width - String.length s)) in
  match s with
  | String c rest =>
      if (Ascii.eqb c "-" || Ascii.eqb c "+")%bool
      then String c (zeros ++ rest)
      else (zeros ++ s)
  | EmptyString => zeros
  end%string.

(** [Branch.get_current_financial_year]. *)
Definition get_current_financial_year (env : Env) : string :=
  let start_year :=
    if today_month env >=? FINANCIAL_YEAR_START_MONTH env
    then today_year env
    else today_year env - 1 in
  let end_year_short := last_chars 2 (str_int (start_year + 1)) in
  (str_int start_year ++ "-" ++ end_year_short)%string.

(** [Branch.objects.select_for_update().get(pk=...)] on the branch
    table. *)
Fixpoint get_branch (rows : list Branch) (key : UUID) : option Branch :=
  match rows with
  | [] => None
  | b :: rest => if N.eqb (pk b) key then Some b else get_branch rest key
  end.

(** [branch.save(update_fields=[...])]: the row with the same primary key
    is replaced. *)
Fixpoint save_branch (rows : list Branch) (b : Branch) : list Branch :=
  match rows with
  | [] => []
  | r :: rest =>
      if N.eqb (pk r) (pk b) then b :: rest else r :: save_branch rest b
  end.

(** [Branch.get_next_jobcard_number]: the locked row's counter is
    incremented and saved; prefix and code are read from [self].  [None]
    stands for [Branch.DoesNotExist]. *)
Definition get_next_jobcard_number (env : Env) (self : Branch)
    (rows : list Branch) : option (string * list Branch) :=
  match get_branch rows (pk self) with
  | None => None
  | Some branch =>
      let branch' :=
        {| pk := pk branch; code := code branch;
           invoice_prefix := invoice_prefix branch;
           invoice_current_number := invoice_current_number branch;
           jobcard_prefix := jobcard_prefix branch;
           jobcard_current_number := jobcard_current_number branch + 1 |} in
      let fy := get_current_financial_year env in
      let sequence := zfill 5 (str_int (jobcard_current_number branch')) in
      Some ((jobcard_prefix self ++ "/" ++ fy ++ "/" ++ code self
             ++ "/" ++ sequence)%string,
            save_branch rows branch')
  end.

(** [Branch.get_next_invoice_number]. *)
Definition get_next_invoice_number (env : Env) (self : Branch)
    (rows : list Branch) : option (string * list Branch) :=
  match get_branch rows (pk self) with
  | None => None
  | Some branch =>
      let branch' :=
        {| pk := pk branch; code := code branch;
           invoice_prefix := invoice_prefix branch;
           invoice_current_number := invoice_current_number branch + 1;
           jobcard_prefix := jobcard_prefix branch;
           jobcard_current_number := jobcard_current_number branch |} in
      let fy := get_current_financial_year env in
      let sequence := zfill 5 (str_int (invoice_current_number branch')) in
      Some ((invoice_prefix self ++ "/" ++ fy ++ "/" ++ code self
             ++ "/" ++ sequence)%string,
            save_branch rows branch')
  end.

End Core.

(** ** [jobs/models.py] *)
Module Jobs.

(** [class JobStatus(models.TextChoices)]. *)
Inductive JobStatus : Type :=
| RECEIVED | DIAGNOSED | ESTIMATE_SHARED | APPROVED | REJECTED
| IN_PROGRESS | ON_HOLD | READY | DELIVERED | CANCELLED.

Scheme Equality for JobStatus.

(** [JobStatus.X.label], which is also what [get_status_display()]
    returns for a job whose status is [X]. *)
Definition label (s : JobStatus) : string :=
  match s with
  | RECEIVED => "Received"
  | DIAGNOSED => "Diagnosed"
  | ESTIMATE_SHARED => "Estimate Shared"
  | APPROVED => "Approved"
  | REJECTED => "Rejected"
  | IN_PROGRESS => "In Progress"
  | ON_HOLD => "On Hold"
  | READY => "Ready for Pickup"
  | DELIVERED => "Delivered"
  | CANCELLED => "Cancelled"
  end.

(** The dict [ALLOWED_STATUS_TRANSITIONS]; every status is a key. *)
Definition ALLOWED_STATUS_TRANSITIONS (s : JobStatus) : list JobStatus :=
  match s with
  | RECEIVED => [DIAGNOSED; CANCELLED]
  | DIAGNOSED => [ESTIMATE_SHARED; CANCELLED]
  | ESTIMATE_SHARED => [APPROVED; REJECTED; CANCELLED]
  | APPROVED => [IN_PROGRESS; CANCELLED]
  | REJECTED => []
  | IN_PROGRESS => [ON_HOLD; READY; CANCELLED]
  | ON_HOLD => [IN_PROGRESS; CANCELLED]
  | READY => [DELIVERED; IN_PROGRESS]
  | DELIVERED => []
  | CANCELLED => []
  end.

(** [x in xs] for a list of statuses. *)
Definition status_in (x : JobStatus) (xs : list JobStatus) : bool :=
  existsb (JobStatus_beq x) xs.

(** The fields of [JobCard] that the lifecycle reads or writes.  [id] has
    [default=uuid.uuid4]. *)
Record JobCard : Type := mkJobCard {
  id : UUID;
  branch : Core.Branch;
  job_number : string;
  status : JobStatus;
  estimated_cost : option Decimal;
  actual_completion_date : option Timestamp;
  delivery_date : option Timestamp;
  delivery_otp : string
}.

Definition set_job_number (v : string) (j : JobCard) : JobCard :=
  mkJobCard (id j) (branch j) v (status j) (estimated_cost j)
            (actual_completion_date j) (delivery_date j) (delivery_otp j).
Definition set_status (v : JobStatus) (j : JobCard) : JobCard :=
  mkJobCard (id j) (branch j) (job_number j) v (estimated_cost j)
            (actual_completion_date j) (delivery_date j) (delivery_otp j).
Definition set_actual_completion_date (v : option Timestamp) (j : JobCard)
  : JobCard :=
  mkJobCard (id j) (branch j) (job_number j) (status j) (estimated_cost j)
            v (delivery_date j) (delivery_otp j).
Definition set_delivery_date (v : option Timestamp) (j : JobCard)
  : JobCard :=
  mkJobCard (id j) (branch j) (job_number j) (status j) (estimated_cost j)
            (actual_completion_date j) v (delivery_otp j).
Definition set_delivery_otp (v : string) (j : JobCard) : JobCard :=
  mkJobCard (id j) (branch j) (job_number j) (status j) (estimated_cost j)
            (actual_completion_date j) (delivery_date j) v.

(** [class JobStatusHistory].  [pk] is the [id] field,
    [UUIDField(primary_key=True, default=uuid.uuid4)]. *)
Record JobStatusHistory : Type := mkHistory {
  pk : option UUID;
  job : UUID;
  from_status : JobStatus;
  to_status : JobStatus;
  changed_by : User;
  notes : string;
  is_override : bool
}.

(** A call handed to [NotificationService]; delivery is the notification
    collaborator's business. *)
Inductive NotificationType : Type :=
| JOB_DIAGNOSED | NT_ESTIMATE_SHARED | JOB_READY | JOB_DELIVERED
| DELIVERY_OTP.

Record Notification : Type := mkNotification {
  n_job : UUID;
  notification_type : NotificationType;
  ctx_job_number : string;
  ctx_status : option string;
  ctx_amount : option Decimal;
  ctx_otp : option string
}.

Record Database : Type := mkDatabase {
  branches : list Core.Branch;
  jobcards : list JobCard;
  status_history : list JobStatusHistory
}.

(** The Python object [self] (a [JobCard]), the database, and the calls
    made to the notification service. *)
Record State : Type := mkState {
  self : JobCard;
  db : Database;
  outbox : list Notification
}.

Definition set_self (j : JobCard) (s : State) : State :=
  mkState j (db s) (outbox s).
Definition set_db (d : Database) (s : State) : State :=
  mkState (self s) d (outbox s).
Definition send (n : Notification) (s : State) : State :=
  mkState (self s) (db s) (outbox s ++ [n]).

(** [Model.save()] on a job card: update the row with this primary key,
    insert when there is none. *)
Fixpoint upsert_jobcard (rows : list JobCard) (j : JobCard)
  : list JobCard :=
  match rows with
  | [] => [j]
  | r :: rest =>
      if N.eqb (id r) (id j) then j :: rest
      else r :: upsert_jobcard rest j
  end.

(** [Model.save(update_fields=['delivery_otp', 'updated_at'])]: only that
    column of the stored row changes. *)
Fixpoint update_delivery_otp (rows : list JobCard) (j : JobCard)
  : list JobCard :=
  match rows with
  | [] => []
  | r :: rest =>
      if N.eqb (id r) (id j)
      then set_delivery_otp (delivery_otp j) r :: rest
      else r :: update_delivery_otp rest j
  end.

(** [JobCard.is_terminal_status]. *)
Definition is_terminal_status (j : JobCard) : bool :=
  status_in (status j) [DELIVERED; CANCELLED; REJECTED].

(** [JobCard.can_transition_to]. *)
Definition can_transition_to (j : JobCard) (new_status : JobStatus)
  : bool :=
  let allowed := ALLOWED_STATUS_TRANSITIONS (status j) in
  status_in new_status allowed.

(** Some stored row has this primary key. *)
Definition has_jobcard (rows : list JobCard) (key : UUID) : bool :=
  existsb (fun r => N.eqb (id r) key) rows.

(** [JobCard.save]: number the job if it has no number, then
    [Model.save].  With [update_fields=['delivery_otp', 'updated_at']]
    ([only_delivery_otp]) the one column of the stored row is written and
    the row has to exist; without it the row is updated or inserted. *)
Definition JobCard_save (env : Core.Env) (only_delivery_otp : bool)
  : M State unit :=
  (s <- get ;;
   (if String.eqb (job_number (self s)) EmptyString
    then
      match Core.get_next_jobcard_number env (branch (self s))
              (branches (db s)) with
      | None => raise (DoesNotExist "Branch matching query does not exist.")
      | Some (number, rows) =>
          modify (fun s =>
            mkState (set_job_number number (self s))
                    (mkDatabase rows (jobcards (db s))
                                (status_history (db s)))
                    (outbox s))
      end
    else ret tt) ;;
   s <- get ;;
   if only_delivery_otp then
     if has_jobcard (jobcards (db s)) (id (self s)) then
       modify (fun s =>
         set_db (mkDatabase (branches (db s))
                            (update_delivery_otp (jobcards (db s)) (self s))
                            (status_history (db s))) s)
     else raise no_rows_affected
   else
     modify (fun s =>
       set_db (mkDatabase (branches (db s))
                          (upsert_jobcard (jobcards (db s)) (self s))
                          (status_history (db s))) s))%py.

(** Constructing a [JobStatusHistory]: [Model.__init__] gives every field
    that has no keyword argument its default, so [id], declared with
    [default=uuid.uuid4], is the value of [uuid.uuid4()] from the moment
    the object exists, before any [save]. *)
Definition JobStatusHistory_init (uuid4 : UUID) (job : UUID)
    (from_status to_status : JobStatus) (changed_by : User)
    (notes : string) (is_override : bool) : JobStatusHistory :=
  mkHistory (Some uuid4) job from_status to_status changed_by notes
            is_override.

(** [JobStatusHistory.save]:
<<
    if self.pk:
        raise ValueError("JobStatusHistory records are immutable")
    super().save(...)
>> *)
Definition JobStatusHistory_save (row : JobStatusHistory)
  : M State unit :=
  if truthy_pk (pk row)
  then raise (ValueError "JobStatusHistory records are immutable")
  else modify (fun s =>
         set_db (mkDatabase (branches (db s)) (jobcards (db s))
                            (row :: status_history (db s))) s).

(** [JobStatusHistory.objects.create(...)]: build the instance, then
    [save] it. *)
Definition JobStatusHistory_objects_create (uuid4 : UUID) (job : UUID)
    (from_status to_status : JobStatus) (changed_by : User)
    (notes : string) (is_override : bool) : M State unit :=
  JobStatusHistory_save
    (JobStatusHistory_init uuid4 job from_status to_status changed_by
                           notes is_override).

(** [JobStatusHistory] does not override [delete]: [Model.delete]
    removes the row. *)
Definition JobStatusHistory_delete (row : JobStatusHistory)
  : M State unit :=
  modify (fun s =>
    set_db (mkDatabase (branches (db s)) (jobcards (db s))
              (filter (fun r =>
                         negb (match pk r, pk row with
                               | Some a, Some b => N.eqb a b
                               | _, _ => false
                               end))
                      (status_history (db s)))) s).

(** [NotificationService.on_job_status_change]. *)
Definition notification_type_map (new_status : JobStatus)
  : option NotificationType :=
  match new_status with
  | DIAGNOSED => Some JOB_DIAGNOSED
  | ESTIMATE_SHARED => Some NT_ESTIMATE_SHARED
  | READY => Some JOB_READY
  | DELIVERED => Some JOB_DELIVERED
  | _ => None
  end.

Definition on_job_status_change (old_status new_status : JobStatus)
  : M State unit :=
  match notification_type_map new_status with
  | Some nt =>
      modify (fun s =>
        let j := self s in
        let amount :=
          match new_status, estimated_cost j with
          | ESTIMATE_SHARED, Some c =>
              if PyDecimal.eqb c dec_0 then None else Some c
          | _, _ => None
          end in
        send (mkNotification (id j) nt (job_number j)
                             (Some (label new_status)) amount None) s)
  | None => ret tt
  end.

(** [JobCard.transition_status(new_status, user, notes='',
    is_override=False)].  [uuid4] is the value [uuid.uuid4()] draws for
    the history row. *)
Definition transition_status (env : Core.Env) (uuid4 : UUID)
    (new_status : JobStatus) (user : User) (notes : string)
    (is_override : bool) : M State unit :=
  (s <- get ;;
   if (is_terminal_status (self s) && negb is_override)%bool then
     raise (JobReadOnlyError
              ("Job " ++ job_number (self s) ++ " is in "
               ++ label (status (self s))
               ++ " status and cannot be modified."))
   else if (negb is_override
            && negb (can_transition_to (self s) new_status))%bool then
     raise (InvalidStatusTransition
              ("Cannot transition from " ++ label (status (self s))
               ++ " to " ++ label new_status))
   else
     let old_status := status (self s) in
     atomic db set_db
       (modify (fun s => set_self (set_status new_status (self s)) s) ;;
        (match new_status with
         | READY =>
             modify (fun s =>
               set_self (set_actual_completion_date
                           (Some (Core.now env)) (self s)) s)
         | DELIVERED =>
             modify (fun s =>
               set_self (set_delivery_date
                           (Some (Core.now env)) (self s)) s)
         | _ => ret tt
         end) ;;
        JobCard_save env false ;;
        JobStatusHistory_objects_create uuid4 (id (self s)) old_status
          new_status user notes is_override ;;
        on_job_status_change old_status new_status))%py%string.

(** [JobCard.generate_delivery_otp]; [otp] is what [generate_otp()]
    draws. *)
Definition generate_delivery_otp (env : Core.Env) (otp : string)
  : M State string :=
  (modify (fun s => set_self (set_delivery_otp otp (self s)) s) ;;
   JobCard_save env true ;;
   modify (fun s =>
     let j := self s in
     send (mkNotification (id j) DELIVERY_OTP (job_number j) None None
                          (Some (delivery_otp j))) s) ;;
   s <- get ;;
   ret (delivery_otp (self s)))%py.

(** [JobCard.verify_delivery_otp]: [return self.delivery_otp == otp]. *)
Definition verify_delivery_otp (j : JobCard) (otp : string) : bool :=
  String.eqb (delivery_otp j) otp.

(** The same method as a computation on the state, to speak about its
    effects. *)
Definition verify_delivery_otp_call (otp : string) : M State bool :=
  (s <- get ;; ret (verify_delivery_otp (self s) otp))%py.

End Jobs.

(** ** [inventory/models.py] *)
Module Inventory.

(** Choices of [InventoryAdjustment.adjustment_type]. *)
Inductive AdjustmentType : Type :=
| ADD | DEDUCT | MANUAL | CORRECTION | RETURN | DAMAGED.

(** The fields of [InventoryItem] that the stock operations read or
    write.  [quantity] is a Python int. *)
Record InventoryItem : Type := mkItem {
  id : UUID;
  name : string;
  selling_price : Decimal;
  quantity : Z;
  low_stock_threshold : Z
}.

Definition set_quantity (q : Z) (i : InventoryItem) : InventoryItem :=
  mkItem (id i) (name i) (selling_price i) q (low_stock_threshold i).

(** [class InventoryAdjustment].  [pk] is the [id] field,
    [UUIDField(primary_key=True, default=uuid.uuid4)];
    [adjusted_quantity] is the column [quantity]. *)
Record InventoryAdjustment : Type := mkAdjustment {
  pk : option UUID;
  item : UUID;
  adjustment_type : AdjustmentType;
  adjusted_quantity : Z;
  old_quantity : Z;
  new_quantity : Z;
  reason : string;
  adjusted_by : option User;
  is_manual_adjustment : bool
}.

(** [class JobPartUsage]; [used_quantity] is the column [quantity]. *)
Record JobPartUsage : Type := mkUsage {
  usage_id : UUID;
  job : UUID;
  inventory_item : UUID;
  used_quantity : Z;
  unit_price : Decimal;
  total_price : Decimal;
  adjustment : option UUID
}.

Record Database : Type := mkDatabase {
  items : list InventoryItem;
  adjustments : list InventoryAdjustment;
  part_usages : list JobPartUsage;
  internal_alerts : list string
}.

(** The Python object [self] (an [InventoryItem]) and the database. *)
Record State : Type := mkState {
  self : InventoryItem;
  db : Database
}.

Definition set_self (i : InventoryItem) (s : State) : State :=
  mkState i (db s).
Definition set_db (d : Database) (s : State) : State :=
  mkState (self s) d.

(** [InventoryItem.is_low_stock]. *)
Definition is_low_stock (i : InventoryItem) : bool :=
  quantity i <=? low_stock_threshold i.

(** The quantity column of the row with the primary key of [i] takes the
    quantity of [i]. *)
Fixpoint update_quantity (rows : list InventoryItem) (i : InventoryItem)
  : list InventoryItem :=
  match rows with
  | [] => []
  | r :: rest =>
      if N.eqb (id r) (id i) then set_quantity (quantity i) r :: rest
      else r :: update_quantity rest i
  end.

(** Some stored row has this primary key. *)
Definition has_item (rows : list InventoryItem) (key : UUID) : bool :=
  existsb (fun r => N.eqb (id r) key) rows.

(** [self.save(update_fields=['quantity', 'updated_at'])]: the quantity
    column of the stored row is written; the row has to exist. *)
Definition save_quantity : M State unit :=
  (s <- get ;;
   if has_item (items (db s)) (id (self s)) then
     modify (fun s =>
       set_db (mkDatabase (update_quantity (items (db s)) (self s))
                          (adjustments (db s)) (part_usages (db s))
                          (internal_alerts (db s))) s)
   else raise no_rows_affected)%py.

(** Constructing an [InventoryAdjustment]: as for every model,
    [Model.__init__] evaluates the default of [id], so the primary key is
    the drawn [uuid4] before [save] runs. *)
Definition InventoryAdjustment_init (uuid4 : UUID) (item : UUID)
    (adjustment_type : AdjustmentType)
    (quantity old_quantity new_quantity : Z) (reason : string)
    (adjusted_by : option User) (is_manual_adjustment : bool)
  : InventoryAdjustment :=
  mkAdjustment (Some uuid4) item adjustment_type quantity old_quantity
               new_quantity reason adjusted_by is_manual_adjustment.

(** [InventoryAdjustment.save]:
<<
    if self.pk:
        raise ValueError("InventoryAdjustment records are immutable")
    super().save(...)
>> *)
Definition InventoryAdjustment_save (row : InventoryAdjustment)
  : M State unit :=
  if truthy_pk (pk row)
  then raise (ValueError "InventoryAdjustment records are immutable")
  else modify (fun s =>
         set_db (mkDatabase (items (db s)) (row :: adjustments (db s))
                            (part_usages (db s))
                            (internal_alerts (db s))) s).

(** [InventoryAdjustment.objects.create(...)]; returns the instance. *)
Definition InventoryAdjustment_objects_create (uuid4 : UUID) (item : UUID)
    (adjustment_type : AdjustmentType)
    (quantity old_quantity new_quantity : Z) (reason : string)
    (adjusted_by : option User) (is_manual_adjustment : bool)
  : M State InventoryAdjustment :=
  (let row := InventoryAdjustment_init uuid4 item adjustment_type quantity
                old_quantity new_quantity reason adjusted_by
                is_manual_adjustment in
   InventoryAdjustment_save row ;;
   ret row)%py.

(** [InventoryAdjustment] does not override [delete]: [Model.delete]
    removes the row. *)
Definition InventoryAdjustment_delete (row : InventoryAdjustment)
  : M State unit :=
  modify (fun s =>
    set_db (mkDatabase (items (db s))
              (filter (fun r =>
                         negb (match pk r, pk row with
                               | Some a, Some b => N.eqb a b
                               | _, _ => false
                               end))
                      (adjustments (db s)))
              (part_usages (db s)) (internal_alerts (db s))) s).

(** [JobPartUsage.objects.create(...)]: the model has no [save] of its
    own. *)
Definition JobPartUsage_objects_create (u : JobPartUsage) : M State unit :=
  modify (fun s =>
    set_db (mkDatabase (items (db s)) (adjustments (db s))
                       (u :: part_usages (db s))
                       (internal_alerts (db s))) s).

(** [InventoryItem._trigger_low_stock_alert], that is
    [NotificationService.send_low_stock_alert(self)]: an [InternalAlert]
    row. *)
Definition _trigger_low_stock_alert : M State unit :=
  modify (fun s =>
    let i := self s in
    set_db (mkDatabase (items (db s)) (adjustments (db s))
              (part_usages (db s))
              (("Low stock alert: " ++ name i ++ " (Current: "
                ++ str_int (quantity i) ++ ", Threshold: "
                ++ str_int (low_stock_threshold i) ++ ")")%string
               :: internal_alerts (db s))) s).

(** [InventoryItem.add_stock(quantity, reason='', user=None)]. *)
Definition add_stock (uuid4 : UUID) (quantity_ : Z) (reason : string)
    (user : option User) : M State unit :=
  if quantity_ <=? 0 then raise (ValueError "Quantity must be positive")
  else
    atomic db set_db
      (s <- get ;;
       let old_quantity := quantity (self s) in
       modify (fun s =>
         set_self (set_quantity (quantity (self s) + quantity_) (self s))
                  s) ;;
       save_quantity ;;
       s <- get ;;
       _ <- InventoryAdjustment_objects_create uuid4 (id (self s)) ADD
              quantity_ old_quantity (quantity (self s)) reason user
              false ;;
       ret tt)%py.

(** [InventoryItem.deduct_stock(quantity, reason='', user=None,
    job=None)].  [uuid4] and [uuid4'] are the keys drawn for the
    adjustment and for the part usage. *)
Definition deduct_stock (uuid4 uuid4' : UUID) (quantity_ : Z)
    (reason : string) (user : option User) (job : option UUID)
  : M State unit :=
  (s <- get ;;
   if quantity_ <=? 0 then raise (ValueError "Quantity must be positive")
   else if quantity (self s) <? quantity_ then
     raise (InsufficientInventory
              ("Insufficient stock for " ++ name (self s) ++ ". "
               ++ "Requested: " ++ str_int quantity_ ++ ", Available: "
               ++ str_int (quantity (self s)))%string)
   else
     atomic db set_db
       (s <- get ;;
        let old_quantity := quantity (self s) in
        modify (fun s =>
          set_self (set_quantity (quantity (self s) - quantity_) (self s))
                   s) ;;
        save_quantity ;;
        s <- get ;;
        adjustment <- InventoryAdjustment_objects_create uuid4
                        (id (self s)) DEDUCT quantity_ old_quantity
                        (quantity (self s)) reason user false ;;
        (match job with
         | Some j =>
             JobPartUsage_objects_create
               (mkUsage uuid4' j (id (self s)) quantity_
                        (selling_price (self s))
                        (PyDecimal.mul (selling_price (self s))
                                       (of_int quantity_))
                        (pk adjustment))
         | None => ret tt
         end) ;;
        when (is_low_stock (self s)) _trigger_low_stock_alert))%py.

(** [InventoryItem.adjust_stock(new_quantity, reason, user)]. *)
Definition adjust_stock (uuid4 : UUID) (new_quantity_ : Z)
    (reason : string) (user : option User) : M State unit :=
  (s <- get ;;
   if new_quantity_ <? 0 then raise (ValueError "Quantity cannot be negative")
   else
     let old_quantity := quantity (self s) in
     let quantity_diff := new_quantity_ - old_quantity in
     atomic db set_db
       (modify (fun s => set_self (set_quantity new_quantity_ (self s)) s) ;;
        save_quantity ;;
        s <- get ;;
        _ <- InventoryAdjustment_objects_create uuid4 (id (self s))
               (if quantity_diff >=? 0 then MANUAL else CORRECTION)
               (Z.abs quantity_diff) old_quantity new_quantity_ reason
               user true ;;
        ret tt))%py.

(** [self.get_object()] in a view: the Python object is the stored row.
    When no row has this key the object is left alone (the view answers
    404 before any ledger method runs). *)
Fixpoint get_item (rows : list InventoryItem) (key : UUID)
  : option InventoryItem :=
  match rows with
  | [] => None
  | r :: rest => if N.eqb (id r) key then Some r else get_item rest key
  end.

Definition get_object : M State unit :=
  modify (fun s =>
    match get_item (items (db s)) (id (self s)) with
    | Some row => set_self row s
    | None => s
    end).


(** One step of a ledger history: a call of one of the three stock
    methods on the object, or a fresh load of the object from the
    database (a new request). *)
Inductive Op : Type :=
| AddStock (uuid4 : UUID) (quantity : Z) (reason : string)
           (user : option User)
| DeductStock (uuid4 uuid4' : UUID) (quantity : Z) (reason : string)
              (user : option User) (job : option UUID)
| AdjustStock (uuid4 : UUID) (new_quantity : Z) (reason : string)
              (user : option User)
| Reload.

Definition run_op (op : Op) : M State unit :=
  match op with
  | AddStock u q r usr => add_stock u q r usr
  | DeductStock u u' q r usr j => deduct_stock u u' q r usr j
  | AdjustStock u q r usr => adjust_stock u q r usr
  | Reload => get_object
  end.

(** The state after a sequence of steps; a step that raises is answered
    with an error response and the next step runs on what it left. *)
Fixpoint run_ops (ops : list Op) (s : State) : State :=
  match ops with
  | [] => s
  | op :: rest => run_ops rest (snd (run_op op s))
  end.

(** Signed change recorded by an adjustment row. *)
Definition delta (a : InventoryAdjustment) : Z :=
  new_quantity a - old_quantity a.

(** The sign the adjustment type gives to the recorded quantity. *)
Definition signed_quantity (a : InventoryAdjustment) : Z :=
  match adjustment_type a with
  | ADD | MANUAL | RETURN => adjusted_quantity a
  | DEDUCT | CORRECTION | DAMAGED => - adjusted_quantity a
  end.




(** The exception that ends the transaction of a stock method: the
    refusal of the adjustment row, or, for an object without a stored row,
    the failure of [save(update_fields=...)] before it. *)
Definition ledger_failure (s : State) : Exception :=
  if has_item (items (db s)) (id (self s))
  then ValueError "InventoryAdjustment records are immutable"
  else no_rows_affected.

(** Stock is non-negative on the object and in every stored row. *)
Definition stock_nonneg (s : State) : Prop :=
  0 <= quantity (self s)
  /\ Forall (fun row => 0 <= quantity row) (items (db s)).


End Inventory.

(** ** [audit/models.py], [audit/services.py] *)
Module Audit.

(** [class AuditLog]; [pk] is the [id] field, again with
    [default=uuid.uuid4]. *)
Record AuditLog : Type := mkAuditLog {
  pk : option UUID;
  user : User;
  action : string;
  model_name : string;
  object_id : UUID;
  details : list (string * string)
}.

(** Outcome of [AuditLog.save] on a list of stored rows:
<<
    if self.pk:
        raise ValueError("AuditLog records are immutable and cannot be modified.")
    super().save(...)
>> *)
Definition AuditLog_save (row : AuditLog) (rows : list AuditLog)
  : Outcome (list AuditLog) :=
  if truthy_pk (pk row)
  then Raised (ValueError
                 "AuditLog records are immutable and cannot be modified.")
  else Returned (row :: rows).

(** [AuditLogService.log]: the instance is built ([id] takes its
    default), saved, and any exception is logged and swallowed
    ([return None]). *)
Definition AuditLogService_log (uuid4 : UUID) (user : User)
    (action model_name : string) (object_id : UUID)
    (details : list (string * string)) (rows : list AuditLog)
  : option AuditLog * list AuditLog :=
  let log := mkAuditLog (Some uuid4) user action model_name object_id
                        details in
  match AuditLog_save log rows with
  | Returned rows' => (Some log, rows')
  | Raised _ => (None, rows)
  end.

End Audit.

(** ** [billing/models.py], [billing/serializers.py], [billing/views.py] *)
Module Billing.

(** [class InvoiceStatus(models.TextChoices)]. *)
Inductive InvoiceStatus : Type :=
| DRAFT | PENDING | PARTIAL | PAID | CANCELLED.

Scheme Equality for InvoiceStatus.

(** [class PaymentMethod(models.TextChoices)]. *)
Inductive PaymentMethod : Type :=
| CASH | UPI | CARD | NEFT | CHEQUE | WALLET | OTHER.

(** [class InvoiceLineItem]: the pricing and tax columns. *)
Record InvoiceLineItem : Type := mkLineItem {
  line_id : UUID;
  invoice : UUID;
  quantity : Z;
  unit_price : Decimal;
  amount : Decimal;
  gst_rate : Decimal;
  cgst_rate : Decimal;
  cgst_amount : Decimal;
  sgst_rate : Decimal;
  sgst_amount : Decimal;
  igst_rate : Decimal;
  igst_amount : Decimal;
  discount_percent : Decimal
}.

(** [class Invoice]: numbering, tax type, totals, payment state,
    finalization. *)
Record Invoice : Type := mkInvoice {
  id : UUID;
  branch : Core.Branch;
  invoice_number : string;
  is_interstate : bool;
  subtotal : Decimal;
  cgst_total : Decimal;
  sgst_total : Decimal;
  igst_total : Decimal;
  discount_amount : Decimal;
  total_tax : Decimal;
  total_amount : Decimal;
  status : InvoiceStatus;
  paid_amount : Decimal;
  is_finalized : bool;
  finalized_at : option Timestamp;
  finalized_by : option User
}.

(** [class Payment]. *)
Record Payment : Type := mkPayment {
  payment_id : UUID;
  paid_invoice : UUID;
  payment_amount : Decimal;
  payment_method : PaymentMethod;
  payment_date : Timestamp;
  reference : string;
  notes : string;
  received_by : User
}.

Record Database : Type := mkDatabase {
  branches : list Core.Branch;
  invoices : list Invoice;
  line_items : list InvoiceLineItem;
  payments : list Payment;
  audit_logs : list Audit.AuditLog
}.

(** The Python object [self] (an [Invoice]) and the database. *)
Record State : Type := mkState {
  self : Invoice;
  db : Database
}.

Definition set_self (i : Invoice) (s : State) : State := mkState i (db s).
Definition set_db (d : Database) (s : State) : State := mkState (self s) d.

Definition set_invoice_number (v : string) (i : Invoice) : Invoice :=
  mkInvoice (id i) (branch i) v (is_interstate i) (subtotal i)
    (cgst_total i) (sgst_total i) (igst_total i) (discount_amount i)
    (total_tax i) (total_amount i) (status i) (paid_amount i)
    (is_finalized i) (finalized_at i) (finalized_by i).
Definition set_totals (sub c sg ig tax total : Decimal) (i : Invoice)
  : Invoice :=
  mkInvoice (id i) (branch i) (invoice_number i) (is_interstate i) sub
    c sg ig (discount_amount i) tax total (status i) (paid_amount i)
    (is_finalized i) (finalized_at i) (finalized_by i).
Definition set_status (v : InvoiceStatus) (i : Invoice) : Invoice :=
  mkInvoice (id i) (branch i) (invoice_number i) (is_interstate i)
    (subtotal i) (cgst_total i) (sgst_total i) (igst_total i)
    (discount_amount i) (total_tax i) (total_amount i) v (paid_amount i)
    (is_finalized i) (finalized_at i) (finalized_by i).
Definition set_paid_amount (v : Decimal) (i : Invoice) : Invoice :=
  mkInvoice (id i) (branch i) (invoice_number i) (is_interstate i)
    (subtotal i) (cgst_total i) (sgst_total i) (igst_total i)
    (discount_amount i) (total_tax i) (total_amount i) (status i) v
    (is_finalized i) (finalized_at i) (finalized_by i).
Definition set_finalized (at_ : option Timestamp) (by_ : option User)
    (i : Invoice) : Invoice :=
  mkInvoice (id i) (branch i) (invoice_number i) (is_interstate i)
    (subtotal i) (cgst_total i) (sgst_total i) (igst_total i)
    (discount_amount i) (total_tax i) (total_amount i) (status i)
    (paid_amount i) true at_ by_.

(** [Invoice.balance_due]. *)
Definition balance_due (i : Invoice) : Decimal :=
  PyDecimal.sub (total_amount i) (paid_amount i).

(** [Invoice.is_fully_paid]. *)
Definition is_fully_paid (i : Invoice) : bool :=
  PyDecimal.leb (balance_due i) dec_0.

(** [hasattr(self, '_dirty_fields')]: nothing in the code base ever sets
    this attribute on an invoice. *)
Definition has_dirty_fields (i : Invoice) : bool := false.

(** [Model.save()] on an invoice: update the row with this key, insert
    when there is none. *)
Fixpoint upsert_invoice (rows : list Invoice) (i : Invoice)
  : list Invoice :=
  match rows with
  | [] => [i]
  | r :: rest =>
      if N.eqb (id r) (id i) then i :: rest
      else r :: upsert_invoice rest i
  end.

(** [Model.save(update_fields=['paid_amount', 'status', 'updated_at'])]. *)
Fixpoint update_payment_columns (rows : list Invoice) (i : Invoice)
  : list Invoice :=
  match rows with
  | [] => []
  | r :: rest =>
      if N.eqb (id r) (id i)
      then set_status (status i) (set_paid_amount (paid_amount i) r)
           :: rest
      else r :: update_payment_columns rest i
  end.

(** Some stored row has this primary key. *)
Definition has_invoice (rows : list Invoice) (key : UUID) : bool :=
  existsb (fun r => N.eqb (id r) key) rows.

(** [Invoice.save]: number the invoice if it has no number, run the
    guard for finalized invoices, then [Model.save].  With
    [update_fields=['paid_amount', 'status', 'updated_at']]
    ([payment_columns_only]) the two columns of the stored row are written
    and the row has to exist; without it the row is updated or
    inserted. *)
Definition Invoice_save (env : Core.Env) (payment_columns_only : bool)
  : M State unit :=
  (s <- get ;;
   (if String.eqb (invoice_number (self s)) EmptyString
    then
      match Core.get_next_invoice_number env (branch (self s))
              (branches (db s)) with
      | None => raise (DoesNotExist "Branch matching query does not exist.")
      | Some (number, rows) =>
          modify (fun s =>
            mkState (set_invoice_number number (self s))
                    (mkDatabase rows (invoices (db s)) (line_items (db s))
                                (payments (db s)) (audit_logs (db s))))
      end
    else ret tt) ;;
   s <- get ;;
   (if (is_finalized (self s) && has_dirty_fields (self s))%bool
    then raise (BusinessRuleViolation
                  "Finalized invoices cannot be modified.")
    else ret tt) ;;
   if payment_columns_only then
     if has_invoice (invoices (db s)) (id (self s)) then
       modify (fun s =>
         set_db (mkDatabase (branches (db s))
                            (update_payment_columns (invoices (db s))
                                                    (self s))
                            (line_items (db s)) (payments (db s))
                            (audit_logs (db s))) s)
     else raise no_rows_affected
   else
     modify (fun s =>
       set_db (mkDatabase (branches (db s))
                          (upsert_invoice (invoices (db s)) (self s))
                          (line_items (db s)) (payments (db s))
                          (audit_logs (db s))) s))%py.

(** [self.line_items.all()]. *)
Definition line_items_of (key : UUID) (d : Database)
  : list InvoiceLineItem :=
  filter (fun l => N.eqb (invoice l) key) (line_items d).

(** [Invoice._update_payment_status]. *)
Definition _update_payment_status (i : Invoice) : Invoice :=
  if InvoiceStatus_beq (status i) CANCELLED then i
  else if PyDecimal.leb (balance_due i) dec_0 then set_status PAID i
  else if PyDecimal.gtb (paid_amount i) dec_0 then set_status PARTIAL i
  else if is_finalized i then set_status PENDING i
  else set_status DRAFT i.

(** [Invoice.calculate_totals]. *)
Definition calculate_totals (i : Invoice) (d : Database) : Invoice :=
  if is_finalized i then i
  else
    let two_places := dec_0_01 in
    let rows := line_items_of (id i) d in
    let subtotal := fold_left (fun acc l => PyDecimal.add acc (amount l))
                              rows dec_0_00 in
    let cgst_total :=
      fold_left (fun acc l => PyDecimal.add acc (cgst_amount l))
                rows dec_0_00 in
    let sgst_total :=
      fold_left (fun acc l => PyDecimal.add acc (sgst_amount l))
                rows dec_0_00 in
    let igst_total :=
      fold_left (fun acc l => PyDecimal.add acc (igst_amount l))
                rows dec_0_00 in
    let total_tax :=
      PyDecimal.add (PyDecimal.add cgst_total sgst_total) igst_total in
    let total_amount :=
      quantize_default
        (PyDecimal.sub (PyDecimal.add subtotal total_tax)
                       (discount_amount i))
        two_places in
    _update_payment_status
      (set_totals subtotal cgst_total sgst_total igst_total total_tax
                  total_amount i).

(** The pricing part of [InvoiceLineItem.save]: amount, discount, tax
    split. *)
Definition priced (is_interstate : bool) (l : InvoiceLineItem)
  : InvoiceLineItem :=
  let two_places := dec_0_01 in
  let amount0 :=
    quantize_default (PyDecimal.mul (of_int (quantity l)) (unit_price l))
                     two_places in
  let amount1 :=
    if PyDecimal.gtb (discount_percent l) dec_0
    then
      let discount :=
        quantize_default
          (div_100 (PyDecimal.mul amount0 (discount_percent l)))
          two_places in
      PyDecimal.sub amount0 discount
    else amount0 in
  let gst_calc := CoreUtils.calculate_gst amount1 (gst_rate l)
                                          is_interstate in
  mkLineItem (line_id l) (invoice l) (quantity l) (unit_price l) amount1
    (gst_rate l)
    (CoreUtils.cgst_rate gst_calc) (CoreUtils.cgst_amount gst_calc)
    (CoreUtils.sgst_rate gst_calc) (CoreUtils.sgst_amount gst_calc)
    (CoreUtils.igst_rate gst_calc) (CoreUtils.igst_amount gst_calc)
    (discount_percent l).

Fixpoint upsert_line_item (rows : list InvoiceLineItem)
    (l : InvoiceLineItem) : list InvoiceLineItem :=
  match rows with
  | [] => [l]
  | r :: rest =>
      if N.eqb (line_id r) (line_id l) then l :: rest
      else r :: upsert_line_item rest l
  end.

(** [InvoiceLineItem.save]; [self.invoice] is the invoice object of the
    state.  Returns the line item as saved. *)
Definition InvoiceLineItem_save (env : Core.Env) (l : InvoiceLineItem)
  : M State InvoiceLineItem :=
  (s <- get ;;
   let l' := priced (is_interstate (self s)) l in
   modify (fun s =>
     set_db (mkDatabase (branches (db s)) (invoices (db s))
                        (upsert_line_item (line_items (db s)) l')
                        (payments (db s)) (audit_logs (db s))) s) ;;
   modify (fun s => set_self (calculate_totals (self s) (db s)) s) ;;
   Invoice_save env false ;;
   ret l')%py.

(** [AuditLogService.log] on the billing database. *)
Definition audit (uuid4 : UUID) (user : User) (action model_name : string)
    (object_id : UUID) (details : list (string * string))
  : M State unit :=
  modify (fun s =>
    set_db (mkDatabase (branches (db s)) (invoices (db s))
              (line_items (db s)) (payments (db s))
              (snd (Audit.AuditLogService_log uuid4 user action model_name
                      object_id details (audit_logs (db s))))) s).

(** [Invoice.finalize(user)]; [uuid4] is drawn for the audit entry. *)
Definition finalize (env : Core.Env) (uuid4 : UUID) (user : User)
  : M State unit :=
  (s <- get ;;
   if is_finalized (self s) then ret tt
   else
     match line_items_of (id (self s)) (db s) with
     | [] => raise (BusinessRuleViolation
                      "Cannot finalize invoice without line items.")
     | _ :: _ =>
         modify (fun s => set_self (calculate_totals (self s) (db s)) s) ;;
         modify (fun s =>
           set_self (set_finalized (Some (Core.now env)) (Some user)
                                   (self s)) s) ;;
         modify (fun s => set_self (set_status PENDING (self s)) s) ;;
         Invoice_save env false ;;
         s <- get ;;
         audit uuid4 user "INVOICE_FINALIZED" "Invoice" (id (self s))
           [("invoice_number"%string, invoice_number (self s));
            ("total_amount"%string, PyDecimal.str (total_amount (self s)))]
     end)%py.

(** [Invoice.record_payment(amount, payment_method, user, reference='',
    notes='')]; [uuid4] is the key of the payment, [uuid4'] the one drawn
    for the audit entry. *)
Definition record_payment (env : Core.Env) (uuid4 uuid4' : UUID)
    (amount_ : Decimal) (payment_method_ : PaymentMethod) (user : User)
    (reference_ notes_ : string) : M State Payment :=
  (s <- get ;;
   if PyDecimal.leb amount_ dec_0 then
     raise (BusinessRuleViolation "Payment amount must be positive.")
   else if InvoiceStatus_beq (status (self s)) CANCELLED then
     raise (BusinessRuleViolation
              "Cannot record payment on cancelled invoice.")
   else
     atomic db set_db
       (let payment := mkPayment uuid4 (id (self s)) amount_
                         payment_method_ (Core.now env) reference_ notes_
                         user in
        modify (fun s =>
          set_db (mkDatabase (branches (db s)) (invoices (db s))
                             (line_items (db s))
                             (payment :: payments (db s))
                             (audit_logs (db s))) s) ;;
        modify (fun s =>
          set_self (set_paid_amount
                      (PyDecimal.add (paid_amount (self s)) amount_)
                      (self s)) s) ;;
        modify (fun s => set_self (_update_payment_status (self s)) s) ;;
        Invoice_save env true ;;
        s <- get ;;
        audit uuid4' user "PAYMENT_RECEIVED" "Payment" uuid4
          [("invoice_number"%string, invoice_number (self s));
           ("amount"%string, PyDecimal.str amount_);
           ("new_balance"%string, PyDecimal.str (balance_due (self s)))] ;;
        ret payment))%py.

(** The invoice object [Invoice.finalize] leaves behind when it goes
    through: totals recalculated from the line items, finalization flag
    and stamps set, status PENDING. *)
Definition finalized_invoice (env : Core.Env) (user : User) (s : State)
  : Invoice :=
  set_status PENDING
    (set_finalized (Some (Core.now env)) (Some user)
                   (calculate_totals (self s) (db s))).

(** The invoice object [Invoice.record_payment] leaves behind when it goes
    through: the amount added to [paid_amount], the status derived
    again. *)
Definition paid_invoice_after (amount : Decimal) (i : Invoice) : Invoice :=
  _update_payment_status
    (set_paid_amount (PyDecimal.add (paid_amount i) amount) i).

(** *** [billing/serializers.py]: [RecordPaymentSerializer] *)

(** The request body after parsing: a decimal, one of the payment method
    choices, two strings. *)
Record RecordPaymentData : Type := mkPaymentData {
  data_amount : Decimal;
  data_payment_method : PaymentMethod;
  data_reference : string;
  data_notes : string
}.

(** DRF's [DecimalField.validate_precision] for
    [DecimalField(max_digits, decimal_places)]: the message of the first
    check that fails, [None] when the value passes. *)
Definition validate_precision (max_digits decimal_places : nat)
    (v : Decimal) : option string :=
  let len := digits v in
  let total_digits := if (places v <? len)%nat then len else places v in
  let whole_digits := (len - places v)%nat in
  let max_whole_digits := (max_digits - decimal_places)%nat in
  if (max_digits <? total_digits)%nat then
    Some ("Ensure that there are no more than "
          ++ str_int (Z.of_nat max_digits) ++ " digits in total.")%string
  else if (decimal_places <? places v)%nat then
    Some ("Ensure that there are no more than "
          ++ str_int (Z.of_nat decimal_places) ++ " decimal places.")%string
  else if (max_whole_digits <? whole_digits)%nat then
    Some ("Ensure that there are no more than "
          ++ str_int (Z.of_nat max_whole_digits)
          ++ " digits before the decimal point.")%string
  else None.

(** The rupee sign U+20B9, as its three UTF-8 bytes. *)
Definition rupee : string :=
  String "226"%char (String "130"%char (String "185"%char EmptyString)).

(** [RecordPaymentSerializer.is_valid(raise_exception=True)] with
    [context={'invoice': invoice}]; returns [validated_data].
    [amount = DecimalField(max_digits=12, decimal_places=2,
    min_value=Decimal('0.01'))] is checked for precision, quantized to two
    places and compared with [min_value]; then [validate_amount] runs;
    [reference = CharField(max_length=100)]. *)
Definition RecordPaymentSerializer_is_valid (data : RecordPaymentData)
  : M State RecordPaymentData :=
  (s <- get ;;
   match validate_precision 12 2 (data_amount data) with
   | Some msg => raise (ValidationError msg)
   | None =>
       let value := quantize_default (data_amount data) dec_0_01 in
       if PyDecimal.ltb value dec_0_01 then
         raise (ValidationError
                  "Ensure this value is greater than or equal to 0.01.")
       else if PyDecimal.gtb value (balance_due (self s)) then
         raise (ValidationError
                  ("Payment amount exceeds balance due (" ++ rupee
                   ++ PyDecimal.str (balance_due (self s)) ++ ").")%string)
       else if (100 <? String.length (data_reference data))%nat then
         raise (ValidationError
                  "Ensure this field has no more than 100 characters.")
       else
         ret (mkPaymentData value (data_payment_method data)
                            (data_reference data) (data_notes data))
   end)%py.

(** *** [billing/views.py]: [InvoiceViewSet] *)

Inductive Body : Type :=
| Error (msg : string)
| Finalized (invoice_number : string) (total_amount : string)
| PaymentRecorded (payment : Payment) (balance_due : string)
                  (status : InvoiceStatus).

Record Response : Type := mkResponse {
  status_code : Z;
  body : Body
}.

Definition HTTP_200_OK : Z := 200.
Definition HTTP_400_BAD_REQUEST : Z := 400.

(** [InvoiceViewSet.finalize], from the line after
    [invoice = self.get_object()]: the invoice object of the state is the
    one the view fetched. *)
Definition InvoiceViewSet_finalize (env : Core.Env) (uuid4 : UUID)
    (request_user : User) : M State Response :=
  (s <- get ;;
   if is_finalized (self s) then
     ret (mkResponse HTTP_400_BAD_REQUEST
                     (Error "Invoice is already finalized."))
   else
     try_except
       (finalize env uuid4 request_user ;;
        s <- get ;;
        ret (mkResponse HTTP_200_OK
               (Finalized (invoice_number (self s))
                          (PyDecimal.str (total_amount (self s))))))
       (fun e => ret (mkResponse HTTP_400_BAD_REQUEST
                                 (Error (message e)))))%py.

(** [InvoiceViewSet.record_payment], from the line after
    [invoice = self.get_object()].  A [ValidationError] raised by
    [is_valid] leaves the view; DRF answers it with status 400. *)
Definition InvoiceViewSet_record_payment (env : Core.Env)
    (uuid4 uuid4' : UUID) (request_user : User)
    (request_data : RecordPaymentData) : M State Response :=
  (s <- get ;;
   if negb (is_finalized (self s)) then
     ret (mkResponse HTTP_400_BAD_REQUEST
                     (Error "Finalize invoice before recording payments."))
   else
     validated_data <- RecordPaymentSerializer_is_valid request_data ;;
     try_except
       (payment <- record_payment env uuid4 uuid4'
                     (data_amount validated_data)
                     (data_payment_method validated_data) request_user
                     (data_reference validated_data)
                     (data_notes validated_data) ;;
        s <- get ;;
        ret (mkResponse HTTP_200_OK
               (PaymentRecorded payment
                                (PyDecimal.str (balance_due (self s)))
                                (status (self s)))))
       (fun e => ret (mkResponse HTTP_400_BAD_REQUEST
                                 (Error (message e)))))%py.

(** An endpoint call failed: an exception left the view, or the view
    answered with an error status. *)
Definition failed (r : Outcome Response) : Prop :=
  match r with
  | Raised _ => True
  | Returned resp => status_code resp = HTTP_400_BAD_REQUEST
  end.

End Billing.

(** ** Exact arithmetic, to state what the roundings should be *)
Module Exact.

(** The rational number a decimal denotes. *)
Definition to_Q (d : Decimal) : Q :=
  Qmake (coef d) (Z.to_pos (pow10 (places d))).

(** [x] rounded to the nearest hundredth, a tie going away from zero, as
    a number of hundredths. *)
Definition round_half_up_cents (x : Q) : Z :=
  Z.sgn (Qnum x) * Qfloor (Qabs x * 100 + (1 # 2)).

Definition round_half_up_2dp (x : Q) : Q :=
  Qmake (round_half_up_cents x) 100.

Local Open Scope Q_scope.

(** The component part of the tax breakdown: all of the tax is IGST for
    an interstate supply; the rate is halved and each half is applied to
    the base and rounded on its own for an intrastate supply. *)
Definition gst_components (base rate : Decimal) (is_interstate : bool)
  : Prop :=
  let r := CoreUtils.calculate_gst base rate is_interstate in
  if is_interstate then
    to_Q (CoreUtils.igst_rate r) == to_Q rate
    /\ to_Q (CoreUtils.igst_amount r)
       == round_half_up_2dp (to_Q base * to_Q rate / 100)
    /\ to_Q (CoreUtils.cgst_rate r) == 0
    /\ to_Q (CoreUtils.cgst_amount r) == 0
    /\ to_Q (CoreUtils.sgst_rate r) == 0
    /\ to_Q (CoreUtils.sgst_amount r) == 0
  else
    to_Q (CoreUtils.cgst_rate r) == to_Q rate / 2
    /\ to_Q (CoreUtils.sgst_rate r) == to_Q rate / 2
    /\ to_Q (CoreUtils.cgst_amount r)
       == round_half_up_2dp (to_Q base * (to_Q rate / 2) / 100)
    /\ to_Q (CoreUtils.sgst_amount r)
       == round_half_up_2dp (to_Q base * (to_Q rate / 2) / 100)
    /\ to_Q (CoreUtils.igst_rate r) == 0
    /\ to_Q (CoreUtils.igst_amount r) == 0.




End Exact.

(** ** Sample data used by the examples and evaluations of Part II *)
Module Sample.

Definition env : Core.Env := Core.mkEnv 1000 2026 11 4.

Definition branch : Core.Branch := Core.mkBranch 7%N "MUM" "INV" 0 "JC" 41.

Definition user : User := 5%N.

(** A job card of the branch in status [st], with no delivery OTP. *)
Definition job_in (st : Jobs.JobStatus) : Jobs.JobCard :=
  Jobs.mkJobCard 1%N branch "JC/2025-26/MUM/00041" st None None None EmptyString.

(** The job object as loaded, its stored row, and an empty history. *)
Definition jobs_state (st : Jobs.JobStatus) : Jobs.State :=
  Jobs.mkState (job_in st)
    (Jobs.mkDatabase [branch] [job_in st] []) [].

(** A stored history row RECEIVED -> DIAGNOSED of that job. *)
Definition history_row : Jobs.JobStatusHistory :=
  Jobs.mkHistory (Some 20%N) 1%N Jobs.RECEIVED Jobs.DIAGNOSED user EmptyString false.

Definition jobs_state_with_history : Jobs.State :=
  Jobs.mkState (job_in Jobs.DIAGNOSED)
    (Jobs.mkDatabase [branch] [job_in Jobs.DIAGNOSED] [history_row]) [].

(** An item with 1 piece in stock, its stored row and one stored
    adjustment row (the stock of 1 was entered as an ADD from 0). *)
Definition item : Inventory.InventoryItem :=
  Inventory.mkItem 30%N "SSD 512GB" (mkDecimal 450000 2) 1 5.

Definition adjustment_row : Inventory.InventoryAdjustment :=
  Inventory.mkAdjustment (Some 40%N) 30%N Inventory.ADD 1 0 1
                         "Purchase order 123" (Some user) false.

Definition inventory_state : Inventory.State :=
  Inventory.mkState item
    (Inventory.mkDatabase [item] [adjustment_row] [] []).

(** A finalized, unpaid invoice of 1180.00 (one line of 1000.00 at 18%,
    intrastate) and the same invoice before finalization. *)
Definition line : Billing.InvoiceLineItem :=
  Billing.priced false
    (Billing.mkLineItem 61%N 60%N 1 (mkDecimal 100000 2) dec_0_00
       (mkDecimal 1800 2) dec_0 dec_0 dec_0 dec_0 dec_0 dec_0
       (mkDecimal 0 2)).

Definition invoice (finalized : bool) : Billing.Invoice :=
  Billing.mkInvoice 60%N branch "INV/2025-26/MUM/00001" false
    (mkDecimal 100000 2) (mkDecimal 9000 2) (mkDecimal 9000 2)
    (mkDecimal 0 2) (mkDecimal 0 2) (mkDecimal 18000 2)
    (mkDecimal 118000 2)
    (if finalized then Billing.PENDING else Billing.DRAFT)
    (mkDecimal 0 2) finalized
    (if finalized then Some 900 else None)
    (if finalized then Some user else None).

Definition billing_state (finalized : bool) : Billing.State :=
  Billing.mkState (invoice finalized)
    (Billing.mkDatabase [branch] [invoice finalized] [line] [] []).

(** A draft invoice without line items. *)
Definition empty_draft_state : Billing.State :=
  Billing.mkState (invoice false)
    (Billing.mkDatabase [branch] [invoice false] [] [] []).

(** A line of 1 x 10.00 with a discount of 0.25 percent, and a line of
    1 x 0.125, as they are handed to [InvoiceLineItem.save]. *)
Definition discounted_line : Billing.InvoiceLineItem :=
  Billing.mkLineItem 62%N 60%N 1 (mkDecimal 1000 2) dec_0_00
    (mkDecimal 1800 2) dec_0 dec_0 dec_0 dec_0 dec_0 dec_0
    (mkDecimal 25 2).

Definition sub_paisa_line : Billing.InvoiceLineItem :=
  Billing.mkLineItem 63%N 60%N 1 (mkDecimal 125 3) dec_0_00
    (mkDecimal 1800 2) dec_0 dec_0 dec_0 dec_0 dec_0 dec_0
    (mkDecimal 0 2).

(** A request to record a payment of [amount] in cash. *)
Definition payment_of (amount : Decimal) : Billing.RecordPaymentData :=
  Billing.mkPaymentData amount Billing.CASH "receipt 17" EmptyString.

End Sample.

(** ** [core/models.py]: document numbers issued by successive calls *)
Module Numbering.

Import Core.

(** One call of [get_next_jobcard_number] or [get_next_invoice_number]:
    the clock and settings at the time of the call, and the Python
    [Branch] object the method is called on (prefix and code are read from
    it, the counter from the locked row). *)
Record Call : Type := mkCall {
  call_env : Env;
  call_self : Branch
}.

(** The numbers returned by a series of calls of [next], oldest first,
    and the branch table after the last one.  A call on a branch without
    a stored row raises [Branch.DoesNotExist] and issues nothing. *)
Fixpoint issue_numbers
    (next : Env -> Branch -> list Branch -> option (string * list Branch))
    (calls : list Call) (rows : list Branch)
  : list string * list Branch :=
  match calls with
  | [] => ([], rows)
  | c :: rest =>
      match next (call_env c) (call_self c) rows with
      | None => issue_numbers next rest rows
      | Some (number, rows') =>
          let (numbers, rows'') := issue_numbers next rest rows' in
          (number :: numbers, rows'')
      end
  end.

(** The part of a number after its last ["/"]: the sequence. *)
Definition has_slash (s : string) : bool :=
  existsb (Ascii.eqb "/"%char) (list_ascii_of_string s).

Fixpoint last_segment (s : string) : string :=
  match s with
  | EmptyString => EmptyString
  | String c rest =>
      if has_slash rest then last_segment rest
      else if Ascii.eqb c "/" then rest
      else String c rest
  end.

(** The integer a string of decimal digits denotes, leading zeros
    allowed. *)
Definition read_digits (s : string) : option Z :=
  option_map Z.of_uint (NilEmpty.uint_of_string s).

(** The sequence number a document number ends with. *)
Definition sequence_of (number : string) : option Z :=
  read_digits (last_segment number).

(** [k] zeros, the padding of [zfill]. *)
Definition zeros (k : nat) : string :=
  string_of_list_ascii (repeat "0"%char k).

(** The year in which the financial year of [env] starts. *)
Definition start_year (env : Env) : Z :=
  if today_month env >=? FINANCIAL_YEAR_START_MONTH env
  then today_year env
  else today_year env - 1.

End Numbering.

(** ** [core/utils.py]: state codes, one-time codes *)
Module Utils.

Section StateCodes.

(** [str.strip()]. *)
Variable strip : string -> string.

(** [is_interstate_supply(branch_state_code, customer_state_code)]. *)
Definition is_interstate_supply
    (branch_state_code customer_state_code : string) : bool :=
  if (String.eqb branch_state_code EmptyString
      || String.eqb customer_state_code EmptyString)%bool
  then false
  else negb (String.eqb (strip branch_state_code)
                        (strip customer_state_code)).

End StateCodes.

(** [generate_otp(length=6)]: [draws] are the values of
    [random.randint(0, 9)], one for each of the [length] rounds of the
    loop. *)
Definition generate_otp (draws : list Z) : string :=
  String.concat EmptyString (map str_int draws).

(** A character ['0'] .. ['9']. *)
Definition is_digit (c : ascii) : bool :=
  ((48 <=? nat_of_ascii c) && (nat_of_ascii c <=? 57))%nat.

Definition all_digits (s : string) : bool :=
  forallb is_digit (list_ascii_of_string s).

(** [needle in hay] for strings. *)
Definition occurs (needle hay : string) : Prop :=
  exists pre post, hay = (pre ++ needle ++ post)%string.

End Utils.

(** ** [jobs/serializers.py], [jobs/views.py] *)
Module JobsApi.

Import Jobs.

(** [class Role(models.TextChoices)] of [core/models.py]. *)
Inductive Role : Type :=
| OWNER | MANAGER | RECEPTIONIST | TECHNICIAN | ACCOUNTANT.

Scheme Equality for Role.

Definition role_in (r : Role) (rs : list Role) : bool :=
  existsb (Role_beq r) rs.



(** [JobStatusUpdateSerializer.validate_new_status(value)]; [job] and
    the role of [request.user] come from the context,
    [initial_is_override] is [self.initial_data.get('is_override')]. *)
Definition validate_new_status (job : JobCard) (role : Role)
    (initial_is_override : option bool) (value : JobStatus)
  : Outcome JobStatus :=
  let is_override :=
    match initial_is_override with Some b => b | None => false end in
  if is_override then
    if negb (role_in role [OWNER; MANAGER]) then
      Raised (ValidationError
                "Only owners and managers can override status transitions.")
    else Returned value
  else if negb (can_transition_to job value) then
    let allowed := map label (ALLOWED_STATUS_TRANSITIONS (status job)) in
    Raised (ValidationError
              ("Cannot transition from " ++ label (status job)
               ++ " to this status. "
               ++ "Allowed: " ++ String.concat ", " allowed)%string)
  else Returned value.


Inductive Body : Type :=
| Error (msg : string)
| StatusUpdated (message : string) (status : JobStatus)
                (status_display : string).

Record Response : Type := mkResponse {
  status_code : Z;
  body : Body
}.

Definition HTTP_200_OK : Z := 200.
Definition HTTP_400_BAD_REQUEST : Z := 400.


(** The body of a delivery request after field validation.  [signature]
    is the name of the uploaded image; an uploaded file is truthy when its
    name is not empty. *)
Record DeliveryData : Type := mkDeliveryData {
  otp : option string;
  signature : option string;
  delivery_notes : option string
}.

(** [bool(data.get(key))] for a string-valued key. *)
Definition truthy (v : option string) : bool :=
  match v with
  | Some (String _ _) => true
  | _ => false
  end.

(** [JobDeliverySerializer.validate(data)] with [context={'job': job}]. *)
Definition JobDeliverySerializer_validate (job : JobCard)
    (data : DeliveryData) : Outcome DeliveryData :=
  if (negb (truthy (otp data)) && negb (truthy (signature data)))%bool then
    Raised (ValidationError
              "Either OTP or customer signature is required for delivery.")
  else
    match otp data with
    | Some (String c rest) =>
        if negb (verify_delivery_otp job (String c rest))
        then Raised (ValidationError "Invalid OTP.")
        else Returned data
    | _ => Returned data
    end.

(** A series of status changes each of which [can_transition_to] allows,
    starting from the status of [job]. *)
Fixpoint follows_the_table (job : JobCard) (path : list JobStatus) : bool :=
  match path with
  | [] => true
  | t :: rest =>
      can_transition_to job t && follows_the_table (set_status t job) rest
  end.

(** The statuses a job in status [s] has yet to pass before it can be
    DELIVERED. *)
Definition ahead (s : JobStatus) : list JobStatus :=
  match s with
  | RECEIVED => [DIAGNOSED; ESTIMATE_SHARED; APPROVED; IN_PROGRESS; READY]
  | DIAGNOSED => [ESTIMATE_SHARED; APPROVED; IN_PROGRESS; READY]
  | ESTIMATE_SHARED => [APPROVED; IN_PROGRESS; READY]
  | APPROVED => [IN_PROGRESS; READY]
  | IN_PROGRESS => [READY]
  | ON_HOLD => [IN_PROGRESS; READY]
  | _ => []
  end.

(** [self.get_object()]: the first stored row with this key. *)
Fixpoint get_jobcard (rows : list JobCard) (key : UUID) : option JobCard :=
  match rows with
  | [] => None
  | r :: rest => if N.eqb (id r) key then Some r else get_jobcard rest key
  end.

End JobsApi.

(** ** [jobs/models.py]: [PartRequest] *)
Module PartRequests.

(** Choices of [PartRequest.status]. *)
Inductive RequestStatus : Type := PENDING | APPROVED | REJECTED | USED.

(** The fields of [PartRequest] that [approve] reads or writes;
    [job_number] is [self.job.job_number]. *)
Record PartRequest : Type := mkPartRequest {
  id : UUID;
  job_number : string;
  part_name : string;
  quantity : Z;
  status : RequestStatus;
  approved_by : option User
}.

Record Database : Type := mkDatabase {
  part_requests : list PartRequest;
  inventory : Inventory.Database
}.

(** The Python object [self], the object [self.inventory_item] ([None]
    when the request names no inventory item) and the database. *)
Record State : Type := mkState {
  self : PartRequest;
  inventory_item : option Inventory.InventoryItem;
  db : Database
}.

Definition set_self (r : PartRequest) (s : State) : State :=
  mkState r (inventory_item s) (db s).
Definition set_db (d : Database) (s : State) : State :=
  mkState (self s) (inventory_item s) d.

(** A method of [self.inventory_item], run on that object and on the
    inventory tables. *)
Definition on_inventory_item {A} (item : Inventory.InventoryItem)
    (c : M Inventory.State A) : M State A :=
  fun s =>
    let (r, t) := c (Inventory.mkState item (inventory (db s))) in
    (r, mkState (self s) (Some (Inventory.self t))
                (mkDatabase (part_requests (db s)) (Inventory.db t))).

(** [Model.save()] on a part request. *)
Fixpoint upsert_part_request (rows : list PartRequest) (r : PartRequest)
  : list PartRequest :=
  match rows with
  | [] => [r]
  | x :: rest =>
      if N.eqb (id x) (id r) then r :: rest
      else x :: upsert_part_request rest r
  end.

(** [PartRequest.approve(user)]; [uuid4], [uuid4'] are the keys
    [deduct_stock] draws. *)
Definition approve (uuid4 uuid4' : UUID) (user : User) : M State unit :=
  atomic db set_db
    (s <- get ;;
     (match inventory_item s with
      | Some item =>
          if Inventory.quantity item <? quantity (self s) then
            raise (InsufficientInventory
                     ("Not enough stock for " ++ part_name (self s) ++ ". "
                      ++ "Requested: " ++ str_int (quantity (self s))
                      ++ ", Available: "
                      ++ str_int (Inventory.quantity item))%string)
          else
            on_inventory_item item
              (Inventory.deduct_stock uuid4 uuid4' (quantity (self s))
                 ("Used for job " ++ job_number (self s))%string None None)
      | None => ret tt
      end) ;;
     modify (fun s =>
       set_self (mkPartRequest (id (self s)) (job_number (self s))
                   (part_name (self s)) (quantity (self s)) APPROVED
                   (Some user)) s) ;;
     modify (fun s =>
       set_db (mkDatabase (upsert_part_request (part_requests (db s))
                                               (self s))
                          (inventory (db s))) s))%py.

End PartRequests.

(** ** [inventory/views.py]: the stock endpoints *)
Module InventoryApi.

Import Inventory.

(** The item object the view fetched with the inventory tables, and the
    audit table. *)
Record State : Type := mkState {
  stock : Inventory.State;
  audit_logs : list Audit.AuditLog
}.

(** A method of the item, run inside the view. *)
Definition on_item {A} (c : M Inventory.State A) : M State A :=
  fun s =>
    let (r, t) := c (stock s) in (r, mkState t (audit_logs s)).

Inductive Body : Type :=
| Error (msg : string)
| StockChanged (message : string) (new_quantity : Z)
| StockAdjusted (message : string) (old_quantity new_quantity : Z).

Record Response : Type := mkResponse {
  status_code : Z;
  body : Body
}.

Definition HTTP_200_OK : Z := 200.
Definition HTTP_400_BAD_REQUEST : Z := 400.

(** [InventoryItemViewSet.add_stock], from the line after
    [serializer.is_valid(raise_exception=True)]; [quantity_] and [reason]
    are [serializer.validated_data]. *)
Definition InventoryItemViewSet_add_stock (uuid4 : UUID)
    (request_user : User) (quantity_ : Z) (reason : string)
  : M State Response :=
  (on_item (add_stock uuid4 quantity_ reason (Some request_user)) ;;
   s <- get ;;
   ret (mkResponse HTTP_200_OK
          (StockChanged ("Added " ++ str_int quantity_ ++ " to stock.")%string
                        (quantity (self (stock s))))))%py.

(** [InventoryItemViewSet.deduct_stock], from the same line; [job_id] is
    [validated_data.get('job_id')], [job_ids] the keys of the stored job
    cards: an unknown [job_id] gives [job = None]. *)
Definition InventoryItemViewSet_deduct_stock (uuid4 uuid4' : UUID)
    (request_user : User) (quantity_ : Z) (reason : string)
    (job_id : option UUID) (job_ids : list UUID) : M State Response :=
  (let job :=
     match job_id with
     | Some j => if existsb (N.eqb j) job_ids then Some j else None
     | None => None
     end in
   try_except
     (on_item (deduct_stock uuid4 uuid4' quantity_ reason
                            (Some request_user) job) ;;
      s <- get ;;
      ret (mkResponse HTTP_200_OK
             (StockChanged
                ("Deducted " ++ str_int quantity_ ++ " from stock.")%string
                (quantity (self (stock s))))))
     (fun e =>
        match e with
        | InsufficientInventory _ =>
            ret (mkResponse HTTP_400_BAD_REQUEST (Error (message e)))
        | _ => raise e
        end))%py.

(** [InventoryItemViewSet.adjust_stock], from the same line; [uuid4'] is
    the key drawn for the audit entry. *)
Definition InventoryItemViewSet_adjust_stock (uuid4 uuid4' : UUID)
    (request_user : User) (new_quantity_ : Z) (reason : string)
  : M State Response :=
  (s <- get ;;
   let old_quantity := quantity (self (stock s)) in
   on_item (adjust_stock uuid4 new_quantity_ reason (Some request_user)) ;;
   modify (fun s =>
     let item := self (stock s) in
     mkState (stock s)
       (snd (Audit.AuditLogService_log uuid4' request_user
               "MANUAL_STOCK_ADJUSTMENT" "InventoryItem" (id item)
               [("item_name"%string, name item);
                ("old_quantity"%string, str_int old_quantity);
                ("new_quantity"%string, str_int (quantity item));
                ("reason"%string, reason)]
               (audit_logs s)))) ;;
   s <- get ;;
   ret (mkResponse HTTP_200_OK
          (StockAdjusted
             ("Stock adjusted from " ++ str_int old_quantity ++ " to "
              ++ str_int (quantity (self (stock s))) ++ ".")%string
             old_quantity (quantity (self (stock s))))))%py.

End InventoryApi.

(** ** [billing/serializers.py], [billing/views.py]: line items *)
Module BillingApi.

Import Billing.

(** [InvoiceLineItemSerializer.get_total_with_tax]. *)
Definition get_total_with_tax (obj : InvoiceLineItem) : string :=
  PyDecimal.str
    (PyDecimal.add
       (PyDecimal.add (PyDecimal.add (amount obj) (cgst_amount obj))
                      (sgst_amount obj))
       (igst_amount obj)).

(** [serializer.validated_data] of [AddLineItemSerializer], pricing
    fields: [quantity], [gst_rate] and [discount_percent] are optional and
    take the model defaults 1, 18.00 and 0. *)
Record AddLineItemData : Type := mkAddLineItemData {
  data_quantity : option Z;
  data_unit_price : Decimal;
  data_gst_rate : option Decimal;
  data_discount_percent : option Decimal
}.

(** [InvoiceLineItem(invoice=invoice, ...)] as [objects.create] builds it
    before [save]: the key comes from [uuid4()], the rate and amount
    columns have their defaults until [save] computes them. *)
Definition InvoiceLineItem_init (uuid4 : UUID) (invoice_ : UUID)
    (data : AddLineItemData) : InvoiceLineItem :=
  mkLineItem uuid4 invoice_
    (match data_quantity data with Some q => q | None => 1 end)
    (data_unit_price data) dec_0
    (match data_gst_rate data with
     | Some r => r
     | None => mkDecimal 1800 2
     end)
    dec_0 dec_0 dec_0 dec_0 dec_0 dec_0
    (match data_discount_percent data with Some d => d | None => dec_0 end).

Inductive Body : Type :=
| Error (msg : string)
| LineItemCreated (line_item : InvoiceLineItem) (total_with_tax : string)
| Message (msg : string).

Record Response : Type := mkResponse {
  status_code : Z;
  body : Body
}.

Definition HTTP_200_OK : Z := 200.
Definition HTTP_201_CREATED : Z := 201.
Definition HTTP_400_BAD_REQUEST : Z := 400.
Definition HTTP_404_NOT_FOUND : Z := 404.

(** [InvoiceViewSet.add_line_item], from the line after
    [serializer.is_valid(raise_exception=True)]. *)
Definition InvoiceViewSet_add_line_item (env : Core.Env) (uuid4 : UUID)
    (validated_data : AddLineItemData) : M State Response :=
  (s <- get ;;
   if is_finalized (self s) then
     ret (mkResponse HTTP_400_BAD_REQUEST
                     (Error "Cannot modify a finalized invoice."))
   else
     line_item <- InvoiceLineItem_save env
                    (InvoiceLineItem_init uuid4 (id (self s))
                                          validated_data) ;;
     ret (mkResponse HTTP_201_CREATED
            (LineItemCreated line_item (get_total_with_tax line_item))))%py.

(** [invoice.line_items.get(pk=item_id)]. *)
Definition get_line_item (key item_id : UUID) (d : Database)
  : option InvoiceLineItem :=
  find (fun l => N.eqb (line_id l) item_id) (line_items_of key d).

(** [line_item.delete()]: [InvoiceLineItem] has no [delete] of its own. *)
Definition delete_line_item (item_id : UUID) (rows : list InvoiceLineItem)
  : list InvoiceLineItem :=
  filter (fun l => negb (N.eqb (line_id l) item_id)) rows.

(** [InvoiceViewSet.remove_line_item], from the line after
    [invoice = self.get_object()]; [item_id] is the key in the URL. *)
Definition InvoiceViewSet_remove_line_item (env : Core.Env)
    (item_id : UUID) : M State Response :=
  (s <- get ;;
   if is_finalized (self s) then
     ret (mkResponse HTTP_400_BAD_REQUEST
                     (Error "Cannot modify a finalized invoice."))
   else
     match get_line_item (id (self s)) item_id (db s) with
     | None =>
         ret (mkResponse HTTP_404_NOT_FOUND (Error "Line item not found."))
     | Some _ =>
         modify (fun s =>
           set_db (mkDatabase (branches (db s)) (invoices (db s))
                     (delete_line_item item_id (line_items (db s)))
                     (payments (db s)) (audit_logs (db s))) s) ;;
         modify (fun s => set_self (calculate_totals (self s) (db s)) s) ;;
         Invoice_save env false ;;
         ret (mkResponse HTTP_200_OK (Message "Line item removed."))
     end)%py.

(** [self.get_object()] on the invoice table. *)
Fixpoint get_invoice (rows : list Invoice) (key : UUID) : option Invoice :=
  match rows with
  | [] => None
  | r :: rest => if N.eqb (id r) key then Some r else get_invoice rest key
  end.

(** One request to the payment endpoint for the invoice with key [key]:
    the stored row is loaded and [InvoiceViewSet.record_payment] runs on
    it; the database afterwards.  Without such a row the request is
    answered 404 and nothing runs. *)
Record PaymentRequest : Type := mkPaymentRequest {
  req_invoice : UUID;
  req_uuid4 : UUID;
  req_uuid4' : UUID;
  req_user : User;
  req_data : RecordPaymentData
}.

Definition handle_payment_request (env : Core.Env) (r : PaymentRequest)
    (d : Database) : Database :=
  match get_invoice (invoices d) (req_invoice r) with
  | Some row =>
      db (snd (InvoiceViewSet_record_payment env (req_uuid4 r)
                 (req_uuid4' r) (req_user r) (req_data r)
                 (mkState row d)))
  | None => d
  end.

Definition handle_payment_requests (env : Core.Env)
    (rs : list PaymentRequest) (d : Database) : Database :=
  fold_left (fun d r => handle_payment_request env r d) rs d.

(** No stored invoice is paid beyond its total, and every stored invoice
    has its number. *)
Definition no_overpayment (d : Database) : Prop :=
  Forall (fun r =>
            invoice_number r <> EmptyString
            /\ PyDecimal.leb (paid_amount r) (total_amount r) = true)
         (invoices d).

(** A line item whose amount has two decimals and whose tax amounts have
    at most two, as [InvoiceLineItem.save] leaves it. *)
Definition two_place_line (l : InvoiceLineItem) : Prop :=
  places (amount l) = 2%nat
  /\ (places (cgst_amount l) <= 2)%nat
  /\ (places (sgst_amount l) <= 2)%nat
  /\ (places (igst_amount l) <= 2)%nat.

(** The exact sum of a column over rows. *)
Definition sum_Q (f : InvoiceLineItem -> Decimal)
    (rows : list InvoiceLineItem) : Q :=
  fold_right (fun l acc => (Exact.to_Q (f l) + acc)%Q) 0%Q rows.

End BillingApi.

(* ===================================================================== *)
(** * Part II.  Properties                                                *)
(* ===================================================================== *)

(** ** Decimal arithmetic and the tax engine *)

(** Powers of ten. *)
Lemma pow10_pos (n : nat) : 0 < pow10 n.
Proof. unfold pow10. apply Z.pow_pos_nonneg; lia. Qed.

Lemma pow10_add (a b : nat) : pow10 (a + b) = pow10 a * pow10 b.
Proof. unfold pow10. rewrite Nat2Z.inj_add. apply Z.pow_add_r; lia. Qed.

Lemma pow10_S (a : nat) : pow10 (S a) = 10 * pow10 a.
Proof. unfold pow10. rewrite Nat2Z.inj_succ. apply Z.pow_succ_r; lia. Qed.

Lemma pow10_den (n : nat) : Zpos (Z.to_pos (pow10 n)) = pow10 n.
Proof. apply Z2Pos.id, pow10_pos. Qed.

Lemma rescale_pow10 (d : Decimal) (n : nat) :
  (places d <= n)%nat -> rescale d n * pow10 (places d) = coef d * pow10 n.
Proof.
  intro H. unfold rescale.
  replace n with ((n - places d) + places d)%nat at 2 by lia.
  rewrite pow10_add. ring.
Qed.

(** The operations of [PyDecimal] compute, on the rationals the decimals
    denote, the sum, difference, product and the two quotients. *)
Lemma to_Q_eq (a b : Decimal) :
  (Exact.to_Q a == Exact.to_Q b)%Q <-> same_value a b.
Proof.
  unfold Qeq, Exact.to_Q, same_value; simpl. now rewrite !pow10_den.
Qed.

Lemma to_Q_mul (a b : Decimal) :
  (Exact.to_Q (mul a b) == Exact.to_Q a * Exact.to_Q b)%Q.
Proof.
  unfold Qeq, Exact.to_Q, mul; simpl.
  rewrite Pos2Z.inj_mul, !pow10_den, pow10_add. ring.
Qed.

Lemma to_Q_add (a b : Decimal) :
  (Exact.to_Q (add a b) == Exact.to_Q a + Exact.to_Q b)%Q.
Proof.
  unfold Qeq, Exact.to_Q, add; simpl.
  rewrite Pos2Z.inj_mul, !pow10_den.
  set (n := Nat.max (places a) (places b)).
  pose proof (rescale_pow10 a n ltac:(lia)) as Ha.
  pose proof (rescale_pow10 b n ltac:(lia)) as Hb.
  transitivity (rescale a n * pow10 (places a) * pow10 (places b)
                + rescale b n * pow10 (places b) * pow10 (places a));
    [ring | rewrite Ha, Hb; ring].
Qed.

Lemma to_Q_sub (a b : Decimal) :
  (Exact.to_Q (sub a b) == Exact.to_Q a - Exact.to_Q b)%Q.
Proof.
  unfold Qeq, Exact.to_Q, sub; simpl.
  rewrite Pos2Z.inj_mul, !pow10_den.
  set (n := Nat.max (places a) (places b)).
  pose proof (rescale_pow10 a n ltac:(lia)) as Ha.
  pose proof (rescale_pow10 b n ltac:(lia)) as Hb.
  transitivity (rescale a n * pow10 (places a) * pow10 (places b)
                - rescale b n * pow10 (places b) * pow10 (places a));
    [ring | rewrite Ha, Hb; ring].
Qed.

Lemma to_Q_div_2 (a : Decimal) :
  (Exact.to_Q (div_2 a) == Exact.to_Q a / 2)%Q.
Proof.
  unfold div_2. destruct (Z.even (coef a)) eqn:E.
  - apply Z.even_spec in E. destruct E as [k Hk].
    unfold Qeq, Exact.to_Q, Qdiv, Qmult, Qinv; simpl.
    rewrite Pos2Z.inj_mul, !pow10_den, Hk.
    rewrite (Z.mul_comm 2 k), Z.div_mul by lia. ring.
  - unfold Qeq, Exact.to_Q, Qdiv, Qmult, Qinv; simpl.
    rewrite Pos2Z.inj_mul, !pow10_den, pow10_S. ring.
Qed.

Lemma to_Q_div_100 (a : Decimal) :
  (Exact.to_Q (div_100 a) == Exact.to_Q a / 100)%Q.
Proof.
  unfold div_100.
  destruct (coef a mod 100 =? 0) eqn:E1; [|destruct (coef a mod 10 =? 0) eqn:E2].
  - apply Z.eqb_eq in E1.
    unfold Qeq, Exact.to_Q, Qdiv, Qmult, Qinv; simpl.
    rewrite Pos2Z.inj_mul, !pow10_den.
    pose proof (Z.div_mod (coef a) 100 ltac:(lia)). nia.
  - apply Z.eqb_eq in E2.
    unfold Qeq, Exact.to_Q, Qdiv, Qmult, Qinv; simpl.
    rewrite Pos2Z.inj_mul, !pow10_den, pow10_S.
    pose proof (Z.div_mod (coef a) 10 ltac:(lia)). nia.
  - unfold Qeq, Exact.to_Q, Qdiv, Qmult, Qinv; simpl.
    rewrite Pos2Z.inj_mul, !pow10_den, !pow10_S. ring.
Qed.

(** [quantize] to at least as many places as the decimal has changes the
    exponent, not the number. *)
Lemma to_Q_quantize_exact (d e : Decimal) (r : Rounding) :
  (places d <= places e)%nat ->
  (Exact.to_Q (quantize d e r) == Exact.to_Q d)%Q.
Proof.
  intro H. unfold quantize.
  apply Nat.leb_le in H as Hb. rewrite Hb.
  unfold Qeq, Exact.to_Q; simpl. rewrite !pow10_den.
  now apply rescale_pow10.
Qed.

(** The exact half-up rounding of a fraction, as an integer division. *)
Lemma round_half_up_cents_fraction (c : Z) (D : positive) :
  Exact.round_half_up_cents (c # D)
  = Z.sgn c * ((200 * Z.abs c + Zpos D) / (2 * Zpos D)).
Proof.
  unfold Exact.round_half_up_cents, Qfloor, Qabs, Qplus, Qmult.
  cbn [Qnum Qden inject_Z].
  rewrite Pos.mul_1_r, Pos2Z.inj_mul.
  f_equal. f_equal; ring.
Qed.

Lemma half_up_div (a s : Z) :
  0 <= a -> 0 < s ->
  (2 * a + s) / (2 * s)
  = a / s + match 2 * (a mod s) ?= s with Lt => 0 | _ => 1 end.
Proof.
  intros Ha Hs.
  pose proof (Z.div_mod a s ltac:(lia)) as Hdm.
  pose proof (Z.mod_pos_bound a s Hs) as Hr.
  symmetry. apply Z.div_unique with
    (r := 2 * (a mod s) + s
          - 2 * s * match 2 * (a mod s) ?= s with Lt => 0 | _ => 1 end).
  - left. destruct (Z.compare_spec (2 * (a mod s)) s); lia.
  - destruct (Z.compare_spec (2 * (a mod s)) s); nia.
Qed.

(** [quantize(Decimal('0.01'), ROUND_HALF_UP)] is the exact half-up
    rounding to two decimals of the number the decimal denotes. *)
Lemma to_Q_quantize_half_up (d : Decimal) :
  (Exact.to_Q (quantize d dec_0_01 ROUND_HALF_UP)
   == Exact.round_half_up_2dp (Exact.to_Q d))%Q.
Proof.
  unfold Exact.round_half_up_2dp, Exact.to_Q at 2.
  rewrite round_half_up_cents_fraction, pow10_den.
  unfold quantize; simpl places.
  destruct (places d <=? 2)%nat eqn:E.
  - apply Nat.leb_le in E.
    unfold Qeq, Exact.to_Q; cbn [Qnum Qden coef places].
    change (Zpos (Z.to_pos (pow10 2))) with 100. f_equal.
    unfold rescale.
    set (t := pow10 (2 - places d)).
    assert (Ht : 100 = pow10 (places d) * t).
    { unfold t. rewrite <- pow10_add.
      replace (places d + (2 - places d))%nat with 2%nat by lia. reflexivity. }
    pose proof (pow10_pos (places d)) as HD.
    pose proof (pow10_pos (2 - places d)) as Htp. fold t in Htp.
    assert (Hq : (200 * Z.abs (coef d) + pow10 (places d))
                 / (2 * pow10 (places d)) = t * Z.abs (coef d)).
    { symmetry. apply Z.div_unique with (r := pow10 (places d)); [lia|].
      change 200 with (2 * 100). rewrite Ht. ring. }
    rewrite Hq.
    rewrite (Z.mul_comm t), Z.mul_assoc, (Z.mul_comm (Z.sgn _)), Z.abs_sgn.
    reflexivity.
  - apply Nat.leb_gt in E.
    unfold Qeq, Exact.to_Q; cbn [Qnum Qden coef places].
    change (Zpos (Z.to_pos (pow10 2))) with 100. f_equal.
    set (s := pow10 (places d - 2)).
    assert (HD : pow10 (places d) = 100 * s).
    { unfold s. change 100 with (pow10 2). rewrite <- pow10_add.
      f_equal. lia. }
    pose proof (pow10_pos (places d - 2)) as Hs. fold s in Hs.
    rewrite HD.
    replace (200 * Z.abs (coef d) + 100 * s)
      with (100 * (2 * Z.abs (coef d) + s)) by ring.
    replace (2 * (100 * s)) with (100 * (2 * s)) by ring.
    rewrite Z.div_mul_cancel_l by lia.
    rewrite half_up_div by lia.
    unfold round_div. fold s.
    destruct (2 * (Z.abs (coef d) mod s) ?= s); f_equal; ring.
Qed.

(** The exact rounding depends on the number only, not on the fraction
    that writes it. *)
Lemma round_half_up_cents_comp (x y : Q) :
  (x == y)%Q -> Exact.round_half_up_cents x = Exact.round_half_up_cents y.
Proof.
  intro H. unfold Exact.round_half_up_cents. f_equal.
  - unfold Qeq in H.
    assert (Hx : Z.sgn (Qnum x) = Z.sgn (Qnum x * Zpos (Qden y))).
    { rewrite Z.sgn_mul. simpl. ring. }
    assert (Hy : Z.sgn (Qnum y) = Z.sgn (Qnum y * Zpos (Qden x))).
    { rewrite Z.sgn_mul. simpl. ring. }
    rewrite Hx, Hy. now f_equal.
  - apply Qfloor_comp. now rewrite H.
Qed.

#[export] Instance round_half_up_2dp_Proper :
  Proper (Qeq ==> Qeq) Exact.round_half_up_2dp.
Proof.
  intros x y H. unfold Exact.round_half_up_2dp.
  now rewrite (round_half_up_cents_comp x y H).
Qed.

Lemma to_Q_zero (n : nat) : (Exact.to_Q (mkDecimal 0 n) == 0)%Q.
Proof. unfold Qeq, Exact.to_Q; simpl. reflexivity. Qed.

(** The tax engine. *)
Lemma gst_components_hold (base rate : Decimal) (is_interstate : bool) :
  Exact.gst_components base rate is_interstate.
Proof.
  unfold Exact.gst_components, CoreUtils.calculate_gst.
  destruct is_interstate; cbn [CoreUtils.igst_rate CoreUtils.igst_amount
    CoreUtils.cgst_rate CoreUtils.cgst_amount CoreUtils.sgst_rate
    CoreUtils.sgst_amount].
  - repeat split; try apply to_Q_zero; try reflexivity.
    rewrite to_Q_quantize_half_up, to_Q_div_100, to_Q_mul. reflexivity.
  - repeat split; try apply to_Q_zero; try apply to_Q_div_2;
      rewrite to_Q_quantize_half_up, to_Q_div_100, to_Q_mul, to_Q_div_2;
      reflexivity.
Qed.


Lemma quantize_places (d e : Decimal) (r : Rounding) :
  places (quantize d e r) = places e.
Proof. unfold quantize. destruct (places d <=? places e)%nat; reflexivity. Qed.

Lemma total_tax_places (base rate : Decimal) (is_interstate : bool) :
  places (CoreUtils.total_tax (CoreUtils.calculate_gst base rate is_interstate))
  = 2%nat.
Proof.
  unfold CoreUtils.calculate_gst.
  destruct is_interstate; cbn [CoreUtils.total_tax].
  - apply quantize_places.
  - unfold add; cbn [places]. rewrite !quantize_places. reflexivity.
Qed.





Example gst_base_0_005 :
  CoreUtils.calculate_gst (mkDecimal 5 3) (mkDecimal 18 0) false
  = CoreUtils.mkGst (mkDecimal 9 0) (mkDecimal 0 2)
                    (mkDecimal 9 0) (mkDecimal 0 2)
                    dec_0 dec_0 (mkDecimal 0 2) (mkDecimal 1 2).
Proof. reflexivity. Qed.

(** The two scenarios of the specification: base 1000.00 at 18%. *)
Example gst_interstate_1000_18 :
  CoreUtils.calculate_gst (mkDecimal 100000 2) (mkDecimal 18 0) true
  = CoreUtils.mkGst dec_0 dec_0 dec_0 dec_0
                    (mkDecimal 18 0) (mkDecimal 18000 2)
                    (mkDecimal 18000 2) (mkDecimal 118000 2).
Proof. reflexivity. Qed.

(** Each half is rounded on its own: for base 1.00 at 5% both halves are
    0.025, rounded to 0.03 each, and the total tax is 0.06, whereas the
    whole tax 0.05 halved would give 0.025 per component. *)
Example gst_halves_are_rounded_independently :
  let r := CoreUtils.calculate_gst (mkDecimal 100 2) (mkDecimal 5 0) false in
  CoreUtils.cgst_amount r = mkDecimal 3 2
  /\ CoreUtils.sgst_amount r = mkDecimal 3 2
  /\ CoreUtils.total_tax r = mkDecimal 6 2
  /\ CoreUtils.igst_amount
       (CoreUtils.calculate_gst (mkDecimal 100 2) (mkDecimal 5 0) true)
     = mkDecimal 5 2.
Proof. repeat split. Qed.

Example gst_intrastate_1000_18 :
  CoreUtils.calculate_gst (mkDecimal 100000 2) (mkDecimal 18 0) false
  = CoreUtils.mkGst (mkDecimal 9 0) (mkDecimal 9000 2)
                    (mkDecimal 9 0) (mkDecimal 9000 2)
                    dec_0 dec_0 (mkDecimal 18000 2) (mkDecimal 118000 2).
Proof. reflexivity. Qed.

(** [str] on ints and decimals, and the branch counter, on the values
    Python gives for them. *)
Example str_int_5 : str_int 5 = "5"%string /\ str_int 120 = "120"%string.
Proof. split; reflexivity. Qed.

Example decimal_str_examples :
  PyDecimal.str (mkDecimal 118000 2) = "1180.00"%string
  /\ PyDecimal.str (mkDecimal 5 3) = "0.005"%string
  /\ PyDecimal.str (mkDecimal (-25) 3) = "-0.025"%string
  /\ PyDecimal.str (mkDecimal 18 0) = "18"%string
  /\ PyDecimal.str (mkDecimal 1 7) = "1E-7"%string
  /\ PyDecimal.str (mkDecimal 123 9) = "1.23E-7"%string.
Proof. repeat split. Qed.

(** The divisions keep the exponent as [Decimal.__truediv__] does:
    [Decimal('9.00') / 2] is [Decimal('4.50')], [Decimal('5') / 2] is
    [Decimal('2.5')], [Decimal('2.5000') / 100] is [Decimal('0.0250')],
    [Decimal('12.30') / 100] is [Decimal('0.123')]. *)
Example decimal_division_examples :
  div_2 (mkDecimal 900 2) = mkDecimal 450 2
  /\ div_2 (mkDecimal 5 0) = mkDecimal 25 1
  /\ div_100 (mkDecimal 25000 4) = mkDecimal 250 4
  /\ div_100 (mkDecimal 1230 2) = mkDecimal 123 3.
Proof. repeat split. Qed.

(** The modes differ on ties only: 0.025 goes to 0.03 half-up and to 0.02
    half-even, 0.035 goes to 0.04 in both. *)
Example rounding_modes_examples :
  quantize (mkDecimal 25 3) dec_0_01 ROUND_HALF_UP = mkDecimal 3 2
  /\ quantize_default (mkDecimal 25 3) dec_0_01 = mkDecimal 2 2
  /\ quantize (mkDecimal 35 3) dec_0_01 ROUND_HALF_UP = mkDecimal 4 2
  /\ quantize_default (mkDecimal 35 3) dec_0_01 = mkDecimal 4 2
  /\ quantize (mkDecimal (-25) 3) dec_0_01 ROUND_HALF_UP = mkDecimal (-3) 2
  /\ quantize_default (mkDecimal (-25) 3) dec_0_01 = mkDecimal (-2) 2.
Proof. repeat split. Qed.

Example next_jobcard_number_example :
  Core.get_next_jobcard_number
    (Core.mkEnv 0 2026 2 4)
    (Core.mkBranch 7%N "MUM" "INV" 0 "JC" 41)
    [Core.mkBranch 7%N "MUM" "INV" 0 "JC" 41]
  = Some ("JC/2025-26/MUM/00042"%string,
          [Core.mkBranch 7%N "MUM" "INV" 0 "JC" 42]).
Proof. reflexivity. Qed.

(** ** The exact arithmetic agrees with the default context *)

Lemma coef_le_rescale (d : Decimal) (n : nat) :
  Z.abs (coef d) <= Z.abs (rescale d n).
Proof.
  unfold rescale. rewrite Z.abs_mul.
  pose proof (pow10_pos (n - places d)).
  rewrite (Z.abs_eq (pow10 _)) by lia.
  pose proof (Z.abs_nonneg (coef d)). nia.
Qed.

Lemma div_100_coef_le (x : Decimal) :
  Z.abs (coef (div_100 x)) <= Z.abs (coef x).
Proof.
  unfold div_100.
  destruct (coef x mod 100 =? 0); [|destruct (coef x mod 10 =? 0)];
    cbn [coef]; try lia.
  - pose proof (Z.div_mod (coef x) 100 ltac:(lia)).
    pose proof (Z.mod_pos_bound (coef x) 100 ltac:(lia)). lia.
  - pose proof (Z.div_mod (coef x) 10 ltac:(lia)).
    pose proof (Z.mod_pos_bound (coef x) 10 ltac:(lia)). lia.
Qed.

Lemma div_2_coef_le (x : Decimal) :
  Z.abs (coef (div_2 x)) <= 5 * Z.abs (coef x).
Proof.
  unfold div_2. destruct (Z.even (coef x)); cbn [coef]; [|lia].
  pose proof (Z.div_mod (coef x) 2 ltac:(lia)).
  pose proof (Z.mod_pos_bound (coef x) 2 ltac:(lia)). lia.
Qed.

Lemma round_div_le (r : Rounding) (c s : Z) :
  0 < s -> Z.abs (round_div r c s) <= Z.abs c + 1.
Proof.
  intro Hs. unfold round_div.
  pose proof (Z.abs_nonneg c) as Hc.
  pose proof (Z.div_pos (Z.abs c) s Hc Hs) as Hq.
  assert (Hle : Z.abs c / s <= Z.abs c).
  { apply Z.div_le_upper_bound; [lia|]. nia. }
  rewrite Z.abs_mul.
  assert (Hsg : Z.abs (Z.sgn c) <= 1) by (destruct c; simpl; lia).
  pose proof (Z.abs_nonneg (Z.sgn c)).
  match goal with
  | |- context [if ?b then _ else _] => destruct b
  end; rewrite (Z.abs_eq (_ / _ + 1)) || rewrite (Z.abs_eq (_ / _)); nia.
Qed.

Lemma quantize_coef_le (d : Decimal) (r : Rounding) :
  Z.abs (coef (quantize d dec_0_01 r)) <= 100 * Z.abs (coef d) + 1.
Proof.
  unfold quantize; cbn [places dec_0_01].
  destruct (places d <=? 2)%nat eqn:E; cbn [coef].
  - apply Nat.leb_le in E. unfold rescale. rewrite Z.abs_mul.
    assert (pow10 (2 - places d) <= 100).
    { change 100 with (pow10 2). unfold pow10.
      apply Z.pow_le_mono_r; lia. }
    pose proof (pow10_pos (2 - places d)).
    rewrite (Z.abs_eq (pow10 _)) by lia.
    pose proof (Z.abs_nonneg (coef d)). nia.
  - pose proof (round_div_le r (coef d) (pow10 (places d - 2))
                  (pow10_pos _)).
    pose proof (Z.abs_nonneg (coef d)). lia.
Qed.

Lemma add_coef_2 (a t : Decimal) :
  (places a <= 2)%nat -> places t = 2%nat ->
  coef (add a t) = rescale a 2 + coef t.
Proof.
  intros Ha Ht. unfold add. rewrite Ht. cbn [coef].
  replace (Nat.max (places a) 2) with 2%nat by lia.
  f_equal. unfold rescale. rewrite Ht.
  change (pow10 (2 - 2)) with 1. ring.
Qed.

(** For a base amount and a rate that fit the model fields
    ([max_digits=12, decimal_places=2] and [max_digits=5,
    decimal_places=2]), every intermediate result of [calculate_gst] has a
    coefficient of fewer than 28 digits: Python computes them exactly, as
    the embedding does. *)
Lemma field_inputs_stay_within_precision
    (base rate : Decimal) (is_interstate : bool) :
  fits_field 12 2 base -> fits_field 5 2 rate ->
  within_precision (mul base rate)
  /\ within_precision (div_2 rate)
  /\ within_precision (mul base (div_2 rate))
  /\ within_precision (div_100 (mul base rate))
  /\ within_precision (div_100 (mul base (div_2 rate)))
  /\ within_precision
       (add base (CoreUtils.total_tax
                    (CoreUtils.calculate_gst base rate is_interstate))).
Proof.
  intros [Hbp Hb] [Hrp Hr].
  pose proof (coef_le_rescale base 2) as Hb'.
  pose proof (coef_le_rescale rate 2) as Hr'.
  change (pow10 12) with (10 ^ 12) in Hb.
  change (pow10 5) with (10 ^ 5) in Hr.
  pose proof (Z.abs_nonneg (coef base)) as Nb.
  pose proof (Z.abs_nonneg (coef rate)) as Nr.
  pose proof (div_2_coef_le rate) as Hh.
  pose proof (Z.abs_nonneg (coef (div_2 rate))) as Nh.
  assert (Hm : Z.abs (coef (mul base rate)) < 10 ^ 17).
  { cbn [mul coef]. rewrite Z.abs_mul.
    change (10 ^ 17) with (10 ^ 12 * 10 ^ 5). nia. }
  assert (Hmh : Z.abs (coef (mul base (div_2 rate))) < 10 ^ 18).
  { cbn [mul coef]. rewrite Z.abs_mul.
    change (10 ^ 18) with (10 ^ 12 * (5 * 10 ^ 5) * 2). nia. }
  pose proof (div_100_coef_le (mul base rate)) as Hd.
  pose proof (div_100_coef_le (mul base (div_2 rate))) as Hdh.
  unfold within_precision.
  repeat split; try lia.
  rewrite add_coef_2 by (try apply total_tax_places; exact Hbp).
  unfold CoreUtils.calculate_gst.
  destruct is_interstate; cbn [CoreUtils.total_tax].
  - pose proof (quantize_coef_le (div_100 (mul base rate)) ROUND_HALF_UP)
      as Hq.
    lia.
  - pose proof (quantize_coef_le (div_100 (mul base (div_2 rate)))
                                 ROUND_HALF_UP) as Hq.
    rewrite add_coef_2 by (rewrite quantize_places; simpl; lia).
    unfold rescale at 2. rewrite quantize_places. cbn [places dec_0_01].
    change (pow10 (2 - 2)) with 1. lia.
Qed.

(** ** Job state machine *)

Section JobLifecycle.

Import Jobs.

Variable env : Core.Env.

(** The three terminal statuses are exactly those without outgoing
    edges. *)
Lemma terminal_iff_no_edge (j : JobCard) :
  is_terminal_status j = true <-> ALLOWED_STATUS_TRANSITIONS (status j) = [].
Proof.
  unfold is_terminal_status.
  destruct (status j); simpl; split; intro H; congruence.
Qed.

(** An edge outside the table is refused before anything is assigned:
    the state is the one the call started from, and the exception is
    [JobReadOnlyError] for a terminal job, [InvalidStatusTransition]
    otherwise. *)
Lemma transition_status_rejects_illegal_edge
    (uuid4 : UUID) (T : JobStatus) (user : User) (notes : string)
    (s : State) :
  status_in T (ALLOWED_STATUS_TRANSITIONS (status (self s))) = false ->
  exists msg,
    transition_status env uuid4 T user notes false s
    = (Raised (if is_terminal_status (self s)
               then JobReadOnlyError msg
               else InvalidStatusTransition msg), s).
Proof.
  intro Hedge.
  unfold transition_status, bind, get, can_transition_to.
  destruct (is_terminal_status (self s)) eqn:Hterm; simpl.
  - eexists; reflexivity.
  - rewrite Hedge; simpl. eexists; reflexivity.
Qed.

(** A history row built by [objects.create] already carries its primary
    key, so its first [save] is refused like any later one. *)
Lemma JobStatusHistory_objects_create_raises
    (uuid4 job : UUID) (a b : JobStatus) (user : User) (notes : string)
    (ov : bool) (s : State) :
  JobStatusHistory_objects_create uuid4 job a b user notes ov s
  = (Raised (ValueError "JobStatusHistory records are immutable"), s).
Proof. reflexivity. Qed.

(** Saving a row that has a primary key raises and writes nothing. *)
Lemma JobStatusHistory_save_existing_raises
    (row : JobStatusHistory) (key : UUID) (s : State) :
  pk row = Some key ->
  JobStatusHistory_save row s
  = (Raised (ValueError "JobStatusHistory records are immutable"), s).
Proof. intro H. unfold JobStatusHistory_save. rewrite H. reflexivity. Qed.

(** Every edge of the table, taken without override on a numbered job,
    ends in the [ValueError] of the history row: the database is the one
    the call started from (no history row, stored status unchanged), and
    the Python object keeps the new status. *)
Lemma transition_status_legal_edge_raises
    (uuid4 : UUID) (T : JobStatus) (user : User) (notes : string)
    (s : State) :
  status_in T (ALLOWED_STATUS_TRANSITIONS (status (self s))) = true ->
  job_number (self s) <> EmptyString ->
  exists s',
    transition_status env uuid4 T user notes false s
    = (Raised (ValueError "JobStatusHistory records are immutable"), s')
    /\ db s' = db s
    /\ status (self s') = T
    /\ outbox s' = outbox s.
Proof.
  intros Hedge Hnum.
  assert (Hterm : is_terminal_status (self s) = false).
  { destruct (is_terminal_status (self s)) eqn:E; [|reflexivity].
    apply terminal_iff_no_edge in E. rewrite E in Hedge. discriminate. }
  apply String.eqb_neq in Hnum.
  unfold transition_status, bind, get, can_transition_to.
  rewrite Hterm, Hedge. simpl.
  unfold atomic, bind, modify, JobCard_save, bind, get.
  destruct T; simpl; rewrite Hnum; simpl;
    eexists; (split; [reflexivity|]); simpl; auto.
Qed.

End JobLifecycle.


(** C1, evaluated on the edge RECEIVED -> DIAGNOSED of the table, without
    override: the call does not succeed.  It raises the [ValueError] of
    [JobStatusHistory.save]; the database is rolled back to the one the call
    started from, so no history row exists and the stored status is still
    RECEIVED, while the Python object is left with status DIAGNOSED. *)
Theorem transition_received_to_diagnosed_raises_ValueError :
  Jobs.transition_status Sample.env 99%N Jobs.DIAGNOSED Sample.user EmptyString
    false (Sample.jobs_state Jobs.RECEIVED)
  = (Raised (ValueError "JobStatusHistory records are immutable"),
     Jobs.mkState (Sample.job_in Jobs.DIAGNOSED)
       (Jobs.mkDatabase [Sample.branch] [Sample.job_in Jobs.RECEIVED] [])
       []).
Proof. reflexivity. Qed.

(** The text of [InvalidStatusTransition]: the label of the current status
    and the label of the requested one, nothing else. *)
Lemma invalid_transition_message
    (env : Core.Env) (uuid4 : UUID) (T : Jobs.JobStatus) (user : User)
    (notes : string) (s : Jobs.State) :
  Jobs.is_terminal_status (Jobs.self s) = false ->
  Jobs.status_in T (Jobs.ALLOWED_STATUS_TRANSITIONS
                      (Jobs.status (Jobs.self s))) = false ->
  Jobs.transition_status env uuid4 T user notes false s
  = (Raised (InvalidStatusTransition
               ("Cannot transition from "
                ++ Jobs.label (Jobs.status (Jobs.self s))
                ++ " to " ++ Jobs.label T)), s).
Proof.
  intros Hterm Hedge.
  unfold Jobs.transition_status, bind, get, Jobs.can_transition_to.
  rewrite Hterm, Hedge. reflexivity.
Qed.

(** C8, evaluated on a job in RECEIVED asked to move to DELIVERED without
    override: the message of the [InvalidStatusTransition] raised is
    "Cannot transition from Received to Delivered"; neither allowed target
    (Diagnosed, Cancelled) occurs in it. *)
Theorem invalid_transition_message_received_to_delivered :
  Jobs.transition_status Sample.env 99%N Jobs.DELIVERED Sample.user EmptyString
    false (Sample.jobs_state Jobs.RECEIVED)
  = (Raised (InvalidStatusTransition
               "Cannot transition from Received to Delivered"),
     Sample.jobs_state Jobs.RECEIVED)
  /\ Jobs.ALLOWED_STATUS_TRANSITIONS Jobs.RECEIVED
     = [Jobs.DIAGNOSED; Jobs.CANCELLED]
  /\ index 0 (Jobs.label Jobs.DIAGNOSED)
           "Cannot transition from Received to Delivered" = None
  /\ index 0 (Jobs.label Jobs.CANCELLED)
           "Cannot transition from Received to Delivered" = None.
Proof. repeat split; reflexivity. Qed.

(** C10: [verify_delivery_otp] returns the result of comparing the stored
    OTP with the candidate and leaves the state (job object, database,
    notifications) as it was; on a job whose [delivery_otp] is the empty
    string, the empty candidate is accepted. *)
Theorem verify_delivery_otp_is_pure_equality
    (otp : string) (s : Jobs.State) :
  Jobs.verify_delivery_otp_call otp s
  = (Returned (String.eqb (Jobs.delivery_otp (Jobs.self s)) otp), s)
  /\ (Jobs.delivery_otp (Jobs.self s) = EmptyString ->
      Jobs.verify_delivery_otp (Jobs.self s) EmptyString = true
      /\ Jobs.verify_delivery_otp_call EmptyString s = (Returned true, s)).
Proof.
  split; [reflexivity|].
  intro H. unfold Jobs.verify_delivery_otp_call, Jobs.verify_delivery_otp,
    bind, get, ret.
  rewrite H. split; reflexivity.
Qed.

Lemma verify_delivery_otp_is_pure_equality_witness :
  Jobs.delivery_otp (Jobs.self (Sample.jobs_state Jobs.READY)) = EmptyString
  /\ Jobs.verify_delivery_otp (Jobs.self (Sample.jobs_state Jobs.READY)) EmptyString
     = true
  /\ Jobs.verify_delivery_otp_call EmptyString (Sample.jobs_state Jobs.READY)
     = (Returned true, Sample.jobs_state Jobs.READY).
Proof.
  split; [reflexivity|].
  apply (proj2 (verify_delivery_otp_is_pure_equality
                  EmptyString (Sample.jobs_state Jobs.READY))).
  reflexivity.
Defined.

(** Once [generate_delivery_otp] has run, only the drawn code verifies. *)
Lemma verify_after_generate
    (env : Core.Env) (otp candidate : string) (s : Jobs.State) :
  Jobs.verify_delivery_otp
    (Jobs.self (snd (Jobs.generate_delivery_otp env otp s))) candidate
  = String.eqb otp candidate.
Proof.
  unfold Jobs.generate_delivery_otp, Jobs.JobCard_save, bind, get, modify.
  cbn [Jobs.self Jobs.set_self Jobs.db Jobs.job_number Jobs.set_delivery_otp
       Jobs.branch].
  destruct (String.eqb (Jobs.job_number (Jobs.self s)) EmptyString).
  - destruct (Core.get_next_jobcard_number env (Jobs.branch (Jobs.self s))
                (Jobs.branches (Jobs.db s))) as [[number rows]|];
      [|reflexivity].
    cbn.
    match goal with
    | |- context [if ?b then _ else _] => destruct b
    end; reflexivity.
  - cbn.
    match goal with
    | |- context [if ?b then _ else _] => destruct b
    end; reflexivity.
Qed.

(** ** Inventory ledger *)

Section InventoryLedger.

Import Inventory.

(** An adjustment row built by [objects.create] already carries its
    primary key: its first [save] is refused. *)
Lemma InventoryAdjustment_objects_create_raises
    (uuid4 i : UUID) (t : AdjustmentType) (q old new : Z) (r : string)
    (u : option User) (m : bool) (s : State) :
  InventoryAdjustment_objects_create uuid4 i t q old new r u m s
  = (Raised (ValueError "InventoryAdjustment records are immutable"), s).
Proof. reflexivity. Qed.

Lemma InventoryAdjustment_save_existing_raises
    (row : InventoryAdjustment) (key : UUID) (s : State) :
  pk row = Some key ->
  InventoryAdjustment_save row s
  = (Raised (ValueError "InventoryAdjustment records are immutable"), s).
Proof.
  intro H. unfold InventoryAdjustment_save. rewrite H. reflexivity.
Qed.

(** What each stock method leaves behind. *)
Lemma add_stock_result (uuid4 : UUID) (q : Z) (r : string)
    (u : option User) (s : State) :
  add_stock uuid4 q r u s
  = if q <=? 0
    then (Raised (ValueError "Quantity must be positive"), s)
    else (Raised (ledger_failure s),
          mkState (set_quantity (quantity (self s) + q) (self s)) (db s)).
Proof.
  unfold add_stock, ledger_failure. destruct (q <=? 0); [reflexivity|].
  unfold atomic, bind, get, modify, save_quantity, bind, get; cbn.
  destruct (has_item (items (db s)) (id (self s))); reflexivity.
Qed.

Lemma deduct_stock_result (uuid4 uuid4' : UUID) (q : Z) (r : string)
    (u : option User) (j : option UUID) (s : State) :
  deduct_stock uuid4 uuid4' q r u j s
  = if q <=? 0
    then (Raised (ValueError "Quantity must be positive"), s)
    else if quantity (self s) <? q
    then (Raised (InsufficientInventory
                    ("Insufficient stock for " ++ name (self s) ++ ". "
                     ++ "Requested: " ++ str_int q ++ ", Available: "
                     ++ str_int (quantity (self s)))), s)
    else (Raised (ledger_failure s),
          mkState (set_quantity (quantity (self s) - q) (self s)) (db s)).
Proof.
  unfold deduct_stock, ledger_failure, bind at 1, get at 1.
  destruct (q <=? 0); [reflexivity|].
  destruct (quantity (self s) <? q); [reflexivity|].
  unfold atomic, bind, get, modify, save_quantity, bind, get; cbn.
  destruct (has_item (items (db s)) (id (self s))); reflexivity.
Qed.

Lemma adjust_stock_result (uuid4 : UUID) (q : Z) (r : string)
    (u : option User) (s : State) :
  adjust_stock uuid4 q r u s
  = if q <? 0
    then (Raised (ValueError "Quantity cannot be negative"), s)
    else (Raised (ledger_failure s),
          mkState (set_quantity q (self s)) (db s)).
Proof.
  unfold adjust_stock, ledger_failure, bind at 1, get at 1.
  destruct (q <? 0); [reflexivity|].
  unfold atomic, bind, get, modify, save_quantity, bind, get; cbn.
  destruct (has_item (items (db s)) (id (self s))); reflexivity.
Qed.


Lemma get_item_In (rows : list InventoryItem) (key : UUID)
    (row : InventoryItem) :
  get_item rows key = Some row -> In row rows.
Proof.
  induction rows as [|r rest IH]; simpl; [discriminate|].
  destruct (N.eqb (id r) key).
  - intro H; injection H as <-. now left.
  - intro H. right. now apply IH.
Qed.

(** No step changes the database or the identity of the object. *)
Lemma run_op_db (op : Op) (s : State) : db (snd (run_op op s)) = db s.
Proof.
  destruct op as [u q r usr | u u' q r usr j | u q r usr | ]; simpl.
  - rewrite add_stock_result. destruct (q <=? 0); reflexivity.
  - rewrite deduct_stock_result. destruct (q <=? 0); [reflexivity|].
    destruct (quantity (self s) <? q); reflexivity.
  - rewrite adjust_stock_result. destruct (q <? 0); reflexivity.
  - unfold get_object, modify; simpl.
    destruct (get_item (items (db s)) (id (self s))); reflexivity.
Qed.




Lemma run_op_nonneg (op : Op) (s : State) :
  stock_nonneg s -> stock_nonneg (snd (run_op op s)).
Proof.
  intros [Hq Hdb]. split; [|rewrite run_op_db; exact Hdb].
  destruct op as [u q r usr | u u' q r usr j | u q r usr | ]; simpl.
  - rewrite add_stock_result. destruct (q <=? 0) eqn:E; simpl;
      [exact Hq|]. apply Z.leb_gt in E. lia.
  - rewrite deduct_stock_result. destruct (q <=? 0); [exact Hq|].
    destruct (quantity (self s) <? q) eqn:E; simpl; [exact Hq|].
    apply Z.ltb_ge in E. lia.
  - rewrite adjust_stock_result.
    destruct (q <? 0) eqn:E; simpl; [exact Hq|].
    apply Z.ltb_ge in E. exact E.
  - unfold get_object, modify; simpl.
    destruct (get_item (items (db s)) (id (self s))) eqn:E; simpl;
      [|exact Hq].
    apply get_item_In in E. rewrite Forall_forall in Hdb. now apply Hdb.
Qed.

Lemma run_ops_nonneg (ops : list Op) (s : State) :
  stock_nonneg s -> stock_nonneg (run_ops ops s).
Proof.
  revert s; induction ops as [|op rest IH]; intros s H; simpl; [exact H|].
  apply IH. now apply run_op_nonneg.
Qed.

End InventoryLedger.

(** C3: from a state whose quantities are non-negative, no sequence of
    [add_stock] / [deduct_stock] / [adjust_stock] calls (interleaved with
    reloads of the object) makes the quantity negative, on the object or in
    a stored row; and [deduct_stock] of a positive quantity larger than the
    stock raises [InsufficientInventory], whose message carries the
    requested and the available quantity, and leaves the object, its stored
    quantity and its adjustment history as they were. *)
Theorem stock_never_negative (s : Inventory.State) :
  (0 <= Inventory.quantity (Inventory.self s) ->
   Forall (fun row => 0 <= Inventory.quantity row)
          (Inventory.items (Inventory.db s)) ->
   forall ops : list Inventory.Op,
     0 <= Inventory.quantity (Inventory.self (Inventory.run_ops ops s))
     /\ Forall (fun row => 0 <= Inventory.quantity row)
               (Inventory.items (Inventory.db (Inventory.run_ops ops s))))
  /\ (forall (uuid4 uuid4' : UUID) (qty : Z) (reason : string)
             (user : option User) (job : option UUID),
        0 < qty ->
        Inventory.quantity (Inventory.self s) < qty ->
        Inventory.deduct_stock uuid4 uuid4' qty reason user job s
        = (Raised (InsufficientInventory
                     ("Insufficient stock for "
                      ++ Inventory.name (Inventory.self s)
                      ++ ". Requested: " ++ str_int qty
                      ++ ", Available: "
                      ++ str_int (Inventory.quantity (Inventory.self s)))),
           s)).
Proof.
  split.
  - intros Hq Hdb ops. apply (run_ops_nonneg ops s). split; assumption.
  - intros u u' q r usr j Hpos Hlt.
    rewrite deduct_stock_result.
    destruct (q <=? 0) eqn:E1; [apply Z.leb_le in E1; lia|].
    destruct (Inventory.quantity (Inventory.self s) <? q) eqn:E2;
      [|apply Z.ltb_ge in E2; lia].
    reflexivity.
Qed.

Lemma stock_never_negative_witness :
  (0 <= Inventory.quantity
          (Inventory.self
             (Inventory.run_ops
                [Inventory.DeductStock 41%N 42%N 1 "Used" None None;
                 Inventory.Reload;
                 Inventory.AdjustStock 43%N 0 "Stock count correction" None]
                Sample.inventory_state)))
  /\ Inventory.deduct_stock 41%N 42%N 5 "Used" None None
       Sample.inventory_state
     = (Raised (InsufficientInventory
                  "Insufficient stock for SSD 512GB. Requested: 5, Available: 1"),
        Sample.inventory_state).
Proof.
  split.
  - apply (proj1 (stock_never_negative Sample.inventory_state)).
    + simpl; lia.
    + simpl. repeat constructor. simpl; lia.
  - apply (proj2 (stock_never_negative Sample.inventory_state)
             41%N 42%N 5 "Used"%string None None).
    + lia.
    + simpl; lia.
Defined.

(** The adjustment rows the three methods build record, as
    [new_quantity - old_quantity], the recorded quantity with the sign of
    their type: [+quantity] for ADD and MANUAL, [-quantity] for DEDUCT and
    CORRECTION. *)
Lemma built_rows_are_signed
    (uuid4 i : UUID) (q old : Z) (r : string) (u : option User) :
  let add := Inventory.InventoryAdjustment_init uuid4 i Inventory.ADD q old
               (old + q) r u false in
  let deduct := Inventory.InventoryAdjustment_init uuid4 i Inventory.DEDUCT
                  q old (old - q) r u false in
  let adjust := Inventory.InventoryAdjustment_init uuid4 i
                  (if q - old >=? 0 then Inventory.MANUAL
                   else Inventory.CORRECTION)
                  (Z.abs (q - old)) old q r u true in
  Inventory.delta add = Inventory.signed_quantity add
  /\ Inventory.delta deduct = Inventory.signed_quantity deduct
  /\ Inventory.delta adjust = Inventory.signed_quantity adjust.
Proof.
  unfold Inventory.delta, Inventory.signed_quantity; simpl.
  repeat split; try lia.
  destruct (q - old >=? 0) eqn:E; simpl.
  - apply Z.geb_le in E. lia.
  - rewrite Z.geb_leb in E. apply Z.leb_gt in E. lia.
Qed.




(** C9, evaluated on a stored [JobStatusHistory] row and a stored
    [InventoryAdjustment] row: saving either again raises [ValueError] and
    changes nothing, but deleting either raises nothing and removes the row
    from its table. *)
Theorem stored_audit_rows_can_be_deleted :
  Jobs.JobStatusHistory_save Sample.history_row
    Sample.jobs_state_with_history
  = (Raised (ValueError "JobStatusHistory records are immutable"),
     Sample.jobs_state_with_history)
  /\ Inventory.InventoryAdjustment_save Sample.adjustment_row
       Sample.inventory_state
     = (Raised (ValueError "InventoryAdjustment records are immutable"),
        Sample.inventory_state)
  /\ Jobs.JobStatusHistory_delete Sample.history_row
       Sample.jobs_state_with_history
     = (Returned tt,
        Jobs.mkState (Sample.job_in Jobs.DIAGNOSED)
          (Jobs.mkDatabase [Sample.branch] [Sample.job_in Jobs.DIAGNOSED] [])
          [])
  /\ Inventory.InventoryAdjustment_delete Sample.adjustment_row
       Sample.inventory_state
     = (Returned tt,
        Inventory.mkState Sample.item
          (Inventory.mkDatabase [Sample.item] [] [] [])).
Proof. repeat split; reflexivity. Qed.

(** Creating a row goes through the same guard: the new row has its key
    from [uuid4()] and is refused as well. *)
Lemma new_audit_rows_are_refused (uuid4 : UUID) :
  fst (Jobs.JobStatusHistory_objects_create uuid4 1%N Jobs.RECEIVED
         Jobs.DIAGNOSED Sample.user EmptyString false
         (Sample.jobs_state Jobs.DIAGNOSED))
  = Raised (ValueError "JobStatusHistory records are immutable")
  /\ fst (Inventory.InventoryAdjustment_objects_create uuid4 30%N
            Inventory.ADD 1 1 2 "Purchase order 124" None false
            Sample.inventory_state)
     = Raised (ValueError "InventoryAdjustment records are immutable").
Proof. split; reflexivity. Qed.

(** ** Invoice ledger *)

Lemma compare_to_Q (a b : Decimal) :
  PyDecimal.compare a b = (Exact.to_Q a ?= Exact.to_Q b)%Q.
Proof.
  unfold PyDecimal.compare, Qcompare, Exact.to_Q; cbn [Qnum Qden].
  rewrite !pow10_den.
  set (n := Nat.max (places a) (places b)).
  pose proof (rescale_pow10 a n ltac:(lia)) as Ha.
  pose proof (rescale_pow10 b n ltac:(lia)) as Hb.
  pose proof (pow10_pos (places a)) as Pa.
  pose proof (pow10_pos (places b)) as Pb.
  pose proof (pow10_pos n) as Pn.
  rewrite <- (Zcompare_mult_compat
                (Z.to_pos (pow10 (places a) * pow10 (places b)))
                (rescale a n) (rescale b n)).
  rewrite Z2Pos.id by lia.
  replace (pow10 (places a) * pow10 (places b) * rescale a n)
    with (pow10 n * (coef a * pow10 (places b)))
    by (transitivity (pow10 (places b) * (coef a * pow10 n));
        [ring | rewrite <- Ha; ring]).
  replace (pow10 (places a) * pow10 (places b) * rescale b n)
    with (pow10 n * (coef b * pow10 (places a)))
    by (transitivity (pow10 (places a) * (coef b * pow10 n));
        [ring | rewrite <- Hb; ring]).
  rewrite <- (Z2Pos.id (pow10 n)) by lia.
  apply Zcompare_mult_compat.
Qed.

Lemma compare_same_value_l (a a' b : Decimal) :
  (Exact.to_Q a == Exact.to_Q a')%Q ->
  PyDecimal.compare a b = PyDecimal.compare a' b.
Proof. intro H. rewrite !compare_to_Q. now rewrite H. Qed.

Lemma gtb_zero (a : Decimal) : gtb a dec_0 = true <-> 0 < coef a.
Proof.
  unfold gtb, ltb. rewrite compare_to_Q.
  unfold Qcompare, Exact.to_Q; cbn [Qnum Qden coef places dec_0].
  rewrite Z.mul_0_l.
  change (Zpos (Z.to_pos (pow10 0))) with 1. rewrite Z.mul_1_r.
  destruct (Z.compare_spec 0 (coef a)); split; intro; try lia;
    try discriminate; reflexivity.
Qed.

Lemma leb_zero (a : Decimal) : leb a dec_0 = false <-> 0 < coef a.
Proof.
  unfold leb. rewrite compare_to_Q.
  unfold Qcompare, Exact.to_Q; cbn [Qnum Qden coef places dec_0].
  rewrite Z.mul_0_l.
  change (Zpos (Z.to_pos (pow10 0))) with 1. rewrite Z.mul_1_r.
  destruct (Z.compare_spec (coef a) 0); split; intro; try lia;
    try discriminate; reflexivity.
Qed.

Lemma validate_precision_places (m p : nat) (v : Decimal) :
  Billing.validate_precision m p v = None -> (places v <= p)%nat.
Proof.
  unfold Billing.validate_precision.
  destruct (_ <? _)%nat; [discriminate|].
  destruct (p <? places v)%nat eqn:E; [discriminate|].
  intros _. now apply Nat.ltb_ge in E.
Qed.

Section InvoiceLedger.

Import Billing.

Variable env : Core.Env.

Lemma update_payment_status_fields (i : Invoice) :
  id (_update_payment_status i) = id i
  /\ invoice_number (_update_payment_status i) = invoice_number i
  /\ is_finalized (_update_payment_status i) = is_finalized i
  /\ paid_amount (_update_payment_status i) = paid_amount i
  /\ total_amount (_update_payment_status i) = total_amount i.
Proof.
  unfold _update_payment_status.
  destruct (InvoiceStatus_beq (status i) CANCELLED); [repeat split|].
  destruct (PyDecimal.leb (balance_due i) dec_0); [repeat split|].
  destruct (gtb (paid_amount i) dec_0); [repeat split|].
  destruct (is_finalized i) eqn:E; repeat split; exact E.
Qed.

Lemma calculate_totals_fields (i : Invoice) (d : Database) :
  id (calculate_totals i d) = id i
  /\ invoice_number (calculate_totals i d) = invoice_number i
  /\ is_finalized (calculate_totals i d) = is_finalized i
  /\ paid_amount (calculate_totals i d) = paid_amount i.
Proof.
  unfold calculate_totals.
  destruct (is_finalized i) eqn:E; [repeat split; assumption|].
  cbv zeta.
  match goal with
  | |- context [_update_payment_status ?x] =>
      destruct (update_payment_status_fields x) as (H1 & H2 & H3 & H4 & _)
  end.
  rewrite H1, H2, H3, H4. simpl. auto.
Qed.

(** [Invoice.save] on a numbered invoice writes the row and nothing
    else. *)
Lemma Invoice_save_numbered (s : State) :
  invoice_number (self s) <> EmptyString ->
  Invoice_save env false s
  = (Returned tt,
     set_db (mkDatabase (branches (db s))
                        (upsert_invoice (invoices (db s)) (self s))
                        (line_items (db s)) (payments (db s))
                        (audit_logs (db s))) s).
Proof.
  intro H. apply String.eqb_neq in H.
  unfold Invoice_save, bind, get. rewrite H. cbn.
  unfold has_dirty_fields. rewrite andb_false_r. reflexivity.
Qed.

(** [Invoice.save(update_fields=...)] on a numbered, stored invoice writes
    the payment columns of its row and nothing else. *)
Lemma Invoice_save_payment_columns (s : State) :
  invoice_number (self s) <> EmptyString ->
  has_invoice (invoices (db s)) (id (self s)) = true ->
  Invoice_save env true s
  = (Returned tt,
     set_db (mkDatabase (branches (db s))
                        (update_payment_columns (invoices (db s)) (self s))
                        (line_items (db s)) (payments (db s))
                        (audit_logs (db s))) s).
Proof.
  intros H Hrow. apply String.eqb_neq in H.
  unfold Invoice_save, bind, get. rewrite H. cbn.
  unfold has_dirty_fields. rewrite andb_false_r. cbn. rewrite Hrow.
  reflexivity.
Qed.

Lemma finalize_draft (uuid4 : UUID) (user : User) (s : State) :
  invoice_number (self s) <> EmptyString ->
  is_finalized (self s) = false ->
  line_items_of (id (self s)) (db s) <> [] ->
  finalize env uuid4 user s
  = (Returned tt,
     mkState (finalized_invoice env user s)
       (mkDatabase (branches (db s))
          (upsert_invoice (invoices (db s)) (finalized_invoice env user s))
          (line_items (db s)) (payments (db s)) (audit_logs (db s)))).
Proof.
  intros Hnum Hfin Hlines.
  unfold finalize, bind, get. rewrite Hfin.
  destruct (line_items_of (id (self s)) (db s)) eqn:E; [congruence|].
  unfold modify at 1 2 3. cbn [set_self self db].
  rewrite Invoice_save_numbered.
  - reflexivity.
  - cbn [self set_self set_status set_finalized invoice_number].
    destruct (calculate_totals_fields (self s) (db s)) as (_ & H & _).
    now rewrite H.
Qed.

Lemma record_payment_goes_through
    (uuid4 uuid4' : UUID) (amount_ : Decimal) (method : PaymentMethod)
    (user : User) (reference_ notes_ : string) (s : State) :
  invoice_number (self s) <> EmptyString ->
  has_invoice (invoices (db s)) (id (self s)) = true ->
  0 < coef amount_ ->
  status (self s) <> CANCELLED ->
  record_payment env uuid4 uuid4' amount_ method user reference_ notes_ s
  = (Returned (mkPayment uuid4 (id (self s)) amount_ method (Core.now env)
                         reference_ notes_ user),
     mkState (paid_invoice_after amount_ (self s))
       (mkDatabase (branches (db s))
          (update_payment_columns (invoices (db s))
                                  (paid_invoice_after amount_ (self s)))
          (line_items (db s))
          (mkPayment uuid4 (id (self s)) amount_ method (Core.now env)
                     reference_ notes_ user :: payments (db s))
          (audit_logs (db s)))).
Proof.
  intros Hnum Hrow Hpos Hst.
  unfold record_payment, bind at 1, get at 1.
  apply leb_zero in Hpos. rewrite Hpos.
  assert (Hc : InvoiceStatus_beq (status (self s)) CANCELLED = false)
    by (destruct (status (self s)); try reflexivity; congruence).
  rewrite Hc.
  unfold atomic, bind, modify at 1 2 3.
  cbn [set_self set_db self db branches invoices line_items payments
       audit_logs].
  fold (paid_invoice_after amount_ (self s)).
  rewrite Invoice_save_payment_columns.
  - reflexivity.
  - cbn [self set_self set_db db]. unfold paid_invoice_after.
    match goal with
    | |- context [_update_payment_status ?x] =>
        destruct (update_payment_status_fields x) as (_ & H & _)
    end.
    now rewrite H.
  - cbn [self set_self set_db db invoices]. unfold paid_invoice_after.
    match goal with
    | |- context [_update_payment_status ?x] =>
        destruct (update_payment_status_fields x) as (H & _)
    end.
    rewrite H. exact Hrow.
Qed.

Lemma compare_same_value_r (a b b' : Decimal) :
  (Exact.to_Q b == Exact.to_Q b')%Q ->
  PyDecimal.compare a b = PyDecimal.compare a b'.
Proof. intro H. rewrite !compare_to_Q. now rewrite H. Qed.

(** A well-formed positive amount passes the serializer exactly when it
    does not exceed the balance due; the validated amount is the same
    number written with two decimals. *)
Lemma serializer_accepts (data : RecordPaymentData) (s : State) :
  validate_precision 12 2 (data_amount data) = None ->
  0 < coef (data_amount data) ->
  (String.length (data_reference data) <= 100)%nat ->
  gtb (data_amount data) (balance_due (self s)) = false ->
  RecordPaymentSerializer_is_valid data s
  = (Returned (mkPaymentData (quantize_default (data_amount data) dec_0_01)
                 (data_payment_method data) (data_reference data)
                 (data_notes data)), s).
Proof.
  intros Hprec Hpos Href Hbal.
  pose proof (validate_precision_places _ _ _ Hprec) as Hpl.
  unfold RecordPaymentSerializer_is_valid, bind, get. rewrite Hprec.
  assert (Hv : (Exact.to_Q (quantize_default (data_amount data) dec_0_01)
                == Exact.to_Q (data_amount data))%Q)
    by (apply to_Q_quantize_exact; exact Hpl).
  assert (H1 : ltb (quantize_default (data_amount data) dec_0_01) dec_0_01
               = false).
  { unfold ltb. rewrite (compare_same_value_l _ _ _ Hv), compare_to_Q.
    unfold Qcompare, Exact.to_Q; cbn [Qnum Qden coef places dec_0_01].
    rewrite !pow10_den. change (pow10 2) with 100.
    assert (pow10 (places (data_amount data)) <= 100).
    { change 100 with (pow10 2). unfold pow10.
      apply Z.pow_le_mono_r; lia. }
    destruct (Z.compare_spec (coef (data_amount data) * 100)
                             (1 * pow10 (places (data_amount data))));
      try reflexivity; nia. }
  rewrite H1.
  assert (H2 : gtb (quantize_default (data_amount data) dec_0_01)
                   (balance_due (self s)) = false).
  { unfold gtb, ltb in *. now rewrite (compare_same_value_r _ _ _ Hv). }
  rewrite H2.
  apply Nat.leb_le in Href. rewrite Nat.ltb_antisym, Href. reflexivity.
Qed.

Lemma serializer_rejects_excess (data : RecordPaymentData) (s : State) :
  validate_precision 12 2 (data_amount data) = None ->
  0 < coef (data_amount data) ->
  gtb (data_amount data) (balance_due (self s)) = true ->
  exists msg,
    RecordPaymentSerializer_is_valid data s = (Raised (ValidationError msg), s).
Proof.
  intros Hprec Hpos Hbal.
  pose proof (validate_precision_places _ _ _ Hprec) as Hpl.
  unfold RecordPaymentSerializer_is_valid, bind, get. rewrite Hprec.
  assert (Hv : (Exact.to_Q (quantize_default (data_amount data) dec_0_01)
                == Exact.to_Q (data_amount data))%Q)
    by (apply to_Q_quantize_exact; exact Hpl).
  destruct (ltb (quantize_default (data_amount data) dec_0_01) dec_0_01);
    [eexists; reflexivity|].
  assert (H2 : gtb (quantize_default (data_amount data) dec_0_01)
                   (balance_due (self s)) = true).
  { unfold gtb, ltb in *. now rewrite (compare_same_value_r _ _ _ Hv). }
  rewrite H2. eexists; reflexivity.
Qed.

Lemma quantized_amount_coef (a : Decimal) :
  (places a <= 2)%nat -> 0 < coef a ->
  0 < coef (quantize_default a dec_0_01).
Proof.
  intros Hpl Hpos. unfold quantize_default, quantize; cbn [places dec_0_01].
  apply Nat.leb_le in Hpl. rewrite Hpl. cbn [coef]. unfold rescale.
  pose proof (pow10_pos (2 - places a)). nia.
Qed.

End InvoiceLedger.



(** The model method alone does not fail on a finalized invoice: it
    returns and changes nothing.  The failure of the endpoint is the
    view's. *)
Example finalize_method_on_finalized_invoice :
  Billing.finalize Sample.env 70%N Sample.user (Sample.billing_state true)
  = (Returned tt, Sample.billing_state true).
Proof. reflexivity. Qed.

(** A draft with a line item is finalized. *)
Example finalize_endpoint_draft :
  let r := Billing.InvoiceViewSet_finalize Sample.env 70%N Sample.user
             (Sample.billing_state false) in
  fst r = Returned (Billing.mkResponse 200
                      (Billing.Finalized "INV/2025-26/MUM/00001" "1180.00"))
  /\ Billing.self (snd r)
     = Billing.set_status Billing.PENDING
         (Billing.set_finalized (Some 1000) (Some Sample.user)
                                (Sample.invoice false)).
Proof. split; reflexivity. Qed.

(** The steps of the record-payment view, spelled out. *)
Lemma record_payment_view_steps
    (env : Core.Env) (uuid4 uuid4' : UUID) (user : User)
    (req : Billing.RecordPaymentData) (s : Billing.State) :
  Billing.InvoiceViewSet_record_payment env uuid4 uuid4' user req s
  = if Billing.is_finalized (Billing.self s) then
      match Billing.RecordPaymentSerializer_is_valid req s with
      | (Raised e, s') => (Raised e, s')
      | (Returned v, s') =>
          match Billing.record_payment env uuid4 uuid4'
                  (Billing.data_amount v) (Billing.data_payment_method v)
                  user (Billing.data_reference v) (Billing.data_notes v) s'
          with
          | (Returned payment, s'') =>
              (Returned
                 (Billing.mkResponse Billing.HTTP_200_OK
                    (Billing.PaymentRecorded payment
                       (PyDecimal.str (Billing.balance_due (Billing.self s'')))
                       (Billing.status (Billing.self s'')))), s'')
          | (Raised e, s'') =>
              (Returned (Billing.mkResponse Billing.HTTP_400_BAD_REQUEST
                           (Billing.Error (message e))), s'')
          end
      end
    else
      (Returned (Billing.mkResponse Billing.HTTP_400_BAD_REQUEST
                   (Billing.Error
                      "Finalize invoice before recording payments.")), s).
Proof.
  unfold Billing.InvoiceViewSet_record_payment, try_except, bind, get, ret.
  destruct (Billing.is_finalized (Billing.self s)); cbn [negb];
    [|reflexivity].
  destruct (Billing.RecordPaymentSerializer_is_valid req s) as [[v|e] s'];
    [|reflexivity].
  destruct (Billing.record_payment env uuid4 uuid4' (Billing.data_amount v)
              (Billing.data_payment_method v) user (Billing.data_reference v)
              (Billing.data_notes v) s') as [[p|e] s'']; reflexivity.
Qed.

Lemma record_payment_cancelled
    (env : Core.Env) (uuid4 uuid4' : UUID) (amount_ : Decimal)
    (method : Billing.PaymentMethod) (user : User)
    (reference_ notes_ : string) (s : Billing.State) :
  0 < coef amount_ ->
  Billing.status (Billing.self s) = Billing.CANCELLED ->
  Billing.record_payment env uuid4 uuid4' amount_ method user reference_
    notes_ s
  = (Raised (BusinessRuleViolation
               "Cannot record payment on cancelled invoice."), s).
Proof.
  intros Hpos Hc. apply leb_zero in Hpos.
  unfold Billing.record_payment, bind, get. rewrite Hpos, Hc. reflexivity.
Qed.

(** C4: the record-payment endpoint, on a
    well-formed request (a positive amount with the precision of the
    field, a reference of at most 100 characters), for an invoice that is
    numbered and stored, as every invoice the view fetches is.  It fails, leaving
    invoice and database as they were (no [Payment] row, [paid_amount]
    unchanged), when the invoice is cancelled, is not finalized, or the
    amount exceeds the balance due; otherwise it answers 200, inserts
    exactly one [Payment] row of that amount, adds the amount to
    [paid_amount] and derives the status again (PAID when the balance due
    is not positive, otherwise PARTIAL when something is paid), on the
    object and in its stored row. *)
Theorem record_payment_endpoint
    (env : Core.Env) (uuid4 uuid4' : UUID) (user : User)
    (req : Billing.RecordPaymentData) (s : Billing.State) :
  let amount := Billing.data_amount req in
  let inv := Billing.self s in
  gtb amount dec_0 = true ->
  Billing.validate_precision 12 2 amount = None ->
  (String.length (Billing.data_reference req) <= 100)%nat ->
  Billing.invoice_number inv <> EmptyString ->
  Billing.has_invoice (Billing.invoices (Billing.db s)) (Billing.id inv)
  = true ->
  let r := Billing.InvoiceViewSet_record_payment env uuid4 uuid4' user req s in
  let value := quantize_default amount dec_0_01 in
  (Exact.to_Q value == Exact.to_Q amount)%Q
  /\ (Billing.status inv = Billing.CANCELLED
      \/ Billing.is_finalized inv = false
      \/ gtb amount (Billing.balance_due inv) = true ->
      Billing.failed (fst r) /\ snd r = s)
  /\ (Billing.status inv <> Billing.CANCELLED ->
      Billing.is_finalized inv = true ->
      gtb amount (Billing.balance_due inv) = false ->
      let payment :=
        Billing.mkPayment uuid4 (Billing.id inv) value
          (Billing.data_payment_method req) (Core.now env)
          (Billing.data_reference req) (Billing.data_notes req) user in
      let inv' := Billing.paid_invoice_after value inv in
      r = (Returned
             (Billing.mkResponse Billing.HTTP_200_OK
                (Billing.PaymentRecorded payment
                   (PyDecimal.str (Billing.balance_due inv'))
                   (Billing.status inv'))),
           Billing.mkState inv'
             (Billing.mkDatabase (Billing.branches (Billing.db s))
                (Billing.update_payment_columns
                   (Billing.invoices (Billing.db s)) inv')
                (Billing.line_items (Billing.db s))
                (payment :: Billing.payments (Billing.db s))
                (Billing.audit_logs (Billing.db s))))
      /\ Billing.paid_amount inv' = add (Billing.paid_amount inv) value
      /\ Billing.status inv'
         = if leb (Billing.balance_due inv') dec_0 then Billing.PAID
           else if gtb (Billing.paid_amount inv') dec_0 then Billing.PARTIAL
           else Billing.PENDING).
Proof.
  intros amount inv Hpos Hprec Href Hnum Hrow r value.
  apply gtb_zero in Hpos.
  pose proof (validate_precision_places _ _ _ Hprec) as Hpl.
  pose proof (quantized_amount_coef amount Hpl Hpos) as Hq.
  assert (Hv : (Exact.to_Q value == Exact.to_Q amount)%Q)
    by (apply to_Q_quantize_exact; exact Hpl).
  split; [exact Hv|]. split.
  - intros Hfail. unfold r. rewrite record_payment_view_steps.
    destruct (Billing.is_finalized (Billing.self s)) eqn:Hfin;
      [|split; reflexivity].
    destruct (gtb amount (Billing.balance_due inv)) eqn:Hbal.
    + destruct (serializer_rejects_excess req s Hprec Hpos Hbal) as [msg Hs].
      rewrite Hs. split; [exact I|reflexivity].
    + destruct Hfail as [Hc | [Hf | Hb]];
        [| unfold inv in Hf; congruence | congruence].
      rewrite (serializer_accepts req s Hprec Hpos Href Hbal).
      cbn [Billing.data_amount].
      rewrite (record_payment_cancelled env uuid4 uuid4' _ _ user _ _ s Hq Hc).
      split; reflexivity.
  - intros Hst Hfin Hbal payment inv'.
    split.
    + unfold r. rewrite record_payment_view_steps.
      fold inv. rewrite Hfin.
      rewrite (serializer_accepts req s Hprec Hpos Href Hbal).
      cbn [Billing.data_amount Billing.data_payment_method
           Billing.data_reference Billing.data_notes].
      rewrite (record_payment_goes_through env uuid4 uuid4' _ _ user
                 _ _ s Hnum Hrow Hq Hst).
      reflexivity.
    + unfold inv', Billing.paid_invoice_after.
      match goal with
      | |- context [Billing._update_payment_status ?x] =>
          destruct (update_payment_status_fields x) as (_ & _ & Hf & Hp & _);
          set (paid := x) in *
      end.
      split; [rewrite Hp; reflexivity|].
      unfold Billing._update_payment_status.
      assert (Hc : Billing.InvoiceStatus_beq (Billing.status paid)
                                             Billing.CANCELLED = false).
      { unfold paid; cbn [Billing.status Billing.set_paid_amount].
        fold inv. destruct (Billing.status inv); try reflexivity; congruence. }
      rewrite Hc.
      assert (Hfp : Billing.is_finalized paid = true) by exact Hfin.
      rewrite Hfp.
      destruct (leb (Billing.balance_due paid) dec_0) eqn:E1.
      * change (Billing.balance_due (Billing.set_status Billing.PAID paid))
          with (Billing.balance_due paid). rewrite E1. reflexivity.
      * destruct (gtb (Billing.paid_amount paid) dec_0) eqn:E2.
        -- change (Billing.balance_due
                     (Billing.set_status Billing.PARTIAL paid))
             with (Billing.balance_due paid).
           change (Billing.paid_amount
                     (Billing.set_status Billing.PARTIAL paid))
             with (Billing.paid_amount paid).
           rewrite E1, E2. reflexivity.
        -- change (Billing.balance_due
                     (Billing.set_status Billing.PENDING paid))
             with (Billing.balance_due paid).
           change (Billing.paid_amount
                     (Billing.set_status Billing.PENDING paid))
             with (Billing.paid_amount paid).
           rewrite E1, E2. reflexivity.
Qed.

Lemma record_payment_endpoint_witness :
  let s := Sample.billing_state true in
  (Billing.failed
     (fst (Billing.InvoiceViewSet_record_payment Sample.env 70%N 71%N
             Sample.user (Sample.payment_of (mkDecimal 120000 2)) s))
   /\ snd (Billing.InvoiceViewSet_record_payment Sample.env 70%N 71%N
             Sample.user (Sample.payment_of (mkDecimal 120000 2)) s) = s)
  /\ Billing.status
       (Billing.paid_invoice_after
          (quantize_default (mkDecimal 118000 2) dec_0_01) (Billing.self s))
     = Billing.PAID.
Proof.
  intro s. split.
  - apply (proj1 (proj2 (record_payment_endpoint Sample.env 70%N 71%N
                           Sample.user (Sample.payment_of (mkDecimal 120000 2))
                           s eq_refl eq_refl ltac:(simpl; lia)
                           ltac:(discriminate) eq_refl))).
    right; right; reflexivity.
  - destruct (proj2 (proj2 (record_payment_endpoint Sample.env 70%N 71%N
                              Sample.user
                              (Sample.payment_of (mkDecimal 118000 2))
                              s eq_refl eq_refl ltac:(simpl; lia)
                              ltac:(discriminate) eq_refl))
                    ltac:(discriminate) eq_refl eq_refl)
      as (_ & _ & H).
    exact (eq_trans H eq_refl).
Defined.

(** The spec's scenario: total 1180.00, nothing paid; 1200.00 is refused,
    1180.00 is accepted and the invoice becomes PAID with balance 0.00. *)
Example record_payment_scenario :
  let s := Sample.billing_state true in
  fst (Billing.InvoiceViewSet_record_payment Sample.env 70%N 71%N
         Sample.user (Sample.payment_of (mkDecimal 120000 2)) s)
  = Raised (ValidationError
              ("Payment amount exceeds balance due (" ++ Billing.rupee
               ++ "1180.00)."))
  /\ fst (Billing.InvoiceViewSet_record_payment Sample.env 70%N 71%N
            Sample.user (Sample.payment_of (mkDecimal 118000 2)) s)
     = Returned
         (Billing.mkResponse 200
            (Billing.PaymentRecorded
               (Billing.mkPayment 70%N 60%N (mkDecimal 118000 2)
                  Billing.CASH 1000 "receipt 17" EmptyString Sample.user)
               "0.00" Billing.PAID)).
Proof. split; reflexivity. Qed.

(** The model method alone checks neither finalization nor the balance:
    called directly on a draft it records a payment above the total.  The
    two checks of the endpoint are the view's and the serializer's. *)
Example record_payment_method_on_draft :
  let r := Billing.record_payment Sample.env 70%N 71%N (mkDecimal 500000 2)
             Billing.CASH Sample.user EmptyString EmptyString
             (Sample.billing_state false) in
  (exists p, fst r = Returned p)
  /\ Billing.paid_amount (Billing.self (snd r)) = mkDecimal 500000 2
  /\ Billing.status (Billing.self (snd r)) = Billing.PAID.
Proof. repeat split. eexists; reflexivity. Qed.

(** The tax components of a line item are the exact products rounded
    half-up: this half of the rounding rule holds, by [calculate_gst]. *)
Lemma line_item_tax_is_rounded_half_up
    (is_interstate : bool) (l : Billing.InvoiceLineItem) :
  let l' := Billing.priced is_interstate l in
  let base := Exact.to_Q (Billing.amount l') in
  let rate := Exact.to_Q (Billing.gst_rate l) in
  if is_interstate
  then (Exact.to_Q (Billing.igst_amount l')
        == Exact.round_half_up_2dp (base * rate / 100))%Q
  else (Exact.to_Q (Billing.cgst_amount l')
        == Exact.round_half_up_2dp (base * (rate / 2) / 100))%Q
       /\ (Exact.to_Q (Billing.sgst_amount l')
           == Exact.round_half_up_2dp (base * (rate / 2) / 100))%Q.
Proof.
  intros l' base rate.
  pose proof (gst_components_hold (Billing.amount l') (Billing.gst_rate l)
                                  is_interstate) as H.
  unfold Exact.gst_components in H.
  destruct is_interstate.
  - destruct H as (_ & H & _). exact H.
  - destruct H as (_ & _ & Hc & Hs & _). split; assumption.
Qed.

(** C7, evaluated on a line item of 1 x 10.00 with a discount of 0.25%
    (exact discount 0.025) and on a line item of 1 x 0.125: the discount is
    rounded to 0.02 and the amount to 0.12, the half-even roundings, where
    half-up gives 0.03 and 0.13; the line amounts are 9.98 and 0.12 instead
    of 9.97 and 0.13. *)
Theorem line_item_amounts_are_rounded_half_even :
  let exact_discount :=
    (Exact.to_Q (mkDecimal 1000 2) * Exact.to_Q (mkDecimal 25 2) / 100)%Q in
  let exact_amount :=
    (Exact.to_Q (of_int 1) * Exact.to_Q (mkDecimal 125 3))%Q in
  (exact_discount == 25 # 1000)%Q
  /\ (Exact.round_half_up_2dp exact_discount == 3 # 100)%Q
  /\ Billing.amount (Billing.priced false Sample.discounted_line)
     = mkDecimal 998 2
  /\ (Exact.round_half_up_2dp exact_amount == 13 # 100)%Q
  /\ Billing.amount (Billing.priced false Sample.sub_paisa_line)
     = mkDecimal 12 2
  /\ Billing.amount
       (match fst (Billing.InvoiceLineItem_save Sample.env
                     Sample.discounted_line (Sample.billing_state false))
        with
        | Returned saved => saved
        | Raised _ => Sample.discounted_line
        end)
     = mkDecimal 998 2.
Proof. repeat split. Qed.

(* ===================================================================== *)
(** * Part III.  The code around the ledgers                              *)
(* ===================================================================== *)

(** ** Strings *)

Lemma append_assoc (a b c : string) : ((a ++ b) ++ c = a ++ (b ++ c))%string.
Proof. induction a as [|x a IH]; simpl; [reflexivity|]. now rewrite IH. Qed.

Lemma append_nil_r (a : string) : (a ++ EmptyString)%string = a.
Proof. induction a as [|x a IH]; simpl; [reflexivity|]. now rewrite IH. Qed.

Lemma length_append (a b : string) :
  String.length (a ++ b) = (String.length a + String.length b)%nat.
Proof. induction a as [|c a IH]; simpl; [reflexivity|]. now rewrite IH. Qed.

(** Occurrence in a longer string. *)
Lemma occurs_append_r (x a b : string) :
  Utils.occurs x b -> Utils.occurs x (a ++ b).
Proof.
  intros (pre & post & ->). exists (a ++ pre)%string, post.
  now rewrite append_assoc.
Qed.

Lemma occurs_concat (sep x : string) (xs : list string) :
  In x xs -> Utils.occurs x (String.concat sep xs).
Proof.
  induction xs as [|y ys IH]; [intros []|].
  intros [-> | Hin].
  - destruct ys as [|z zs]; cbn [String.concat].
    + exists EmptyString, EmptyString. cbn. now rewrite append_nil_r.
    + exists EmptyString, (sep ++ String.concat sep (z :: zs))%string.
      reflexivity.
  - destruct ys as [|z zs]; [destruct Hin|].
    cbn [String.concat]. apply occurs_append_r, occurs_append_r.
    exact (IH Hin).
Qed.

(** A property checked on every integer of a range. *)
Lemma forallb_range (p : Z -> bool) (a : Z) (n : nat) :
  forallb p (map (fun i => a + Z.of_nat i) (seq 0 n)) = true ->
  forall z, a <= z < a + Z.of_nat n -> p z = true.
Proof.
  intros H z Hz. rewrite forallb_forall in H. apply H.
  apply in_map_iff. exists (Z.to_nat (z - a)). split; [lia|].
  apply in_seq. lia.
Qed.

(** ** Document numbers *)

Section DocumentNumbers.

Import Core Numbering.

(** The branch table under [get_branch] and [save_branch]. *)
Lemma get_branch_pk (rows : list Branch) (k : UUID) (b : Branch) :
  get_branch rows k = Some b -> pk b = k.
Proof.
  induction rows as [|r rest IH]; simpl; [discriminate|].
  destruct (N.eqb (pk r) k) eqn:E.
  - intro H; injection H as <-. now apply N.eqb_eq.
  - exact IH.
Qed.

Lemma get_save_branch_same (rows : list Branch) (b b' : Branch) :
  get_branch rows (pk b') = Some b ->
  get_branch (save_branch rows b') (pk b') = Some b'.
Proof.
  induction rows as [|r rest IH]; simpl; [discriminate|].
  destruct (N.eqb (pk r) (pk b')) eqn:E; simpl.
  - now rewrite N.eqb_refl.
  - rewrite E. exact IH.
Qed.

Lemma get_save_branch_other (rows : list Branch) (b' : Branch) (k : UUID) :
  k <> pk b' ->
  get_branch (save_branch rows b') k = get_branch rows k.
Proof.
  intro Hk. induction rows as [|r rest IH]; simpl; [reflexivity|].
  destruct (N.eqb (pk r) (pk b')) eqn:E; simpl.
  - apply N.eqb_eq in E.
    assert (H1 : N.eqb (pk b') k = false) by (apply N.eqb_neq; congruence).
    assert (H2 : N.eqb (pk r) k = false) by (apply N.eqb_neq; congruence).
    now rewrite H1, H2.
  - destruct (N.eqb (pk r) k); [reflexivity|exact IH].
Qed.

Lemma save_branch_length (rows : list Branch) (b' : Branch) :
  List.length (save_branch rows b') = List.length rows.
Proof.
  induction rows as [|r rest IH]; simpl; [reflexivity|].
  destruct (N.eqb (pk r) (pk b')); simpl; congruence.
Qed.

(** X1: one call of [get_next_jobcard_number] (of
    [get_next_invoice_number]) raises [Branch.DoesNotExist] exactly when
    the branch has no stored row; otherwise the stored row of that branch
    has its job-card (invoice) counter increased by one and nothing else
    changed, every other branch row is as it was, and the number returned
    is prefix, financial year, branch code and the new counter padded to
    five digits, joined by slashes. *)
Theorem next_number_moves_one_counter
    (env : Env) (self : Branch) (rows : list Branch) :
  match get_next_jobcard_number env self rows with
  | None => get_branch rows (pk self) = None
  | Some (number, rows') =>
      exists b,
        get_branch rows (pk self) = Some b
        /\ get_branch rows' (pk self)
           = Some (mkBranch (pk b) (code b) (invoice_prefix b)
                     (invoice_current_number b) (jobcard_prefix b)
                     (jobcard_current_number b + 1))
        /\ (forall k, k <> pk self -> get_branch rows' k = get_branch rows k)
        /\ List.length rows' = List.length rows
        /\ number = (jobcard_prefix self ++ "/"
                     ++ get_current_financial_year env ++ "/" ++ code self
                     ++ "/"
                     ++ zfill 5 (str_int (jobcard_current_number b + 1)))%string
  end
  /\ match get_next_invoice_number env self rows with
     | None => get_branch rows (pk self) = None
     | Some (number, rows') =>
         exists b,
           get_branch rows (pk self) = Some b
           /\ get_branch rows' (pk self)
              = Some (mkBranch (pk b) (code b) (invoice_prefix b)
                        (invoice_current_number b + 1) (jobcard_prefix b)
                        (jobcard_current_number b))
           /\ (forall k, k <> pk self -> get_branch rows' k = get_branch rows k)
           /\ List.length rows' = List.length rows
           /\ number = (invoice_prefix self ++ "/"
                        ++ get_current_financial_year env ++ "/" ++ code self
                        ++ "/"
                        ++ zfill 5
                             (str_int (invoice_current_number b + 1)))%string
     end.
Proof.
  unfold get_next_jobcard_number, get_next_invoice_number.
  destruct (get_branch rows (pk self)) as [b|] eqn:Hget; [|split; reflexivity].
  pose proof (get_branch_pk _ _ _ Hget) as Hpk.
  split; exists b; (split; [reflexivity|]).
  - split; [|split; [|split]].
    + rewrite <- Hpk.
      apply (get_save_branch_same rows b
               (mkBranch (pk b) (code b) (invoice_prefix b)
                  (invoice_current_number b) (jobcard_prefix b)
                  (jobcard_current_number b + 1))).
      cbn [pk]. now rewrite Hpk.
    + intros k Hk. apply get_save_branch_other. cbn [pk]. congruence.
    + apply save_branch_length.
    + reflexivity.
  - split; [|split; [|split]].
    + rewrite <- Hpk.
      apply (get_save_branch_same rows b
               (mkBranch (pk b) (code b) (invoice_prefix b)
                  (invoice_current_number b + 1) (jobcard_prefix b)
                  (jobcard_current_number b))).
      cbn [pk]. now rewrite Hpk.
    + intros k Hk. apply get_save_branch_other. cbn [pk]. congruence.
    + apply save_branch_length.
    + reflexivity.
Qed.

(** The sequence part of a number: digits only, read back as the
    counter. *)
Lemma has_slash_app (a b : string) :
  has_slash (a ++ b) = (has_slash a || has_slash b)%bool.
Proof.
  unfold has_slash. induction a as [|c a IH]; simpl; [reflexivity|].
  rewrite IH. now rewrite orb_assoc.
Qed.

Lemma last_segment_app (x s : string) :
  has_slash s = false -> last_segment (x ++ "/" ++ s) = s.
Proof.
  intro Hs. induction x as [|c x IH]; simpl.
  - now rewrite Hs.
  - rewrite has_slash_app. 
    replace (has_slash ("/" ++ s)) with true by reflexivity.
    rewrite orb_true_r. exact IH.
Qed.

Lemma all_digits_no_slash (s : string) :
  Utils.all_digits s = true -> has_slash s = false.
Proof.
  unfold Utils.all_digits, has_slash.
  induction (list_ascii_of_string s) as [|c l IH]; cbn [forallb existsb];
    [reflexivity|].
  intro H. apply andb_true_iff in H as [Hc Hl]. rewrite (IH Hl), orb_false_r.
  destruct (Ascii.eqb "/" c) eqn:E; [|reflexivity].
  apply Ascii.eqb_eq in E. subst c. discriminate.
Qed.

Lemma all_digits_string_of_uint (d : Decimal.uint) :
  Utils.all_digits (NilEmpty.string_of_uint d) = true.
Proof. induction d; simpl; try reflexivity; exact IHd. Qed.

Lemma str_int_nonneg (n : Z) :
  0 <= n ->
  exists d, d <> Decimal.Nil /\ str_int n = NilEmpty.string_of_uint d
            /\ Z.of_uint d = n.
Proof.
  intro H. unfold str_int. destruct n as [|p|p]; [| |lia].
  - exists (Decimal.D0 Decimal.Nil). repeat split. discriminate.
  - exists (Pos.to_uint p). 
    assert (Hn : Pos.to_uint p <> Decimal.Nil)
      by apply DecimalPos.Unsigned.to_uint_nonnil.
    split; [exact Hn|]. split.
    + simpl. unfold NilZero.string_of_uint.
      destruct (Pos.to_uint p); congruence.
    + exact (DecimalZ.of_to (Zpos p)).
Qed.

Lemma zfill_digits (w : nat) (d : Decimal.uint) :
  d <> Decimal.Nil ->
  zfill w (NilEmpty.string_of_uint d)
  = (zeros (w - String.length (NilEmpty.string_of_uint d))
     ++ NilEmpty.string_of_uint d)%string.
Proof. intro H. destruct d; [congruence| reflexivity ..]. Qed.

Lemma read_digits_zeros (k : nat) (s : string) :
  read_digits (zeros k ++ s) = read_digits s.
Proof.
  unfold read_digits, zeros.
  induction k as [|k IH]; [reflexivity|].
  cbn [repeat string_of_list_ascii String.append NilEmpty.uint_of_string].
  revert IH.
  destruct (NilEmpty.uint_of_string
              (string_of_list_ascii (repeat "0"%char k) ++ s));
    intro IH; rewrite <- IH; reflexivity.
Qed.

Lemma all_digits_zeros (k : nat) (s : string) :
  Utils.all_digits s = true -> Utils.all_digits (zeros k ++ s) = true.
Proof.
  intro H. unfold zeros. induction k as [|k IH]; [exact H|].
  unfold Utils.all_digits in *. 
  cbn [repeat string_of_list_ascii String.append list_ascii_of_string forallb].
  rewrite IH. reflexivity.
Qed.

Lemma sequence_nonneg (w : nat) (n : Z) :
  0 <= n ->
  has_slash (zfill w (str_int n)) = false
  /\ read_digits (zfill w (str_int n)) = Some n.
Proof.
  intro H. destruct (str_int_nonneg n H) as (d & Hd & -> & Hv).
  rewrite (zfill_digits w d Hd). split.
  - apply all_digits_no_slash, all_digits_zeros, all_digits_string_of_uint.
  - rewrite read_digits_zeros. unfold read_digits.
    rewrite NilEmpty.usu. simpl. now rewrite Hv.
Qed.

Lemma sequence_of_number (a b c : string) (w : nat) (n : Z) :
  0 <= n ->
  sequence_of (a ++ "/" ++ b ++ "/" ++ c ++ "/" ++ zfill w (str_int n))
  = Some n.
Proof.
  intro H. destruct (sequence_nonneg w n H) as [Hs Hr].
  unfold sequence_of.
  replace (a ++ "/" ++ b ++ "/" ++ c ++ "/" ++ zfill w (str_int n))%string
    with ((a ++ "/" ++ b ++ "/" ++ c) ++ "/" ++ zfill w (str_int n))%string.
  - now rewrite last_segment_app.
  - now rewrite !append_assoc.
Qed.

Lemma jobcard_step env self rows b :
  get_branch rows (pk self) = Some b -> 0 <= jobcard_current_number b ->
  exists number,
    get_next_jobcard_number env self rows
    = Some (number,
            save_branch rows
              (mkBranch (pk b) (code b) (invoice_prefix b)
                 (invoice_current_number b) (jobcard_prefix b)
                 (jobcard_current_number b + 1)))
    /\ sequence_of number = Some (jobcard_current_number b + 1).
Proof.
  intros Hget Hc. unfold get_next_jobcard_number. rewrite Hget.
  eexists. split; [reflexivity|].
  cbn [jobcard_current_number]. apply sequence_of_number. lia.
Qed.

Lemma invoice_step env self rows b :
  get_branch rows (pk self) = Some b -> 0 <= invoice_current_number b ->
  exists number,
    get_next_invoice_number env self rows
    = Some (number,
            save_branch rows
              (mkBranch (pk b) (code b) (invoice_prefix b)
                 (invoice_current_number b + 1) (jobcard_prefix b)
                 (jobcard_current_number b)))
    /\ sequence_of number = Some (invoice_current_number b + 1).
Proof.
  intros Hget Hc. unfold get_next_invoice_number. rewrite Hget.
  eexists. split; [reflexivity|].
  cbn [invoice_current_number]. apply sequence_of_number. lia.
Qed.

Section Issue.

Variable next : Env -> Branch -> list Branch -> option (string * list Branch).
Variable ctr : Branch -> Z.
Variable bump : Branch -> Branch.
Hypothesis ctr_bump : forall b, ctr (bump b) = ctr b + 1.
Hypothesis pk_bump : forall b, pk (bump b) = pk b.
Hypothesis step :
  forall env self rows b,
    get_branch rows (pk self) = Some b -> 0 <= ctr b ->
    exists number,
      next env self rows = Some (number, save_branch rows (bump b))
      /\ sequence_of number = Some (ctr b + 1).

Lemma issue_numbers_sequences (calls : list Call) :
  forall (rows : list Branch) (b : Branch) (k : UUID),
    get_branch rows k = Some b -> 0 <= ctr b ->
    Forall (fun c => pk (call_self c) = k) calls ->
    map sequence_of (fst (issue_numbers next calls rows))
    = map (fun i => Some (ctr b + Z.of_nat i)) (seq 1 (List.length calls))
    /\ exists b',
         get_branch (snd (issue_numbers next calls rows)) k = Some b'
         /\ ctr b' = ctr b + Z.of_nat (List.length calls).
Proof.
  induction calls as [|c rest IH]; intros rows b k Hget Hc Hall.
  - simpl. split; [reflexivity|]. exists b. split; [exact Hget|lia].
  - inversion Hall as [|? ? Hk Hrest]; subst.
    pose proof (get_branch_pk _ _ _ Hget) as Hpk.
    destruct (step (call_env c) (call_self c) rows b Hget Hc)
      as (number & Hnext & Hseq).
    cbn [issue_numbers]. rewrite Hnext.
    assert (Hget' : get_branch (save_branch rows (bump b))
                               (pk (call_self c)) = Some (bump b)).
    { rewrite <- Hpk, <- (pk_bump b).
      apply get_save_branch_same with (b := b).
      rewrite pk_bump, Hpk. exact Hget. }
    assert (Hc' : 0 <= ctr (bump b)) by (rewrite ctr_bump; lia).
    destruct (IH _ _ _ Hget' Hc' Hrest) as (Hmap & b' & Hb' & Hctr).
    destruct (issue_numbers next rest (save_branch rows (bump b)))
      as [numbers rows''].
    cbn [fst snd] in *. split.
    + cbn [map List.length seq]. rewrite Hseq, Hmap.
      change (Z.of_nat 1) with 1. apply f_equal.
      rewrite <- (seq_shift (List.length rest) 1), map_map.
      apply map_ext. intro i. rewrite ctr_bump. f_equal. lia.
    + exists b'. split; [exact Hb'|]. rewrite Hctr, ctr_bump.
      cbn [List.length]. lia.
Qed.

Lemma issue_numbers_distinct (calls : list Call) (rows : list Branch)
    (b : Branch) (k : UUID) :
  get_branch rows k = Some b -> 0 <= ctr b ->
  Forall (fun c => pk (call_self c) = k) calls ->
  List.length (fst (issue_numbers next calls rows)) = List.length calls
  /\ NoDup (fst (issue_numbers next calls rows)).
Proof.
  intros Hget Hc Hall.
  destruct (issue_numbers_sequences calls rows b k Hget Hc Hall) as [Hmap _].
  split.
  - apply (f_equal (@List.length _)) in Hmap.
    now rewrite !length_map, length_seq in Hmap.
  - apply (NoDup_map_inv sequence_of). rewrite Hmap.
    apply NoDup_map_NoDup_ForallPairs; [|apply seq_NoDup].
    intros i j _ _ H. injection H as H. lia.
Qed.

End Issue.

(** X2: the numbers a branch issues are pairwise different.  For a stored
    branch whose counters are not negative, any series of calls of
    [get_next_jobcard_number] (of [get_next_invoice_number]) on objects of
    that branch, whatever the date of each call and whatever prefix and
    code each object carries, returns one number per call and no number
    twice: the counter is never reset, not even when the financial year
    changes. *)
Theorem issued_numbers_are_distinct
    (calls : list Call) (rows : list Branch) (b : Branch) :
  get_branch rows (pk b) = Some b ->
  0 <= jobcard_current_number b ->
  0 <= invoice_current_number b ->
  Forall (fun c => pk (call_self c) = pk b) calls ->
  List.length (fst (issue_numbers get_next_jobcard_number calls rows))
  = List.length calls
  /\ NoDup (fst (issue_numbers get_next_jobcard_number calls rows))
  /\ List.length (fst (issue_numbers get_next_invoice_number calls rows))
     = List.length calls
  /\ NoDup (fst (issue_numbers get_next_invoice_number calls rows)).
Proof.
  intros Hget Hj Hi Hall.
  destruct (issue_numbers_distinct get_next_jobcard_number
              jobcard_current_number
              (fun b => mkBranch (pk b) (code b) (invoice_prefix b)
                          (invoice_current_number b) (jobcard_prefix b)
                          (jobcard_current_number b + 1))
              ltac:(reflexivity) ltac:(reflexivity) jobcard_step
              calls rows b (pk b) Hget Hj Hall) as [H1 H2].
  destruct (issue_numbers_distinct get_next_invoice_number
              invoice_current_number
              (fun b => mkBranch (pk b) (code b) (invoice_prefix b)
                          (invoice_current_number b + 1) (jobcard_prefix b)
                          (jobcard_current_number b))
              ltac:(reflexivity) ltac:(reflexivity) invoice_step
              calls rows b (pk b) Hget Hi Hall) as [H3 H4].
  auto.
Qed.

Lemma issued_numbers_are_distinct_witness :
  NoDup (fst (issue_numbers get_next_jobcard_number
                [mkCall Sample.env Sample.branch;
                 mkCall (mkEnv 0 2027 5 4) Sample.branch;
                 mkCall Sample.env (mkBranch 7%N "PUN" "INV" 0 "JC" 0)]
                [Sample.branch]))
  /\ NoDup (fst (issue_numbers get_next_invoice_number
                   [mkCall Sample.env Sample.branch;
                    mkCall (mkEnv 0 2027 5 4) Sample.branch;
                    mkCall Sample.env (mkBranch 7%N "PUN" "INV" 0 "JC" 0)]
                   [Sample.branch])).
Proof.
  destruct (issued_numbers_are_distinct
              [mkCall Sample.env Sample.branch;
               mkCall (mkEnv 0 2027 5 4) Sample.branch;
               mkCall Sample.env (mkBranch 7%N "PUN" "INV" 0 "JC" 0)]
              [Sample.branch] Sample.branch)
    as (_ & H2 & _ & H4).
  - reflexivity.
  - vm_compute. discriminate.
  - vm_compute. discriminate.
  - repeat constructor.
  - split; assumption.
Defined.

(** The three numbers of that series. *)
Example issued_jobcard_numbers :
  fst (issue_numbers get_next_jobcard_number
         [mkCall Sample.env Sample.branch;
          mkCall (mkEnv 0 2027 5 4) Sample.branch;
          mkCall Sample.env (mkBranch 7%N "PUN" "INV" 0 "JC" 0)]
         [Sample.branch])
  = ["JC/2026-27/MUM/00042"; "JC/2027-28/MUM/00043";
     "JC/2026-27/PUN/00044"]%string.
Proof. reflexivity. Qed.

(** Years of four digits. *)
Lemma four_digit_years (y : Z) :
  1000 <= y <= 9998 ->
  (String.eqb (last_chars 2 (str_int (y + 1)))
              (zfill 2 (str_int ((y + 1) mod 100)))
   && Nat.eqb (String.length (str_int y)) 4
   && Nat.eqb (String.length (last_chars 2 (str_int (y + 1)))) 2)%bool
  = true.
Proof.
  intro H.
  apply (forallb_range
           (fun y => (String.eqb (last_chars 2 (str_int (y + 1)))
                                 (zfill 2 (str_int ((y + 1) mod 100)))
                      && Nat.eqb (String.length (str_int y)) 4
                      && Nat.eqb (String.length
                                    (last_chars 2 (str_int (y + 1)))) 2)%bool)
           1000 (Z.to_nat 8999)).
  - vm_compute. reflexivity.
  - lia.
Qed.

(** X3: for a financial year that starts in a year of four digits (1000
    to 9998), [get_current_financial_year] is the start year, a hyphen,
    and the following year modulo 100 written with two digits: seven
    characters.  The start year is the calendar year from the start month
    on and the year before until then. *)
Theorem financial_year_format (env : Env) :
  1000 <= start_year env <= 9998 ->
  get_current_financial_year env
  = (str_int (start_year env) ++ "-"
     ++ zfill 2 (str_int ((start_year env + 1) mod 100)))%string
  /\ String.length (get_current_financial_year env) = 7%nat.
Proof.
  intro H. pose proof (four_digit_years _ H) as Hy.
  apply andb_true_iff in Hy as [Hy H3]. apply andb_true_iff in Hy as [H1 H2].
  apply String.eqb_eq in H1. apply Nat.eqb_eq in H2, H3.
  unfold get_current_financial_year. fold (start_year env).
  split.
  - now rewrite H1.
  - rewrite !length_append, H2, H3. reflexivity.
Qed.

Lemma financial_year_format_witness :
  get_current_financial_year Sample.env = "2026-27"%string
  /\ get_current_financial_year (mkEnv 0 2100 2 4) = "2099-00"%string.
Proof.
  split.
  - rewrite (proj1 (financial_year_format Sample.env
                      ltac:(vm_compute; split; discriminate))).
    reflexivity.
  - rewrite (proj1 (financial_year_format (mkEnv 0 2100 2 4)
                      ltac:(vm_compute; split; discriminate))).
    reflexivity.
Defined.

End DocumentNumbers.

(** ** State codes and one-time codes *)

Section StateCodes.

Variable strip : string -> string.

(** X4, for whatever [str.strip] removes: [is_interstate_supply] is
    symmetric in its two codes; a code compared with itself is
    intrastate, and so are two codes that differ only in what [strip]
    removes; with an empty branch code the supply is intrastate whatever
    the customer code. *)
Theorem is_interstate_supply_symmetric (a b : string) :
  Utils.is_interstate_supply strip a b = Utils.is_interstate_supply strip b a
  /\ Utils.is_interstate_supply strip a a = false
  /\ Utils.is_interstate_supply strip EmptyString b = false
  /\ (strip a = strip b -> Utils.is_interstate_supply strip a b = false).
Proof.
  unfold Utils.is_interstate_supply. repeat split.
  - rewrite (orb_comm (String.eqb a EmptyString)).
    now rewrite (String.eqb_sym (strip a)).
  - rewrite String.eqb_refl. now destruct (_ || _)%bool.
  - intros ->. rewrite String.eqb_refl. now destruct (_ || _)%bool.
Qed.

End StateCodes.

Lemma str_int_digit (d : Z) :
  0 <= d <= 9 ->
  exists c, str_int d = String c EmptyString /\ Utils.is_digit c = true.
Proof.
  intro H.
  assert (E : d = 0 \/ d = 1 \/ d = 2 \/ d = 3 \/ d = 4 \/ d = 5 \/ d = 6
              \/ d = 7 \/ d = 8 \/ d = 9) by lia.
  repeat (destruct E as [-> | E]; [eexists; split; reflexivity|]).
  subst d. eexists; split; reflexivity.
Qed.

Lemma generate_otp_cons (d : Z) (ds : list Z) :
  Utils.generate_otp (d :: ds) = (str_int d ++ Utils.generate_otp ds)%string.
Proof.
  unfold Utils.generate_otp. cbn [map String.concat].
  destruct (map str_int ds) eqn:E; cbn [String.concat].
  - clear. induction (str_int d); simpl; congruence.
  - reflexivity.
Qed.

Lemma generate_otp_length (draws : list Z) :
  Forall (fun d => 0 <= d <= 9) draws ->
  String.length (Utils.generate_otp draws) = List.length draws
  /\ Utils.all_digits (Utils.generate_otp draws) = true.
Proof.
  induction 1 as [|d ds Hd _ [IH1 IH2]]; [split; reflexivity|].
  rewrite generate_otp_cons.
  destruct (str_int_digit d Hd) as (c & -> & Hc).
  cbn [String.append String.length List.length]. split; [now rewrite IH1|].
  unfold Utils.all_digits in *. cbn [list_ascii_of_string forallb].
  now rewrite Hc, IH2.
Qed.

(** X5: when every draw of [random.randint(0, 9)] is a digit,
    [generate_otp] returns a string with one character per draw, each of
    them a decimal digit. *)
Theorem generate_otp_is_numeric (draws : list Z) :
  Forall (fun d => 0 <= d <= 9) draws ->
  String.length (Utils.generate_otp draws) = List.length draws
  /\ Utils.all_digits (Utils.generate_otp draws) = true.
Proof. exact (generate_otp_length draws). Qed.

Lemma generate_otp_is_numeric_witness :
  Utils.generate_otp [4; 0; 7; 1; 9; 3] = "407193"%string
  /\ String.length (Utils.generate_otp [4; 0; 7; 1; 9; 3]) = 6%nat
  /\ Utils.all_digits (Utils.generate_otp [4; 0; 7; 1; 9; 3]) = true.
Proof.
  split; [reflexivity|].
  apply (generate_otp_is_numeric [4; 0; 7; 1; 9; 3]).
  repeat constructor; lia.
Defined.

(** ** Job cards: status changes *)

Section JobStatusChanges.

Import Jobs JobsApi.

Lemma JobCard_save_outcome (env : Core.Env) (s : Jobs.State) :
  Jobs.JobCard_save env false s
  = (Raised (DoesNotExist "Branch matching query does not exist."), s)
  \/ (exists s', Jobs.JobCard_save env false s = (Returned tt, s')
                 /\ Jobs.outbox s' = Jobs.outbox s).
Proof.
  unfold Jobs.JobCard_save, bind, get.
  destruct (String.eqb (Jobs.job_number (Jobs.self s)) EmptyString).
  - destruct (Core.get_next_jobcard_number env (Jobs.branch (Jobs.self s))
                (Jobs.branches (Jobs.db s))) as [[number rows]|].
    + right. eexists. split; reflexivity.
    + left. reflexivity.
  - right. eexists. split; reflexivity.
Qed.

(** Past its two guards, [transition_status] ends in the refusal of the
    history row, or in [Branch.DoesNotExist] when the job has to be
    numbered and its branch is not stored. *)
Lemma transition_status_outcome
    (env : Core.Env) (uuid4 : UUID) (T : Jobs.JobStatus) (user : User)
    (notes : string) (is_override : bool) (s : Jobs.State) :
  exists e s',
    Jobs.transition_status env uuid4 T user notes is_override s
    = (Raised e, s')
    /\ Jobs.db s' = Jobs.db s
    /\ Jobs.outbox s' = Jobs.outbox s
    /\ ((Jobs.is_terminal_status (Jobs.self s) && negb is_override)%bool
        = false ->
        (negb is_override
         && negb (Jobs.can_transition_to (Jobs.self s) T))%bool = false ->
        e = DoesNotExist "Branch matching query does not exist."
        \/ e = ValueError "JobStatusHistory records are immutable").
Proof.
  unfold Jobs.transition_status, bind at 1, get at 1.
  destruct (Jobs.is_terminal_status (Jobs.self s) && negb is_override)%bool;
    [do 2 eexists; repeat split; try reflexivity; discriminate|].
  destruct (negb is_override
            && negb (Jobs.can_transition_to (Jobs.self s) T))%bool;
    [do 2 eexists; repeat split; try reflexivity; discriminate|].
  unfold atomic, bind at 1, modify at 1.
  set (s1 := Jobs.set_self (Jobs.set_status T (Jobs.self s)) s).
  assert (H1 : Jobs.outbox s1 = Jobs.outbox s) by reflexivity.
  unfold bind at 1.
  set (stamp := match T with
                | Jobs.READY => _ | Jobs.DELIVERED => _ | _ => _ end).
  assert (Hs : exists s2, stamp s1 = (Returned tt, s2)
                          /\ Jobs.outbox s2 = Jobs.outbox s).
  { unfold stamp. destruct T; eexists; split; reflexivity. }
  destruct Hs as (s2 & -> & H2).
  unfold bind at 1.
  destruct (JobCard_save_outcome env s2) as [-> | (s3 & -> & H3)].
  - do 2 eexists. split; [reflexivity|]. split; [reflexivity|].
    split; [cbn; exact H2|]. intros _ _. now left.
  - unfold bind at 1.
    rewrite JobStatusHistory_objects_create_raises.
    do 2 eexists. split; [reflexivity|]. split; [reflexivity|].
    split; [cbn; congruence|]. intros _ _. now right.
Qed.

(** X6: [transition_status] never returns.  Whatever the job, the target,
    the notes and the override flag, the call raises; the database is the
    one the call started from (no history row, no stored status change)
    and no notification has been handed to the notification service. *)
Theorem transition_status_never_returns
    (env : Core.Env) (uuid4 : UUID) (T : Jobs.JobStatus) (user : User)
    (notes : string) (is_override : bool) (s : Jobs.State) :
  exists e s',
    Jobs.transition_status env uuid4 T user notes is_override s
    = (Raised e, s')
    /\ Jobs.db s' = Jobs.db s
    /\ Jobs.outbox s' = Jobs.outbox s.
Proof.
  destruct (transition_status_outcome env uuid4 T user notes is_override s)
    as (e & s' & H1 & H2 & H3 & _).
  exists e, s'. auto.
Qed.

(** X7: with [is_override=True] neither the terminal check nor the
    transition table is consulted.  On a numbered job, from any status
    (terminal ones included) to any target, the call reaches the history
    write and raises its [ValueError]; the database is rolled back, the
    Python object keeps the target status, and [actual_completion_date]
    ([delivery_date]) is stamped on it when the target is READY
    (DELIVERED). *)
Theorem override_skips_the_checks
    (env : Core.Env) (uuid4 : UUID) (T : Jobs.JobStatus) (user : User)
    (notes : string) (s : Jobs.State) :
  Jobs.job_number (Jobs.self s) <> EmptyString ->
  exists s',
    Jobs.transition_status env uuid4 T user notes true s
    = (Raised (ValueError "JobStatusHistory records are immutable"), s')
    /\ Jobs.db s' = Jobs.db s
    /\ Jobs.outbox s' = Jobs.outbox s
    /\ Jobs.status (Jobs.self s') = T
    /\ Jobs.actual_completion_date (Jobs.self s')
       = match T with
         | Jobs.READY => Some (Core.now env)
         | _ => Jobs.actual_completion_date (Jobs.self s)
         end
    /\ Jobs.delivery_date (Jobs.self s')
       = match T with
         | Jobs.DELIVERED => Some (Core.now env)
         | _ => Jobs.delivery_date (Jobs.self s)
         end.
Proof.
  intro Hnum. apply String.eqb_neq in Hnum.
  unfold Jobs.transition_status, bind, get.
  rewrite andb_false_r. cbn [negb andb].
  unfold atomic, bind, modify, Jobs.JobCard_save, bind, get.
  destruct T; cbn; rewrite Hnum; cbn;
    eexists; (split; [reflexivity|]); cbn; auto 10.
Qed.

Lemma override_skips_the_checks_witness :
  Jobs.is_terminal_status (Jobs.self (Sample.jobs_state Jobs.DELIVERED)) = true
  /\ exists s',
       Jobs.transition_status Sample.env 99%N Jobs.RECEIVED Sample.user
         EmptyString true (Sample.jobs_state Jobs.DELIVERED)
       = (Raised (ValueError "JobStatusHistory records are immutable"), s')
       /\ Jobs.db s' = Jobs.db (Sample.jobs_state Jobs.DELIVERED)
       /\ Jobs.status (Jobs.self s') = Jobs.RECEIVED.
Proof.
  split; [reflexivity|].
  destruct (override_skips_the_checks Sample.env 99%N Jobs.RECEIVED
              Sample.user EmptyString (Sample.jobs_state Jobs.DELIVERED))
    as (s' & H1 & H2 & _ & H3 & _).
  - discriminate.
  - exists s'. auto.
Defined.

Lemma follows_from_terminal (j : JobCard) (path : list JobStatus) :
  is_terminal_status j = true -> follows_the_table j path = true ->
  path = [].
Proof.
  intros Ht H. destruct path as [|t rest]; [reflexivity|].
  cbn [follows_the_table] in H. apply andb_true_iff in H as [H _].
  apply terminal_iff_no_edge in Ht. unfold can_transition_to in H.
  rewrite Ht in H. discriminate.
Qed.

Lemma delivery_passes_what_is_ahead (path : list JobStatus) :
  forall j, follows_the_table j path = true -> In DELIVERED path ->
            forall m, In m (ahead (status j)) -> In m path.
Proof.
  induction path as [|t rest IH]; intros j Hf Hd m Hm; [destruct Hd|].
  cbn [follows_the_table] in Hf. apply andb_true_iff in Hf as [He Hf].
  destruct Hd as [Hd | Hd].
  - subst t. unfold can_transition_to in He.
    destruct (status j); try discriminate. destruct Hm.
  - assert (Hnt : is_terminal_status (set_status t j) = false).
    { destruct (is_terminal_status (set_status t j)) eqn:E; [|reflexivity].
      rewrite (follows_from_terminal _ _ E Hf) in Hd. destruct Hd. }
    assert (Hstep : m = t \/ In m (ahead t)).
    { unfold can_transition_to in He. unfold is_terminal_status in Hnt.
      cbn [status set_status] in Hnt.
      destruct (status j), t; try discriminate; cbn in Hm |- *;
        intuition. }
    destruct Hstep as [-> | Hin]; [now left|].
    right. apply (IH (set_status t j) Hf Hd). exact Hin.
Qed.

(** X8: the transition table forces the whole lifecycle.  Any series of
    status changes allowed by [can_transition_to] that starts from
    RECEIVED and contains DELIVERED has passed DIAGNOSED, ESTIMATE_SHARED,
    APPROVED, IN_PROGRESS and READY, and ends with DELIVERED. *)
Theorem delivery_requires_the_whole_lifecycle
    (j : JobCard) (path : list JobStatus) :
  status j = RECEIVED ->
  follows_the_table j path = true ->
  In DELIVERED path ->
  In DIAGNOSED path /\ In ESTIMATE_SHARED path /\ In APPROVED path
  /\ In IN_PROGRESS path /\ In READY path
  /\ last path RECEIVED = DELIVERED.
Proof.
  intros Hs Hf Hd.
  pose proof (delivery_passes_what_is_ahead path j Hf Hd) as H.
  rewrite Hs in H. cbn [ahead] in H.
  repeat split; try (apply H; cbn; tauto).
  clear H Hs. revert j Hf Hd.
  induction path as [|t rest IH]; intros j Hf Hd; [destruct Hd|].
  cbn [follows_the_table] in Hf. apply andb_true_iff in Hf as [He Hf].
  destruct rest as [|u rest'].
  - destruct Hd as [-> | []]. reflexivity.
  - destruct Hd as [-> | Hd].
    + assert (E : is_terminal_status (set_status DELIVERED j) = true)
        by reflexivity.
      discriminate (follows_from_terminal _ _ E Hf).
    + change (last (t :: u :: rest') RECEIVED)
        with (last (u :: rest') RECEIVED).
      exact (IH _ Hf Hd).
Qed.

Lemma delivery_requires_the_whole_lifecycle_witness :
  In APPROVED [DIAGNOSED; ESTIMATE_SHARED; APPROVED; IN_PROGRESS; ON_HOLD;
               IN_PROGRESS; READY; DELIVERED]
  /\ In READY [DIAGNOSED; ESTIMATE_SHARED; APPROVED; IN_PROGRESS; ON_HOLD;
               IN_PROGRESS; READY; DELIVERED].
Proof.
  destruct (delivery_requires_the_whole_lifecycle (Sample.job_in RECEIVED)
              [DIAGNOSED; ESTIMATE_SHARED; APPROVED; IN_PROGRESS; ON_HOLD;
               IN_PROGRESS; READY; DELIVERED])
    as (_ & _ & H3 & _ & H5 & _).
  - reflexivity.
  - reflexivity.
  - cbn. tauto.
  - split; assumption.
Defined.

(** X9: no status of the table is a dead end before the terminal ones.
    From every non-terminal status some series of at most six allowed
    changes ends in DELIVERED; CANCELLED is allowed from every
    non-terminal status except READY; no allowed change leads back to
    RECEIVED or leaves the status where it is. *)
Theorem every_open_job_can_still_be_delivered (j : JobCard) :
  is_terminal_status j = false ->
  (exists path,
     follows_the_table j path = true
     /\ last path (status j) = DELIVERED
     /\ (List.length path <= 6)%nat)
  /\ (can_transition_to j CANCELLED = negb (JobStatus_beq (status j) READY))
  /\ (forall t, can_transition_to j t = true -> t <> RECEIVED /\ t <> status j).
Proof.
  intro H. destruct j as [i b n st c a d o].
  unfold is_terminal_status in H. cbn [status] in *.
  split; [|split].
  - destruct st; try discriminate.
    + exists [DIAGNOSED; ESTIMATE_SHARED; APPROVED; IN_PROGRESS; READY;
              DELIVERED]. repeat split. cbn. lia.
    + exists [ESTIMATE_SHARED; APPROVED; IN_PROGRESS; READY; DELIVERED].
      repeat split. cbn. lia.
    + exists [APPROVED; IN_PROGRESS; READY; DELIVERED].
      repeat split. cbn. lia.
    + exists [IN_PROGRESS; READY; DELIVERED]. repeat split. cbn. lia.
    + exists [READY; DELIVERED]. repeat split. cbn. lia.
    + exists [IN_PROGRESS; READY; DELIVERED]. repeat split. cbn. lia.
    + exists [DELIVERED]. repeat split. cbn. lia.
  - destruct st; try discriminate; reflexivity.
  - intros t Ht. unfold can_transition_to in Ht. cbn [status] in Ht.
    destruct st, t; try discriminate; split; discriminate.
Qed.

Lemma every_open_job_can_still_be_delivered_witness :
  exists path,
    follows_the_table (Sample.job_in ON_HOLD) path = true
    /\ last path ON_HOLD = DELIVERED.
Proof.
  destruct (every_open_job_can_still_be_delivered (Sample.job_in ON_HOLD))
    as [(path & H1 & H2 & _) _].
  - reflexivity.
  - exists path. split; assumption.
Defined.

(** The job-card table under [upsert_jobcard], [update_delivery_otp] and
    [get_jobcard]. *)
Lemma get_upsert_jobcard (rows : list JobCard) (j : JobCard) :
  get_jobcard (upsert_jobcard rows j) (id j) = Some j.
Proof.
  induction rows as [|r rest IH]; simpl.
  - now rewrite N.eqb_refl.
  - destruct (N.eqb (id r) (id j)) eqn:E; simpl.
    + now rewrite N.eqb_refl.
    + now rewrite E.
Qed.

Lemma upsert_jobcard_idem (rows : list JobCard) (j : JobCard) :
  upsert_jobcard (upsert_jobcard rows j) j = upsert_jobcard rows j.
Proof.
  induction rows as [|r rest IH]; simpl.
  - now rewrite N.eqb_refl.
  - destruct (N.eqb (id r) (id j)) eqn:E; simpl.
    + now rewrite N.eqb_refl.
    + now rewrite E, IH.
Qed.

Lemma get_update_delivery_otp (rows : list JobCard) (j : JobCard) :
  get_jobcard (update_delivery_otp rows j) (id j)
  = option_map (set_delivery_otp (delivery_otp j)) (get_jobcard rows (id j)).
Proof.
  induction rows as [|r rest IH]; simpl; [reflexivity|].
  destruct (N.eqb (id r) (id j)) eqn:E; simpl.
  - now rewrite E.
  - now rewrite E.
Qed.

Lemma get_update_delivery_otp_other (rows : list JobCard) (j : JobCard)
    (k : UUID) :
  k <> id j ->
  get_jobcard (update_delivery_otp rows j) k = get_jobcard rows k.
Proof.
  intro Hk. induction rows as [|r rest IH]; simpl; [reflexivity|].
  destruct (N.eqb (id r) (id j)) eqn:E; simpl.
  - apply N.eqb_eq in E.
    assert (H : N.eqb (id r) k = false) by (apply N.eqb_neq; congruence).
    now rewrite H.
  - destruct (N.eqb (id r) k); [reflexivity|exact IH].
Qed.

Lemma get_jobcard_has (rows : list JobCard) (k : UUID) (row : JobCard) :
  get_jobcard rows k = Some row -> has_jobcard rows k = true.
Proof.
  unfold has_jobcard.
  induction rows as [|r rest IH]; simpl; [discriminate|].
  destruct (N.eqb (id r) k); [reflexivity|exact IH].
Qed.

Lemma append_slash_nonempty (a b : string) :
  String.eqb (a ++ "/" ++ b) EmptyString = false.
Proof. destruct a; reflexivity. Qed.

Lemma get_branch_none_next (env : Core.Env) (self : Core.Branch)
    (rows : list Core.Branch) :
  Core.get_next_jobcard_number env self rows = None ->
  Core.get_branch rows (Core.pk self) = None.
Proof.
  unfold Core.get_next_jobcard_number.
  destruct (Core.get_branch rows (Core.pk self)); [discriminate|reflexivity].
Qed.

Lemma JobCard_save_numbered (env : Core.Env) (s : State) :
  String.eqb (job_number (self s)) EmptyString = false ->
  JobCard_save env false s
  = (Returned tt,
     mkState (self s)
       (mkDatabase (branches (db s))
          (upsert_jobcard (jobcards (db s)) (self s))
          (status_history (db s)))
       (outbox s)).
Proof.
  intro H. unfold JobCard_save, bind, get. rewrite H. reflexivity.
Qed.

(** X10: [JobCard.save] numbers a job once.  The call raises
    ([Branch.DoesNotExist], nothing changed) only for a job without a
    number whose branch has no stored row.  When it returns, the job has a
    non-empty number and the stored row with its key is the object; a job
    that had a number keeps it and the branch counters are untouched; the
    status history is untouched; and saving again, at any later date,
    changes nothing. *)
Theorem JobCard_save_numbers_once (env env' : Core.Env) (s : State) :
  match JobCard_save env false s with
  | (Returned _, s') =>
      job_number (self s') <> EmptyString
      /\ (job_number (self s) <> EmptyString ->
          self s' = self s /\ branches (db s') = branches (db s))
      /\ get_jobcard (jobcards (db s')) (id (self s')) = Some (self s')
      /\ status_history (db s') = status_history (db s)
      /\ JobCard_save env' false s' = (Returned tt, s')
  | (Raised e, s') =>
      s' = s
      /\ e = DoesNotExist "Branch matching query does not exist."
      /\ job_number (self s) = EmptyString
      /\ Core.get_branch (branches (db s)) (Core.pk (branch (self s))) = None
  end.
Proof.
  destruct (String.eqb (job_number (self s)) EmptyString) eqn:Hnum.
  - unfold JobCard_save at 1. unfold bind, get. rewrite Hnum.
    destruct (Core.get_next_jobcard_number env (branch (self s))
                (branches (db s))) as [[number rows]|] eqn:Hnext.
    + unfold modify. cbv beta iota.
      cbn [self db set_db set_job_number job_number jobcards branches
           status_history outbox id].
      assert (Hn : String.eqb number EmptyString = false).
      { revert Hnext. unfold Core.get_next_jobcard_number.
        destruct (Core.get_branch _ _); [|discriminate].
        intro H. injection H as <- _. apply append_slash_nonempty. }
      split; [now apply String.eqb_neq|].
      split; [apply String.eqb_eq in Hnum; congruence|].
      split; [apply (get_upsert_jobcard _ (set_job_number number (self s)))|].
      split; [reflexivity|].
      rewrite JobCard_save_numbered by exact Hn.
      cbn [self db branches jobcards status_history outbox set_db].
      now rewrite upsert_jobcard_idem.
    + unfold raise. cbv beta iota. repeat split.
      * now apply String.eqb_eq.
      * now apply get_branch_none_next in Hnext.
  - rewrite JobCard_save_numbered by exact Hnum.
    cbn [self db branches jobcards status_history outbox set_db].
    split; [now apply String.eqb_neq|].
    split; [auto|].
    split; [apply get_upsert_jobcard|].
    split; [reflexivity|].
    rewrite JobCard_save_numbered by exact Hnum.
    cbn [self db branches jobcards status_history outbox set_db].
    now rewrite upsert_jobcard_idem.
Qed.

(** X11: on a numbered job with a stored row, [generate_delivery_otp]
    returns the drawn code, leaves it on the object, writes it to the
    [delivery_otp] column of the stored row and to no other column or row,
    leaves branches and status history alone, and hands exactly one
    DELIVERY_OTP notification carrying the code to the notification
    service. *)
Theorem generate_delivery_otp_on_a_stored_job
    (env : Core.Env) (otp : string) (s : State) (row : JobCard) :
  job_number (self s) <> EmptyString ->
  get_jobcard (jobcards (db s)) (id (self s)) = Some row ->
  exists s',
    generate_delivery_otp env otp s = (Returned otp, s')
    /\ self s' = set_delivery_otp otp (self s)
    /\ get_jobcard (jobcards (db s')) (id (self s))
       = Some (set_delivery_otp otp row)
    /\ (forall k, k <> id (self s) ->
                  get_jobcard (jobcards (db s')) k
                  = get_jobcard (jobcards (db s)) k)
    /\ branches (db s') = branches (db s)
    /\ status_history (db s') = status_history (db s)
    /\ outbox s'
       = outbox s ++ [mkNotification (id (self s)) DELIVERY_OTP
                        (job_number (self s)) None None (Some otp)].
Proof.
  intros Hnum Hget. apply String.eqb_neq in Hnum.
  pose proof (get_jobcard_has _ _ _ Hget) as Hhas.
  unfold generate_delivery_otp, bind at 1, modify at 1. cbv beta iota.
  unfold bind at 1, JobCard_save, bind at 1, get at 1. cbv beta iota.
  cbn [self set_self set_delivery_otp job_number].
  rewrite Hnum. unfold bind at 1, ret at 1. cbv beta iota.
  unfold bind at 1, get at 1. cbv beta iota.
  cbn [self db set_self id set_delivery_otp]. rewrite Hhas.
  unfold modify at 1. cbv beta iota.
  unfold bind at 1, modify at 1. cbv beta iota.
  unfold bind at 1, get at 1. cbv beta iota. unfold ret.
  eexists. split; [reflexivity|].
  cbn [self db set_self set_db send jobcards branches status_history outbox
       id job_number delivery_otp set_delivery_otp].
  split; [reflexivity|]. split.
  { rewrite (get_update_delivery_otp _ (set_delivery_otp otp (self s))).
    cbn [id set_delivery_otp]. rewrite Hget. reflexivity. }
  split.
  { intros k Hk.
    apply (get_update_delivery_otp_other _ (set_delivery_otp otp (self s))).
    exact Hk. }
  repeat split.
Qed.

Lemma generate_delivery_otp_on_a_stored_job_witness :
  exists s',
    generate_delivery_otp Sample.env "407193" (Sample.jobs_state READY)
    = (Returned "407193"%string, s')
    /\ get_jobcard (jobcards (db s')) 1%N
       = Some (set_delivery_otp "407193" (Sample.job_in READY)).
Proof.
  destruct (generate_delivery_otp_on_a_stored_job Sample.env "407193"
              (Sample.jobs_state READY) (Sample.job_in READY))
    as (s' & H1 & _ & H3 & _).
  - discriminate.
  - reflexivity.
  - exists s'. split; assumption.
Defined.

(** X12: a delivery request passes [JobDeliverySerializer.validate] or is
    refused as follows.  It passes when it carries a non-empty OTP equal
    to the stored one, or no OTP (absent or empty) and a signature; the
    data are returned unchanged.  It is refused with "Either OTP or
    customer signature is required for delivery." without OTP and
    signature, and with "Invalid OTP." when a non-empty OTP differs from
    the stored one, signature or not.  An empty OTP is never compared. *)
Theorem delivery_needs_signature_or_matching_otp
    (job : JobCard) (data : DeliveryData) :
  match JobDeliverySerializer_validate job data with
  | Returned d =>
      d = data
      /\ (otp data = Some (delivery_otp job) /\ delivery_otp job <> EmptyString
          \/ truthy (otp data) = false /\ truthy (signature data) = true)
  | Raised e =>
      (e = ValidationError
             "Either OTP or customer signature is required for delivery."
       /\ truthy (otp data) = false /\ truthy (signature data) = false)
      \/ (e = ValidationError "Invalid OTP."
          /\ truthy (otp data) = true
          /\ otp data <> Some (delivery_otp job))
  end.
Proof.
  unfold JobDeliverySerializer_validate, verify_delivery_otp.
  destruct (otp data) as [[|c rest]|] eqn:Hotp; cbn [truthy negb andb].
  - destruct (truthy (signature data)); cbn [negb]; auto.
  - destruct (String.eqb (delivery_otp job) (String c rest)) eqn:E;
      cbn [negb].
    + apply String.eqb_eq in E. split; [reflexivity|]. left.
      rewrite E. split; [reflexivity|discriminate].
    + apply String.eqb_neq in E. right. repeat split. congruence.
  - destruct (truthy (signature data)); cbn [negb]; auto.
Qed.

(** X13: the code drawn by [generate_otp] and stored by
    [generate_delivery_otp] is the only OTP that delivers the job: a
    request with that code and no signature passes
    [JobDeliverySerializer.validate], a request with any other code and
    no signature is refused. *)
Theorem generated_otp_is_the_only_one_accepted
    (env : Core.Env) (draws : list Z) (s : State) :
  Forall (fun d => 0 <= d <= 9) draws -> draws <> [] ->
  let job :=
    self (snd (generate_delivery_otp env (Utils.generate_otp draws) s)) in
  delivery_otp job = Utils.generate_otp draws
  /\ JobDeliverySerializer_validate job
       (mkDeliveryData (Some (Utils.generate_otp draws)) None None)
     = Returned (mkDeliveryData (Some (Utils.generate_otp draws)) None None)
  /\ forall candidate,
       candidate <> Utils.generate_otp draws ->
       exists msg,
         JobDeliverySerializer_validate job
           (mkDeliveryData (Some candidate) None None)
         = Raised (ValidationError msg).
Proof.
  intros Hd Hne job.
  assert (Hv : forall c, verify_delivery_otp job c
                         = String.eqb (Utils.generate_otp draws) c)
    by (intro c; apply verify_after_generate).
  assert (Hotp : delivery_otp job = Utils.generate_otp draws).
  { pose proof (Hv (Utils.generate_otp draws)) as H.
    rewrite String.eqb_refl in H. now apply String.eqb_eq in H. }
  destruct (generate_otp_length draws Hd) as [Hlen _].
  destruct (Utils.generate_otp draws) as [|c rest] eqn:E.
  { destruct draws; [congruence|discriminate]. }
  split; [exact Hotp|]. split.
  - unfold JobDeliverySerializer_validate. cbn [otp signature truthy negb andb].
    rewrite Hv, String.eqb_refl. reflexivity.
  - intros candidate Hc. unfold JobDeliverySerializer_validate.
    cbn [otp signature truthy]. destruct candidate as [|x xs].
    + eexists; reflexivity.
    + cbn [negb andb]. rewrite Hv.
      assert (Hf : String.eqb (String c rest) (String x xs) = false)
        by (apply String.eqb_neq; congruence).
      rewrite Hf. eexists; reflexivity.
Qed.

Lemma generated_otp_is_the_only_one_accepted_witness :
  JobDeliverySerializer_validate
    (self (snd (generate_delivery_otp Sample.env
                  (Utils.generate_otp [4; 0; 7; 1; 9; 3])
                  (Sample.jobs_state READY))))
    (mkDeliveryData (Some "407193"%string) None None)
  = Returned (mkDeliveryData (Some "407193"%string) None None).
Proof.
  apply (generated_otp_is_the_only_one_accepted Sample.env
           [4; 0; 7; 1; 9; 3] (Sample.jobs_state READY)).
  - repeat constructor; lia.
  - discriminate.
Defined.

(** X14: without override, a target outside the transition table is
    refused by [JobStatusUpdateSerializer.validate_new_status] with
    "Cannot transition from <current label> to this status. Allowed: "
    followed by the labels of the allowed targets joined by ", "; the
    label of every allowed target occurs in the message. *)
Theorem validate_new_status_lists_allowed_targets
    (job : JobCard) (role : Role) (value : JobStatus) :
  can_transition_to job value = false ->
  exists msg,
    validate_new_status job role None value = Raised (ValidationError msg)
    /\ validate_new_status job role (Some false) value
       = Raised (ValidationError msg)
    /\ msg = ("Cannot transition from " ++ label (status job)
              ++ " to this status. Allowed: "
              ++ String.concat ", "
                   (map label (ALLOWED_STATUS_TRANSITIONS (status job))))%string
    /\ Forall (fun t => Utils.occurs (label t) msg)
              (ALLOWED_STATUS_TRANSITIONS (status job)).
Proof.
  intro H. unfold validate_new_status. rewrite H. cbn [negb].
  eexists. split; [reflexivity|]. split; [reflexivity|]. split.
  - reflexivity.
  - apply Forall_forall. intros t Ht.
    do 4 apply occurs_append_r. apply occurs_concat. now apply in_map.
Qed.

Lemma validate_new_status_lists_allowed_targets_witness :
  exists msg,
    validate_new_status (Sample.job_in RECEIVED) TECHNICIAN None DELIVERED
    = Raised (ValidationError msg)
    /\ Forall (fun t => Utils.occurs (label t) msg) [DIAGNOSED; CANCELLED].
Proof.
  destruct (validate_new_status_lists_allowed_targets
              (Sample.job_in RECEIVED) TECHNICIAN DELIVERED)
    as (msg & H1 & _ & _ & H2).
  - reflexivity.
  - exists msg. split; [exact H1 | exact H2].
Defined.



End JobStatusChanges.

(** ** Part requests *)

Section PartRequestApproval.

Import PartRequests.

(** X16: [PartRequest.approve].  Without an inventory item the request
    becomes APPROVED, [approved_by] is the user and the row is stored;
    the inventory is untouched.  With an inventory item the call never
    returns and the request object and the whole database are as before:
    with less stock than requested it raises [InsufficientInventory]
    ("Not enough stock for <part>. Requested: n, Available: m") before
    anything is assigned; otherwise [deduct_stock] raises ([ValueError] or
    [DatabaseError]) and the transaction is rolled back. *)
Theorem approve_outcomes (uuid4 uuid4' : UUID) (user : User) (s : State) :
  match inventory_item s with
  | None =>
      approve uuid4 uuid4' user s
      = (Returned tt,
         let r := mkPartRequest (id (self s)) (job_number (self s))
                    (part_name (self s)) (quantity (self s)) APPROVED
                    (Some user) in
         mkState r None
           (mkDatabase (upsert_part_request (part_requests (db s)) r)
                       (inventory (db s))))
  | Some item =>
      exists e s',
        approve uuid4 uuid4' user s = (Raised e, s')
        /\ db s' = db s
        /\ self s' = self s
        /\ (Inventory.quantity item < quantity (self s) ->
            s' = s
            /\ e = InsufficientInventory
                     ("Not enough stock for " ++ part_name (self s) ++ ". "
                      ++ "Requested: " ++ str_int (quantity (self s))
                      ++ ", Available: "
                      ++ str_int (Inventory.quantity item)))
        /\ (quantity (self s) <= Inventory.quantity item ->
            exists m, e = ValueError m \/ e = DatabaseError m)
  end.
Proof.
  destruct s as [r [item|] d]; cbn [inventory_item self db].
  - unfold approve, atomic, bind at 1, get at 1. cbv beta iota.
    cbn [inventory_item self db]. unfold bind at 1.
    destruct (Inventory.quantity item <? quantity r) eqn:E.
    + unfold raise. do 2 eexists. split; [reflexivity|].
      split; [reflexivity|]. split; [reflexivity|].
      split; [intros _; split; reflexivity|].
      intro H. apply Z.ltb_lt in E. lia.
    + apply Z.ltb_ge in E. unfold on_inventory_item.
      rewrite deduct_stock_result.
      cbn [Inventory.self Inventory.quantity].
      destruct (quantity r <=? 0).
      * do 2 eexists. split; [reflexivity|].
        split; [reflexivity|]. split; [reflexivity|].
        split; [intro H; lia|].
        intros _. eexists. left. reflexivity.
      * destruct (Inventory.quantity item <? quantity r) eqn:E';
          [apply Z.ltb_lt in E'; lia|].
        unfold Inventory.ledger_failure.
        destruct (Inventory.has_item _ _);
          do 2 eexists; (split; [reflexivity|]);
          (split; [reflexivity|]); (split; [reflexivity|]);
          (split; [intro H; lia|]);
          intros _; eexists; [left|right]; reflexivity.
  - reflexivity.
Qed.

End PartRequestApproval.

(** ** Stock endpoints *)

Section StockEndpoints.

Import Inventory.

(** Every stock method raises; the tables are left as they were. *)
Lemma add_stock_raises (uuid4 : UUID) (q : Z) (r : string)
    (u : option User) (s : Inventory.State) :
  exists e s', add_stock uuid4 q r u s = (Raised e, s')
               /\ db s' = db s
               /\ (forall m, e <> InsufficientInventory m).
Proof.
  rewrite add_stock_result. unfold ledger_failure.
  destruct (q <=? 0); [|destruct (has_item _ _)];
    do 2 eexists; repeat split; discriminate.
Qed.

Lemma adjust_stock_raises (uuid4 : UUID) (q : Z) (r : string)
    (u : option User) (s : Inventory.State) :
  exists e s', adjust_stock uuid4 q r u s = (Raised e, s')
               /\ db s' = db s.
Proof.
  rewrite adjust_stock_result.
  destruct (q <? 0); do 2 eexists; split; reflexivity.
Qed.

Lemma deduct_stock_raises (uuid4 uuid4' : UUID) (q : Z) (r : string)
    (u : option User) (j : option UUID) (s : Inventory.State) :
  exists e s', deduct_stock uuid4 uuid4' q r u j s = (Raised e, s')
               /\ db s' = db s
               /\ ((exists m, e = InsufficientInventory m) ->
                   s' = s /\ 0 < q /\ quantity (self s) < q).
Proof.
  rewrite deduct_stock_result. unfold ledger_failure.
  destruct (q <=? 0) eqn:E1.
  - do 2 eexists; repeat split; destruct H; discriminate.
  - destruct (quantity (self s) <? q) eqn:E2.
    + do 2 eexists; repeat split.
      * apply Z.leb_gt in E1. lia.
      * now apply Z.ltb_lt in E2.
    + destruct (has_item _ _); do 2 eexists; repeat split;
        destruct H; discriminate.
Qed.

Import InventoryApi.

(** X17: no stock endpoint reports success.  [add_stock] and
    [adjust_stock] end in an exception that leaves the view;
    [deduct_stock] does so too, or answers 400 when a positive quantity
    exceeds the stock, with the item object untouched.  The inventory
    tables and the audit table are as before in every case. *)
Theorem stock_endpoints_never_succeed
    (uuid4 uuid4' : UUID) (user : User) (q : Z) (reason : string)
    (job_id : option UUID) (job_ids : list UUID) (s : InventoryApi.State) :
  (exists e s',
     InventoryItemViewSet_add_stock uuid4 user q reason s = (Raised e, s')
     /\ db (stock s') = db (stock s) /\ audit_logs s' = audit_logs s)
  /\ (exists e s',
        InventoryItemViewSet_adjust_stock uuid4 uuid4' user q reason s
        = (Raised e, s')
        /\ db (stock s') = db (stock s) /\ audit_logs s' = audit_logs s)
  /\ (exists r s',
        InventoryItemViewSet_deduct_stock uuid4 uuid4' user q reason
          job_id job_ids s = (r, s')
        /\ db (stock s') = db (stock s) /\ audit_logs s' = audit_logs s
        /\ match r with
           | Raised _ => True
           | Returned resp =>
               status_code resp = HTTP_400_BAD_REQUEST
               /\ s' = s /\ 0 < q /\ quantity (self (stock s)) < q
           end).
Proof.
  split; [|split].
  - unfold InventoryItemViewSet_add_stock, bind at 1, on_item.
    destruct (add_stock_raises uuid4 q reason (Some user) (stock s))
      as (e & t & -> & Hdb & _).
    exists e, (InventoryApi.mkState t (audit_logs s)). auto.
  - unfold InventoryItemViewSet_adjust_stock, bind at 1, get at 1.
    cbv beta iota. unfold bind at 1, on_item.
    destruct (adjust_stock_raises uuid4 q reason (Some user) (stock s))
      as (e & t & -> & Hdb).
    exists e, (InventoryApi.mkState t (audit_logs s)). auto.
  - unfold InventoryItemViewSet_deduct_stock, try_except, bind at 1, on_item.
    match goal with
    | |- context [deduct_stock uuid4 uuid4' q reason (Some user) ?j
                               (stock s)] =>
        destruct (deduct_stock_raises uuid4 uuid4' q reason (Some user) j
                    (stock s)) as (e & t & -> & Hdb & Hins)
    end.
    destruct e;
      try (do 2 eexists; split; [reflexivity|]; cbn; now auto).
    destruct (Hins ltac:(eexists; reflexivity)) as (-> & Hq & Hlt).
    destruct s as [st al]. do 2 eexists. split; [reflexivity|].
    cbn in *. repeat split; auto.
Qed.

End StockEndpoints.

(** ** Tax split *)

Section TaxSplit.

Import CoreUtils.

Lemma half_up_coef (d : Decimal) (x : Q) :
  places d = 2%nat ->
  (Exact.to_Q d == Exact.round_half_up_2dp x)%Q ->
  coef d = Exact.round_half_up_cents x.
Proof.
  intros Hp H. unfold Qeq, Exact.to_Q, Exact.round_half_up_2dp in H.
  cbn [Qnum Qden] in H. rewrite Hp in H.
  change (Zpos (Z.to_pos (pow10 2))) with 100 in H. lia.
Qed.

Lemma cents_of_fraction (n : Z) (D : positive) :
  0 <= n ->
  Exact.round_half_up_cents (n # D) = (200 * n + Zpos D) / (2 * Zpos D).
Proof.
  intro Hn. rewrite round_half_up_cents_fraction.
  rewrite (Z.abs_eq n Hn).
  destruct (Z.eq_dec n 0) as [-> | Hnz].
  - cbn [Z.sgn]. rewrite Z.mul_0_l, Z.mul_0_r, Z.add_0_l.
    symmetry. apply Z.div_small. lia.
  - rewrite (Z.sgn_pos n) by lia. lia.
Qed.

(** X18: for a base amount and a rate that are not negative, the tax of
    an intrastate supply (two halves, each rounded on its own) and the tax
    of an interstate supply (rounded once) differ by at most one
    hundredth; both are written with two decimals and are not negative,
    and the CGST and SGST amounts are equal. *)
Theorem tax_split_costs_at_most_one_paisa (base rate : Decimal) :
  0 <= coef base -> 0 <= coef rate ->
  let inter := calculate_gst base rate true in
  let intra := calculate_gst base rate false in
  places (total_tax inter) = 2%nat
  /\ places (total_tax intra) = 2%nat
  /\ cgst_amount intra = sgst_amount intra
  /\ 0 <= coef (total_tax inter)
  /\ 0 <= coef (total_tax intra)
  /\ Z.abs (coef (total_tax inter) - coef (total_tax intra)) <= 1.
Proof.
  intros Hb Hr inter intra.
  pose proof (gst_components_hold base rate true) as Hi.
  pose proof (gst_components_hold base rate false) as Ha.
  unfold Exact.gst_components in Hi, Ha. cbv zeta in Hi, Ha.
  fold inter in Hi. fold intra in Ha.
  destruct Hi as (_ & Higst & _). destruct Ha as (_ & _ & Hcgst & _).
  assert (P1 : places (igst_amount inter) = 2%nat) by apply quantize_places.
  assert (P2 : places (cgst_amount intra) = 2%nat) by apply quantize_places.
  apply (half_up_coef _ _ P1) in Higst.
  apply (half_up_coef _ _ P2) in Hcgst.
  set (D := (Z.to_pos (pow10 (places base)) * Z.to_pos (pow10 (places rate))
             * 100)%positive).
  set (n := coef base * coef rate).
  assert (Hn : 0 <= n) by (unfold n; nia).
  assert (Q1 : (Exact.to_Q base * Exact.to_Q rate / 100 == n # D)%Q).
  { unfold Qeq, Exact.to_Q, n, D, Qdiv, Qmult, Qinv. cbn [Qnum Qden].
    rewrite ?Pos2Z.inj_mul. ring. }
  rewrite (round_half_up_cents_comp _ (n # D)) in Higst by exact Q1.
  assert (Q2 : (Exact.to_Q base * (Exact.to_Q rate / 2) / 100
                == n # (2 * D))%Q).
  { unfold Qeq, Exact.to_Q, n, D, Qdiv, Qmult, Qinv. cbn [Qnum Qden].
    rewrite ?Pos2Z.inj_mul. ring. }
  rewrite (round_half_up_cents_comp _ (n # (2 * D))) in Hcgst by exact Q2.
  rewrite cents_of_fraction in Higst, Hcgst by exact Hn.
  assert (Tinter : total_tax inter = igst_amount inter) by reflexivity.
  assert (Tintra : coef (total_tax intra) = 2 * coef (cgst_amount intra)).
  { unfold intra, calculate_gst. cbn [total_tax cgst_amount].
    unfold PyDecimal.add. cbn [coef places].
    rewrite quantize_places. cbn [places dec_0_01 Nat.max].
    unfold rescale. rewrite quantize_places. cbn [places dec_0_01].
    change (pow10 (2 - 2)) with 1. lia. }
  split; [rewrite Tinter; exact P1|].
  split; [apply total_tax_places|].
  split; [reflexivity|].
  rewrite Tinter, Tintra, Higst, Hcgst.
  rewrite Pos2Z.inj_mul. change (Zpos 2) with 2.
  set (d := Zpos D). assert (Hd : 0 < d) by (unfold d; lia).
  pose proof (Z.div_mod (200 * n + d) (2 * d) ltac:(lia)) as E1.
  pose proof (Z.mod_pos_bound (200 * n + d) (2 * d) ltac:(lia)) as B1.
  pose proof (Z.div_mod (200 * n + 2 * d) (2 * (2 * d)) ltac:(lia)) as E2.
  pose proof (Z.mod_pos_bound (200 * n + 2 * d) (2 * (2 * d)) ltac:(lia)) as B2.
  set (a := (200 * n + d) / (2 * d)) in *.
  set (c := (200 * n + 2 * d) / (2 * (2 * d))) in *.
  assert (0 <= a) by (apply Z.div_pos; lia).
  assert (0 <= c) by (apply Z.div_pos; lia).
  split; [lia|]. split; [lia|].
  assert (a <= 2 * c + 1) by nia.
  assert (2 * c <= a + 1) by nia.
  lia.
Qed.

Lemma tax_split_costs_at_most_one_paisa_witness :
  Z.abs (coef (CoreUtils.total_tax
                 (CoreUtils.calculate_gst (mkDecimal 25 2) (mkDecimal 18 0)
                                          true))
         - coef (CoreUtils.total_tax
                   (CoreUtils.calculate_gst (mkDecimal 25 2) (mkDecimal 18 0)
                                            false)))
  <= 1.
Proof.
  apply (tax_split_costs_at_most_one_paisa (mkDecimal 25 2) (mkDecimal 18 0)).
  - vm_compute. discriminate.
  - vm_compute. discriminate.
Defined.

End TaxSplit.

(** ** Invoice lines *)

Section InvoiceLines.

Import Billing BillingApi.

Lemma priced_amount_places (b : bool) (l : InvoiceLineItem) :
  places (amount (priced b l)) = 2%nat.
Proof.
  unfold priced. cbn [amount].
  destruct (gtb (discount_percent l) dec_0).
  - unfold PyDecimal.sub. cbn [places]. unfold quantize_default.
    rewrite !quantize_places. reflexivity.
  - unfold quantize_default. apply quantize_places.
Qed.

Lemma rescale_same (d : Decimal) : rescale d (places d) = coef d.
Proof.
  unfold rescale. rewrite Nat.sub_diag. change (pow10 0) with 1. lia.
Qed.

Lemma rescale_2 (d : Decimal) : places d = 2%nat -> rescale d 2 = coef d.
Proof. intro H. rewrite <- H. apply rescale_same. Qed.

(** X19: what [InvoiceLineItem.save] computes.  The amount has two
    decimals and the tax amounts at most two; an interstate line has no
    CGST and no SGST and the whole rate as IGST rate, an intrastate line
    has no IGST, equal CGST and SGST amounts and half the rate for each;
    [total_with_tax] of the serializer is the [total_amount] of the tax
    breakdown of the line amount; saving the saved line again computes
    the same line. *)
Theorem priced_line_is_consistent (b : bool) (l : InvoiceLineItem) :
  two_place_line (priced b l)
  /\ (if b
      then cgst_amount (priced b l) = dec_0
           /\ sgst_amount (priced b l) = dec_0
           /\ igst_rate (priced b l) = gst_rate l
      else igst_amount (priced b l) = dec_0
           /\ cgst_amount (priced b l) = sgst_amount (priced b l)
           /\ cgst_rate (priced b l) = div_2 (gst_rate l)
           /\ sgst_rate (priced b l) = div_2 (gst_rate l))
  /\ get_total_with_tax (priced b l)
     = PyDecimal.str
         (CoreUtils.total_amount
            (CoreUtils.calculate_gst (amount (priced b l)) (gst_rate l) b))
  /\ priced b (priced b l) = priced b l.
Proof.
  pose proof (priced_amount_places b l) as Ha.
  split; [|split; [|split]].
  - unfold two_place_line. split; [exact Ha|].
    unfold priced; cbn [cgst_amount sgst_amount igst_amount].
    unfold CoreUtils.calculate_gst.
    destruct b; cbn [CoreUtils.cgst_amount CoreUtils.sgst_amount
                     CoreUtils.igst_amount];
      rewrite ?quantize_places; cbn [places dec_0 dec_0_01]; lia.
  - unfold priced;
      cbn [cgst_amount sgst_amount igst_amount igst_rate cgst_rate sgst_rate].
    unfold CoreUtils.calculate_gst. destruct b; repeat split.
  - unfold get_total_with_tax. f_equal.
    set (a := amount (priced b l)) in *.
    assert (cgst_amount (priced b l)
            = CoreUtils.cgst_amount (CoreUtils.calculate_gst a (gst_rate l) b))
      as -> by reflexivity.
    assert (sgst_amount (priced b l)
            = CoreUtils.sgst_amount (CoreUtils.calculate_gst a (gst_rate l) b))
      as -> by reflexivity.
    assert (igst_amount (priced b l)
            = CoreUtils.igst_amount (CoreUtils.calculate_gst a (gst_rate l) b))
      as -> by reflexivity.
    unfold CoreUtils.calculate_gst.
    destruct b; cbn [CoreUtils.cgst_amount CoreUtils.sgst_amount
                     CoreUtils.igst_amount CoreUtils.total_amount].
    + set (t := quantize _ dec_0_01 ROUND_HALF_UP).
      assert (Ht : places t = 2%nat) by apply quantize_places.
      unfold quantize, PyDecimal.add.
      cbn [places coef dec_0 dec_0_01]. rewrite Ha, Ht.
      cbn [Nat.max Nat.leb]. unfold rescale, dec_0.
      cbn [places coef]. rewrite ?Ha, ?Ht.
      change (pow10 (2 - 2)) with 1. change (pow10 (2 - 0)) with 100.
      f_equal. lia.
    + set (t := quantize _ dec_0_01 ROUND_HALF_UP).
      assert (Ht : places t = 2%nat) by apply quantize_places.
      unfold quantize, PyDecimal.add.
      cbn [places coef dec_0 dec_0_01]. rewrite Ha, Ht.
      cbn [Nat.max Nat.leb]. unfold rescale, dec_0.
      cbn [places coef]. rewrite ?Ha, ?Ht.
      change (pow10 (2 - 2)) with 1. change (pow10 (2 - 0)) with 100.
      f_equal. lia.
  - reflexivity.
Qed.

Lemma round_div_bounds (r : Rounding) (c s n : Z) :
  0 < s -> 0 <= c <= n * s -> 0 <= round_div r c s <= n.
Proof.
  intros Hs [Hc Hn]. unfold round_div.
  rewrite (Z.abs_eq c) by exact Hc.
  pose proof (Z.div_mod c s ltac:(lia)) as Hdm.
  pose proof (Z.mod_pos_bound c s Hs) as Hm.
  assert (Hq : 0 <= c / s) by (apply Z.div_pos; lia).
  destruct (Z.eq_dec c 0) as [-> | Hnz].
  { rewrite Z.mod_0_l, Z.div_0_l by lia. cbn. lia. }
  assert (Hsg : Z.sgn c = 1) by (apply Z.sgn_pos; lia).
  rewrite Hsg.
  assert (Hqn : c / s <= n) by (apply Z.div_le_upper_bound; lia).
  destruct (Z.compare_spec (2 * (c mod s)) s) as [E|E|E].
  - assert (c mod s <> 0) by lia.
    assert (c / s < n) by nia.
    destruct r; [lia|]. destruct (Z.odd (c / s)); lia.
  - lia.
  - assert (c / s < n) by nia. lia.
Qed.

Lemma quantize_bounds (d : Decimal) (r : Rounding) (n : Z) :
  0 <= coef d -> coef d * 100 <= n * pow10 (places d) ->
  0 <= coef (quantize d dec_0_01 r) <= n.
Proof.
  intros Hc Hn. unfold quantize. cbn [places dec_0_01].
  destruct (places d <=? 2)%nat eqn:E; cbn [coef].
  - apply Nat.leb_le in E. unfold rescale.
    pose proof (pow10_pos (2 - places d)) as P1.
    pose proof (pow10_pos (places d)) as P2.
    assert (H100 : pow10 (2 - places d) * pow10 (places d) = 100).
    { rewrite <- pow10_add.
      replace (2 - places d + places d)%nat with 2%nat by lia.
      reflexivity. }
    split; [nia|]. nia.
  - apply Nat.leb_gt in E.
    pose proof (pow10_pos (places d - 2)) as P1.
    assert (Hp : pow10 (places d) = 100 * pow10 (places d - 2)).
    { replace (places d) with (2 + (places d - 2))%nat at 1 by lia.
      rewrite pow10_add. reflexivity. }
    apply round_div_bounds; [exact P1|]. split; [exact Hc|]. nia.
Qed.

Lemma quantize_nonneg (d : Decimal) (r : Rounding) :
  0 <= coef d -> 0 <= coef (quantize d dec_0_01 r).
Proof.
  intro Hc. unfold quantize. cbn [places dec_0_01].
  destruct (places d <=? 2)%nat eqn:E; cbn [coef].
  - unfold rescale. pose proof (pow10_pos (2 - places d)). nia.
  - unfold round_div. rewrite (Z.abs_eq _ Hc).
    pose proof (pow10_pos (places d - 2)) as P.
    assert (0 <= coef d / pow10 (places d - 2)) by (apply Z.div_pos; lia).
    destruct (Z.eq_dec (coef d) 0) as [-> | Hnz]; [cbn; lia|].
    rewrite (Z.sgn_pos (coef d)) by lia.
    match goal with |- context [if ?b then _ else _] => destruct b end; lia.
Qed.

Lemma div_100_value (x : Decimal) :
  coef (div_100 x) * pow10 (places x) * 100
  = coef x * pow10 (places (div_100 x)).
Proof.
  unfold div_100.
  destruct (coef x mod 100 =? 0) eqn:E1; cbn [coef places].
  - apply Z.eqb_eq in E1.
    pose proof (Z.div_mod (coef x) 100 ltac:(lia)). nia.
  - destruct (coef x mod 10 =? 0) eqn:E2; cbn [coef places].
    + apply Z.eqb_eq in E2.
      pose proof (Z.div_mod (coef x) 10 ltac:(lia)).
      rewrite pow10_S. nia.
    + rewrite !pow10_S. nia.
Qed.

Lemma div_100_nonneg (x : Decimal) : 0 <= coef x -> 0 <= coef (div_100 x).
Proof.
  intro H. unfold div_100.
  destruct (coef x mod 100 =? 0); cbn [coef]; [apply Z.div_pos; lia|].
  destruct (coef x mod 10 =? 0); cbn [coef]; [apply Z.div_pos; lia|lia].
Qed.

(** X20: for a quantity and a unit price that are not negative and a
    discount of at most 100 percent, the amount of a saved line lies
    between zero and the gross amount (quantity times unit price, to two
    decimals); a discount that is not positive leaves the gross
    amount. *)
Theorem discounted_amount_stays_within_gross (b : bool) (l : InvoiceLineItem) :
  0 <= quantity l -> 0 <= coef (unit_price l) ->
  coef (discount_percent l) <= 100 * pow10 (places (discount_percent l)) ->
  let gross := quantize_default
                 (PyDecimal.mul (of_int (quantity l)) (unit_price l))
                 dec_0_01 in
  places gross = 2%nat
  /\ places (amount (priced b l)) = 2%nat
  /\ 0 <= coef (amount (priced b l)) <= coef gross
  /\ (coef (discount_percent l) <= 0 -> amount (priced b l) = gross).
Proof.
  intros Hq Hp Hd gross.
  assert (Hg2 : places gross = 2%nat) by apply quantize_places.
  assert (Hg0 : 0 <= coef gross).
  { apply quantize_nonneg. cbn [coef PyDecimal.mul of_int]. nia. }
  split; [exact Hg2|]. split; [apply priced_amount_places|].
  unfold priced. cbn [amount]. fold gross.
  destruct (gtb (discount_percent l) dec_0) eqn:Hgt.
  - apply gtb_zero in Hgt. split; [|lia].
    set (d := div_100 (PyDecimal.mul gross (discount_percent l))).
    assert (Hd0 : 0 <= coef d).
    { apply div_100_nonneg. cbn [coef PyDecimal.mul]. nia. }
    assert (Hdv := div_100_value (PyDecimal.mul gross (discount_percent l))).
    fold d in Hdv. cbn [coef places PyDecimal.mul] in Hdv.
    rewrite pow10_add, Hg2 in Hdv. change (pow10 2) with 100 in Hdv.
    pose proof (pow10_pos (places (discount_percent l))) as Pp.
    pose proof (pow10_pos (places d)) as Pd.
    assert (Hb : coef d * 100 <= coef gross * pow10 (places d)).
    { assert (coef d * 100 * (100 * pow10 (places (discount_percent l)))
              <= coef gross * pow10 (places d)
                 * (100 * pow10 (places (discount_percent l)))); [|nia].
      assert (coef gross * coef (discount_percent l) * pow10 (places d)
              <= coef gross * (100 * pow10 (places (discount_percent l)))
                 * pow10 (places d)).
      { apply Z.mul_le_mono_nonneg_r; [lia|].
        apply Z.mul_le_mono_nonneg_l; lia. }
      nia. }
    destruct (quantize_bounds d ROUND_HALF_EVEN (coef gross) Hd0 Hb)
      as [Hlo Hhi].
    unfold PyDecimal.sub, quantize_default. cbn [coef places].
    rewrite quantize_places, Hg2. cbn [places dec_0_01 Nat.max].
    unfold rescale. rewrite quantize_places, Hg2. cbn [places dec_0_01].
    change (pow10 (2 - 2)) with 1. lia.
  - split; [lia|]. reflexivity.
Qed.

Lemma discounted_amount_stays_within_gross_witness :
  0 <= coef (amount (priced false Sample.discounted_line)) <= 1000.
Proof.
  apply (discounted_amount_stays_within_gross false Sample.discounted_line).
  - vm_compute. discriminate.
  - vm_compute. discriminate.
  - vm_compute. discriminate.
Defined.

(** Nothing in [InvoiceLineItem.save] bounds the discount: 150 percent
    of 10.00 leaves an amount of -5.00. *)
Example discount_above_100_percent :
  amount (priced false
            (mkLineItem 62%N 60%N 1 (mkDecimal 1000 2) dec_0_00
               (mkDecimal 1800 2) dec_0 dec_0 dec_0 dec_0 dec_0 dec_0
               (mkDecimal 15000 2)))
  = mkDecimal (-500) 2.
Proof. reflexivity. Qed.

End InvoiceLines.

(** ** Invoice totals and payment status *)

Section InvoiceTotals.

Import Billing BillingApi.

(** The status [_update_payment_status] derives for an invoice that is
    not cancelled does not depend on the status it had. *)
Lemma update_payment_status_not_cancelled (i : Invoice) :
  InvoiceStatus_beq (status i) CANCELLED = false ->
  exists st,
    _update_payment_status i = set_status st i
    /\ InvoiceStatus_beq st CANCELLED = false
    /\ forall st', InvoiceStatus_beq st' CANCELLED = false ->
                   _update_payment_status (set_status st' i) = set_status st i.
Proof.
  intro H. unfold _update_payment_status. rewrite H.
  cbn [status set_status]. unfold balance_due.
  cbn [total_amount paid_amount is_finalized set_status].
  destruct (PyDecimal.leb (PyDecimal.sub (total_amount i) (paid_amount i))
                          dec_0).
  { exists PAID. repeat split. intros st' ->. reflexivity. }
  destruct (gtb (paid_amount i) dec_0).
  { exists PARTIAL. repeat split. intros st' ->. reflexivity. }
  destruct (is_finalized i).
  { exists PENDING. repeat split. intros st' ->. reflexivity. }
  exists DRAFT. repeat split. intros st' ->. reflexivity.
Qed.

Lemma update_payment_status_cancelled_iff (i : Invoice) :
  status (_update_payment_status i) = CANCELLED <-> status i = CANCELLED.
Proof.
  destruct (InvoiceStatus_beq (status i) CANCELLED) eqn:E.
  - assert (Hc : status i = CANCELLED)
      by (destruct (status i); try discriminate; reflexivity).
    unfold _update_payment_status. rewrite E. tauto.
  - destruct (update_payment_status_not_cancelled i E) as (st & Hu & Hst & _).
    rewrite Hu. cbn [status set_status]. split; intro Hc.
    + rewrite Hc in Hst. discriminate.
    + rewrite Hc in E. discriminate.
Qed.

(** X21: [_update_payment_status] is idempotent; it never cancels an
    invoice and never revives a cancelled one; for an invoice that is not
    cancelled the status it leaves is PAID when nothing is due, else
    PARTIAL when something is paid, else PENDING when the invoice is
    finalized, else DRAFT. *)
Theorem update_payment_status_is_idempotent (i : Invoice) :
  _update_payment_status (_update_payment_status i)
  = _update_payment_status i
  /\ (status (_update_payment_status i) = CANCELLED <-> status i = CANCELLED)
  /\ (status i <> CANCELLED ->
      status (_update_payment_status i)
      = if is_fully_paid i then PAID
        else if gtb (paid_amount i) dec_0 then PARTIAL
        else if is_finalized i then PENDING
        else DRAFT).
Proof.
  destruct (InvoiceStatus_beq (status i) CANCELLED) eqn:E.
  - assert (Hc : status i = CANCELLED)
      by (destruct (status i); try discriminate; reflexivity).
    assert (Hu : _update_payment_status i = i)
      by (unfold _update_payment_status; now rewrite E).
    rewrite !Hu. repeat split; auto. congruence.
  - destruct (update_payment_status_not_cancelled i E) as (st & Hu & Hst & Hre).
    assert (Hn : status i <> CANCELLED)
      by (intro Hc; rewrite Hc in E; discriminate).
    split; [|split].
    + rewrite Hu. now apply Hre.
    + rewrite Hu. cbn [status set_status]. split; [|congruence].
      intro Hc. rewrite Hc in Hst. discriminate.
    + intros _. unfold _update_payment_status, is_fully_paid. rewrite E.
      destruct (PyDecimal.leb (balance_due i) dec_0); [reflexivity|].
      destruct (gtb (paid_amount i) dec_0); [reflexivity|].
      destruct (is_finalized i); reflexivity.
Qed.

Lemma calculate_totals_finalized (i : Invoice) (d : Database) :
  is_finalized i = true -> calculate_totals i d = i.
Proof. intro H. unfold calculate_totals. now rewrite H. Qed.


Lemma calculate_totals_twice (i : Invoice) (d1 d2 : Database) :
  calculate_totals (calculate_totals i d1) d2 = calculate_totals i d2.
Proof.
  unfold calculate_totals at 2.
  destruct (is_finalized i) eqn:Hf; [reflexivity|]. cbv zeta.
  match goal with
  | |- calculate_totals (_update_payment_status ?x) d2 = _ => set (i1 := x)
  end.
  assert (Hid : id i1 = id i) by reflexivity.
  assert (Hdisc : discount_amount i1 = discount_amount i) by reflexivity.
  assert (Hfin : is_finalized i1 = false) by exact Hf.
  destruct (InvoiceStatus_beq (status i1) CANCELLED) eqn:E.
  + assert (Hu : _update_payment_status i1 = i1)
      by (unfold _update_payment_status; now rewrite E).
    rewrite Hu. unfold calculate_totals. rewrite Hfin, Hf. cbv zeta.
    rewrite Hid, Hdisc. reflexivity.
  + destruct (update_payment_status_not_cancelled i1 E)
      as (st & Hu & Hstc & _).
    rewrite Hu. unfold calculate_totals.
    cbn [is_finalized set_status id discount_amount].
    rewrite Hfin, Hf. cbv zeta. rewrite Hid, Hdisc.
    match goal with
    | |- _update_payment_status ?z = _update_payment_status ?y =>
        change z with (set_status st y);
        assert (Ey : InvoiceStatus_beq (status y) CANCELLED = false)
          by (rewrite <- E; reflexivity);
        destruct (update_payment_status_not_cancelled y Ey)
          as (st2 & Hu2 & _ & Hre2)
    end.
    rewrite Hu2. now apply Hre2.
Qed.

(** X22: [calculate_totals] depends on nothing it computed before:
    recalculating after an earlier recalculation, on whatever line items,
    gives what a single recalculation gives, so the method is idempotent;
    a finalized invoice is returned as it is; cancelled invoices stay
    cancelled and no other invoice becomes cancelled. *)
Theorem calculate_totals_forgets_earlier_totals
    (i : Invoice) (d1 d2 : Database) :
  calculate_totals (calculate_totals i d1) d2 = calculate_totals i d2
  /\ (is_finalized i = true -> calculate_totals i d1 = i)
  /\ (status (calculate_totals i d1) = CANCELLED <-> status i = CANCELLED).
Proof.
  split; [apply calculate_totals_twice|].
  split; [apply calculate_totals_finalized|].
  unfold calculate_totals. destruct (is_finalized i); [tauto|]. cbv zeta.
  match goal with
  | |- status (_update_payment_status ?x) = _ <-> _ =>
      rewrite (update_payment_status_cancelled_iff x)
  end.
  reflexivity.
Qed.

Lemma add_places (a b : Decimal) :
  places (PyDecimal.add a b) = Nat.max (places a) (places b).
Proof. reflexivity. Qed.

Lemma sub_places (a b : Decimal) :
  places (PyDecimal.sub a b) = Nat.max (places a) (places b).
Proof. reflexivity. Qed.

Lemma fold_add_to_Q (f : InvoiceLineItem -> Decimal)
    (rows : list InvoiceLineItem) (acc : Decimal) :
  (Exact.to_Q (fold_left (fun acc l => PyDecimal.add acc (f l)) rows acc)
   == Exact.to_Q acc + sum_Q f rows)%Q.
Proof.
  revert acc. induction rows as [|l rest IH]; intro acc;
    cbn [fold_left sum_Q fold_right].
  - ring.
  - rewrite IH, to_Q_add. unfold sum_Q. ring.
Qed.

Lemma fold_add_places (f : InvoiceLineItem -> Decimal)
    (rows : list InvoiceLineItem) (acc : Decimal) :
  (places acc <= 2)%nat ->
  Forall (fun l => (places (f l) <= 2)%nat) rows ->
  (places (fold_left (fun acc l => PyDecimal.add acc (f l)) rows acc) <= 2)%nat.
Proof.
  revert acc. induction rows as [|l rest IH]; intros acc Hacc Hall;
    cbn [fold_left]; [exact Hacc|].
  inversion Hall; subst. apply IH; [|assumption].
  unfold PyDecimal.add; cbn [places]. lia.
Qed.

Lemma update_payment_status_totals (i : Invoice) :
  subtotal (_update_payment_status i) = subtotal i
  /\ cgst_total (_update_payment_status i) = cgst_total i
  /\ sgst_total (_update_payment_status i) = sgst_total i
  /\ igst_total (_update_payment_status i) = igst_total i
  /\ total_tax (_update_payment_status i) = total_tax i
  /\ total_amount (_update_payment_status i) = total_amount i
  /\ discount_amount (_update_payment_status i) = discount_amount i.
Proof.
  unfold _update_payment_status.
  destruct (InvoiceStatus_beq (status i) CANCELLED); [repeat split|].
  destruct (PyDecimal.leb (balance_due i) dec_0); [repeat split|].
  destruct (gtb (paid_amount i) dec_0); [repeat split|].
  destruct (is_finalized i); repeat split.
Qed.

(** X23: the totals [calculate_totals] leaves on an invoice that is not
    finalized.  [subtotal], [cgst_total], [sgst_total] and [igst_total]
    are the exact sums of the columns of its line items; [total_tax] is
    the sum of the three tax totals; and when the lines are as
    [InvoiceLineItem.save] leaves them and the discount has at most two
    decimals, [total_amount] is exactly subtotal plus tax minus discount:
    the rounding of the last step changes nothing. *)
Theorem calculate_totals_adds_up (i : Invoice) (d : Database) :
  is_finalized i = false ->
  let i' := calculate_totals i d in
  let rows := line_items_of (id i) d in
  (Exact.to_Q (subtotal i') == sum_Q amount rows
   /\ Exact.to_Q (cgst_total i') == sum_Q cgst_amount rows
   /\ Exact.to_Q (sgst_total i') == sum_Q sgst_amount rows
   /\ Exact.to_Q (igst_total i') == sum_Q igst_amount rows
   /\ Exact.to_Q (total_tax i')
      == Exact.to_Q (cgst_total i') + Exact.to_Q (sgst_total i')
         + Exact.to_Q (igst_total i')
   /\ (Forall two_place_line rows ->
       (places (discount_amount i) <= 2)%nat ->
       Exact.to_Q (total_amount i')
       == Exact.to_Q (subtotal i') + Exact.to_Q (total_tax i')
          - Exact.to_Q (discount_amount i)))%Q.
Proof.
  intros Hf i' rows. unfold i', calculate_totals. rewrite Hf. cbv zeta.
  fold rows.
  match goal with
  | |- context [_update_payment_status ?x] =>
      destruct (update_payment_status_totals x)
        as (-> & -> & -> & -> & -> & -> & _)
  end.
  cbn [subtotal cgst_total sgst_total igst_total total_tax total_amount
       set_totals].
  assert (Z0 : (Exact.to_Q dec_0_00 == 0)%Q) by apply (to_Q_zero 2).
  repeat split.
  - rewrite fold_add_to_Q, Z0. ring.
  - rewrite fold_add_to_Q, Z0. ring.
  - rewrite fold_add_to_Q, Z0. ring.
  - rewrite fold_add_to_Q, Z0. ring.
  - rewrite !to_Q_add. ring.
  - intros Hall Hd. unfold quantize_default.
    rewrite to_Q_quantize_exact; [rewrite to_Q_sub, to_Q_add; reflexivity|].
    assert (P : forall f,
                (forall l, two_place_line l -> (places (f l) <= 2)%nat) ->
                (places (fold_left (fun acc l => PyDecimal.add acc (f l))
                           rows dec_0_00) <= 2)%nat).
    { intros f Hfl. apply fold_add_places; [cbn; lia|].
      eapply Forall_impl; [|exact Hall]. intros l Hl. now apply Hfl. }
    pose proof (P amount ltac:(intros l (H & _); lia)) as P1.
    pose proof (P cgst_amount ltac:(intros l (_ & H & _); lia)) as P2.
    pose proof (P sgst_amount ltac:(intros l (_ & _ & H & _); lia)) as P3.
    pose proof (P igst_amount ltac:(intros l (_ & _ & _ & H); lia)) as P4.
    change (places dec_0_01) with 2%nat.
    rewrite sub_places, !add_places. lia.
Qed.

Lemma calculate_totals_adds_up_witness :
  (Exact.to_Q (total_amount
                 (calculate_totals (Sample.invoice false)
                                   (db (Sample.billing_state false))))
   == Exact.to_Q (subtotal
                    (calculate_totals (Sample.invoice false)
                                      (db (Sample.billing_state false))))
      + Exact.to_Q (total_tax
                      (calculate_totals (Sample.invoice false)
                                        (db (Sample.billing_state false))))
      - Exact.to_Q (discount_amount (Sample.invoice false)))%Q.
Proof.
  pose proof (calculate_totals_adds_up (Sample.invoice false)
                (db (Sample.billing_state false)) eq_refl) as H.
  cbv zeta in H. destruct H as (_ & _ & _ & _ & _ & H).
  apply H.
  - repeat constructor.
  - vm_compute. lia.
Defined.

End InvoiceTotals.

(** ** Line-item endpoints and finalization *)

Section LineItemEndpoints.

Import Billing BillingApi.

(** X24: a finalized invoice is closed to the endpoints: [add_line_item]
    and [remove_line_item] answer 400 "Cannot modify a finalized
    invoice." and [finalize] answers 400 "Invoice is already finalized.",
    each leaving object and database as they were.  The guard is the
    views': [InvoiceLineItem.save] itself, on a numbered finalized
    invoice, stores the line and saves the invoice with its totals
    unchanged. *)
Theorem finalized_invoice_is_closed_to_the_line_endpoints
    (env : Core.Env) (uuid4 item_id : UUID) (user : User)
    (data : AddLineItemData) (l : InvoiceLineItem) (s : State) :
  is_finalized (self s) = true ->
  invoice_number (self s) <> EmptyString ->
  InvoiceViewSet_add_line_item env uuid4 data s
  = (Returned (mkResponse HTTP_400_BAD_REQUEST
                 (Error "Cannot modify a finalized invoice.")), s)
  /\ InvoiceViewSet_remove_line_item env item_id s
     = (Returned (mkResponse HTTP_400_BAD_REQUEST
                    (Error "Cannot modify a finalized invoice.")), s)
  /\ Billing.InvoiceViewSet_finalize env uuid4 user s
     = (Returned (Billing.mkResponse Billing.HTTP_400_BAD_REQUEST
                    (Billing.Error "Invoice is already finalized.")), s)
  /\ InvoiceLineItem_save env l s
     = (Returned (priced (is_interstate (self s)) l),
        mkState (self s)
          (mkDatabase (branches (db s))
             (upsert_invoice (invoices (db s)) (self s))
             (upsert_line_item (line_items (db s))
                (priced (is_interstate (self s)) l))
             (payments (db s)) (audit_logs (db s)))).
Proof.
  intros Hf Hnum. repeat split.
  - unfold InvoiceViewSet_add_line_item, bind, get. now rewrite Hf.
  - unfold InvoiceViewSet_remove_line_item, bind, get. now rewrite Hf.
  - unfold Billing.InvoiceViewSet_finalize, bind, get. now rewrite Hf.
  - unfold InvoiceLineItem_save, bind at 1, get at 1. cbv beta iota.
    unfold bind at 1, modify at 1. cbv beta iota.
    unfold bind at 1, modify at 1. cbv beta iota.
    cbn [self db set_db set_self].
    rewrite calculate_totals_finalized by exact Hf.
    unfold bind at 1. rewrite Invoice_save_numbered by exact Hnum.
    reflexivity.
Qed.

Lemma finalized_invoice_is_closed_to_the_line_endpoints_witness :
  InvoiceViewSet_add_line_item Sample.env 64%N
    (mkAddLineItemData (Some 2) (mkDecimal 25000 2) None None)
    (Sample.billing_state true)
  = (Returned (mkResponse HTTP_400_BAD_REQUEST
                 (Error "Cannot modify a finalized invoice.")),
     Sample.billing_state true).
Proof.
  apply (finalized_invoice_is_closed_to_the_line_endpoints Sample.env 64%N
           61%N Sample.user
           (mkAddLineItemData (Some 2) (mkDecimal 25000 2) None None)
           Sample.discounted_line (Sample.billing_state true)).
  - reflexivity.
  - discriminate.
Defined.








(** X26: finalization is one-way.  Once the [finalize] endpoint has
    answered 200 for a numbered draft with line items, the invoice is
    finalized and stamped with the time and the user; a second call of the
    endpoint answers 400 and changes nothing, the model method returns
    without changing anything, and [calculate_totals] leaves the invoice
    as it is whatever the line items. *)
Theorem finalize_is_one_way
    (env env' : Core.Env) (uuid4 uuid4' : UUID) (user user' : User)
    (s : State) :
  invoice_number (self s) <> EmptyString ->
  is_finalized (self s) = false ->
  line_items_of (id (self s)) (db s) <> [] ->
  exists resp s',
    InvoiceViewSet_finalize env uuid4 user s = (Returned resp, s')
    /\ Billing.status_code resp = Billing.HTTP_200_OK
    /\ is_finalized (self s') = true
    /\ finalized_at (self s') = Some (Core.now env)
    /\ finalized_by (self s') = Some user
    /\ InvoiceViewSet_finalize env' uuid4' user' s'
       = (Returned (Billing.mkResponse Billing.HTTP_400_BAD_REQUEST
                      (Billing.Error "Invoice is already finalized.")), s')
    /\ finalize env' uuid4' user' s' = (Returned tt, s')
    /\ forall d, calculate_totals (self s') d = self s'.
Proof.
  intros Hnum Hfin Hrows.
  unfold InvoiceViewSet_finalize at 1. unfold bind at 1, get at 1.
  cbv beta iota. rewrite Hfin. unfold try_except, bind at 1.
  rewrite (finalize_draft env uuid4 user s Hnum Hfin Hrows).
  unfold bind at 1, get at 1. cbv beta iota. unfold ret.
  do 2 eexists. split; [reflexivity|].
  cbn [Billing.status_code self]. unfold finalized_invoice.
  cbn [is_finalized finalized_at finalized_by set_status set_finalized].
  repeat split.
Qed.

Lemma finalize_is_one_way_witness :
  exists resp s',
    InvoiceViewSet_finalize Sample.env 70%N Sample.user
      (Sample.billing_state false) = (Returned resp, s')
    /\ is_finalized (self s') = true
    /\ InvoiceViewSet_finalize Sample.env 71%N Sample.user s'
       = (Returned (Billing.mkResponse Billing.HTTP_400_BAD_REQUEST
                      (Billing.Error "Invoice is already finalized.")), s').
Proof.
  destruct (finalize_is_one_way Sample.env Sample.env 70%N 71%N Sample.user
              Sample.user (Sample.billing_state false))
    as (resp & s' & H1 & _ & H3 & _ & _ & H6 & _).
  - discriminate.
  - reflexivity.
  - discriminate.
  - exists resp, s'. auto.
Defined.

End LineItemEndpoints.

(** ** Payments *)

Section Payments.

Import Billing BillingApi.

(** Decimal comparisons as comparisons of the numbers. *)
Lemma leb_to_Q (a b : Decimal) :
  PyDecimal.leb a b = true <-> (Exact.to_Q a <= Exact.to_Q b)%Q.
Proof.
  unfold PyDecimal.leb. rewrite compare_to_Q, Qle_alt.
  destruct (Exact.to_Q a ?= Exact.to_Q b)%Q; split; intro H;
    try reflexivity; try discriminate; congruence.
Qed.

Lemma ltb_to_Q (a b : Decimal) :
  PyDecimal.ltb a b = true <-> (Exact.to_Q a < Exact.to_Q b)%Q.
Proof.
  unfold PyDecimal.ltb. rewrite compare_to_Q, Qlt_alt.
  destruct (Exact.to_Q a ?= Exact.to_Q b)%Q; split; intro H;
    try reflexivity; try discriminate.
Qed.

Lemma ltb_false_to_Q (a b : Decimal) :
  PyDecimal.ltb a b = false <-> (Exact.to_Q b <= Exact.to_Q a)%Q.
Proof.
  rewrite <- Bool.not_true_iff_false, ltb_to_Q. split.
  - apply Qnot_lt_le.
  - apply Qle_not_lt.
Qed.

(** What the serializer lets through. *)
Lemma serializer_returned (data v : RecordPaymentData) (s s' : State) :
  RecordPaymentSerializer_is_valid data s = (Returned v, s') ->
  s' = s
  /\ v = mkPaymentData (quantize_default (data_amount data) dec_0_01)
           (data_payment_method data) (data_reference data) (data_notes data)
  /\ (places (data_amount data) <= 2)%nat
  /\ (Exact.to_Q dec_0_01 <= Exact.to_Q (data_amount v))%Q
  /\ (Exact.to_Q (data_amount v) <= Exact.to_Q (balance_due (self s)))%Q
  /\ (String.length (data_reference data) <= 100)%nat.
Proof.
  unfold RecordPaymentSerializer_is_valid, bind, get.
  destruct (validate_precision 12 2 (data_amount data)) eqn:Hp;
    [discriminate|].
  apply validate_precision_places in Hp.
  destruct (ltb (quantize_default (data_amount data) dec_0_01) dec_0_01)
    eqn:H1; [discriminate|].
  destruct (gtb (quantize_default (data_amount data) dec_0_01)
                (balance_due (self s))) eqn:H2; [discriminate|].
  destruct (100 <? String.length (data_reference data))%nat eqn:H3;
    [discriminate|].
  intro H. injection H as <- <-. cbn [data_amount].
  apply ltb_false_to_Q in H1. unfold gtb in H2. apply ltb_false_to_Q in H2.
  apply Nat.ltb_ge in H3. auto 10.
Qed.

Lemma validated_payment_facts (data v : RecordPaymentData) (s s' : State) :
  RecordPaymentSerializer_is_valid data s = (Returned v, s') ->
  s' = s
  /\ places (data_amount v) = 2%nat
  /\ 0 < coef (data_amount v)
  /\ (Exact.to_Q (data_amount v) <= Exact.to_Q (balance_due (self s)))%Q.
Proof.
  intro H. destruct (serializer_returned _ _ _ _ H)
    as (Hs & Hv & Hp & Hmin & Hbal & Href).
  subst v. cbn [data_amount] in *. repeat split; auto.
  - apply quantize_places.
  - revert Hmin. unfold Qle, Exact.to_Q, quantize_default.
    rewrite (quantize_places (data_amount data) dec_0_01 ROUND_HALF_EVEN) at 1.
    cbn [Qnum Qden coef places dec_0_01].
    change (Zpos (Z.to_pos (pow10 2))) with 100. lia.
Qed.

(** X27: whatever [RecordPaymentSerializer] returns as [validated_data]
    is within the balance.  The state is untouched; the validated amount
    is the amount of the request written with two decimals, is positive
    and does not exceed the balance due of the invoice; method and
    reference are those of the request and the reference has at most 100
    characters. *)
Theorem validated_payment_is_within_balance
    (data v : RecordPaymentData) (s s' : State) :
  RecordPaymentSerializer_is_valid data s = (Returned v, s') ->
  s' = s
  /\ places (data_amount v) = 2%nat
  /\ 0 < coef (data_amount v)
  /\ (Exact.to_Q (data_amount v) == Exact.to_Q (data_amount data))%Q
  /\ (Exact.to_Q (data_amount v) <= Exact.to_Q (balance_due (self s)))%Q
  /\ data_payment_method v = data_payment_method data
  /\ data_reference v = data_reference data
  /\ (String.length (data_reference v) <= 100)%nat.
Proof.
  intro H. destruct (serializer_returned _ _ _ _ H)
    as (Hs & Hv & Hp & Hmin & Hbal & Href).
  subst v. cbn [data_amount data_payment_method data_reference] in *.
  repeat split; auto.
  - apply quantize_places.
  - revert Hmin. unfold Qle, Exact.to_Q, quantize_default.
    rewrite (quantize_places (data_amount data) dec_0_01 ROUND_HALF_EVEN) at 1.
    cbn [Qnum Qden coef places dec_0_01]. 
    change (Zpos (Z.to_pos (pow10 2))) with 100. lia.
  - apply to_Q_quantize_exact. exact Hp.
Qed.

Lemma validated_payment_is_within_balance_witness :
  data_amount (mkPaymentData (mkDecimal 5000 2) CASH "receipt 17" EmptyString)
  = mkDecimal 5000 2
  /\ (Exact.to_Q (mkDecimal 5000 2) == Exact.to_Q (mkDecimal 500 1))%Q
  /\ (Exact.to_Q (mkDecimal 5000 2)
      <= Exact.to_Q (balance_due (self (Sample.billing_state true))))%Q.
Proof.
  destruct (validated_payment_is_within_balance
              (Sample.payment_of (mkDecimal 500 1))
              (mkPaymentData (mkDecimal 5000 2) CASH "receipt 17" EmptyString)
              (Sample.billing_state true) (Sample.billing_state true))
    as (_ & _ & _ & H4 & H5 & _).
  - reflexivity.
  - split; [reflexivity|]. split; [exact H4 | exact H5].
Defined.

(** The invoice table under [get_invoice] and
    [update_payment_columns]. *)
Lemma get_invoice_id (rows : list Invoice) (k : UUID) (row : Invoice) :
  get_invoice rows k = Some row -> id row = k.
Proof.
  induction rows as [|r rest IH]; simpl; [discriminate|].
  destruct (N.eqb (id r) k) eqn:E.
  - intro H; injection H as <-. now apply N.eqb_eq.
  - exact IH.
Qed.

Lemma get_invoice_In (rows : list Invoice) (k : UUID) (row : Invoice) :
  get_invoice rows k = Some row -> In row rows.
Proof.
  induction rows as [|r rest IH]; simpl; [discriminate|].
  destruct (N.eqb (id r) k).
  - intro H; injection H as <-. now left.
  - intro H. right. now apply IH.
Qed.

Lemma get_invoice_has (rows : list Invoice) (k : UUID) (row : Invoice) :
  get_invoice rows k = Some row -> has_invoice rows k = true.
Proof.
  unfold has_invoice.
  induction rows as [|r rest IH]; simpl; [discriminate|].
  destruct (N.eqb (id r) k); [reflexivity|exact IH].
Qed.

Lemma update_payment_columns_Forall (P : Invoice -> Prop)
    (rows : list Invoice) (row i : Invoice) :
  Forall P rows ->
  get_invoice rows (id i) = Some row ->
  P (set_status (status i) (set_paid_amount (paid_amount i) row)) ->
  Forall P (update_payment_columns rows i).
Proof.
  intros Hall Hget Hp. induction rows as [|r rest IH]; simpl in *;
    [discriminate|].
  inversion Hall; subst.
  destruct (N.eqb (id r) (id i)).
  - injection Hget as ->. constructor; assumption.
  - constructor; [assumption|]. now apply IH.
Qed.

Lemma payment_request_keeps_invariant (env : Core.Env) (r : PaymentRequest)
    (d : Database) :
  no_overpayment d -> no_overpayment (handle_payment_request env r d).
Proof.
  intro Hinv. unfold handle_payment_request.
  destruct (get_invoice (invoices d) (req_invoice r)) as [row|] eqn:Hget;
    [|exact Hinv].
  rewrite record_payment_view_steps. cbn [self].
  destruct (is_finalized row); [|exact Hinv].
  destruct (RecordPaymentSerializer_is_valid (req_data r) (mkState row d))
    as [[v|e] s'] eqn:Hv.
  2:{ revert Hv. unfold RecordPaymentSerializer_is_valid, bind, get.
      destruct (validate_precision 12 2 _); [intro H; inversion H; exact Hinv|].
      destruct (ltb _ dec_0_01); [intro H; inversion H; exact Hinv|].
      destruct (gtb _ _); [intro H; inversion H; exact Hinv|].
      destruct (_ <? _)%nat; intro H; inversion H; exact Hinv. }
  destruct (validated_payment_facts _ _ _ _ Hv) as (-> & Hpl & Hpos & Hbal).
  pose proof Hinv as Hall. unfold no_overpayment in Hall.
  rewrite Forall_forall in Hall.
  destruct (Hall row (get_invoice_In _ _ _ Hget)) as [Hnum Hpaid].
  destruct (InvoiceStatus_beq (status row) CANCELLED) eqn:Hc.
  - rewrite record_payment_cancelled; [exact Hinv|exact Hpos|].
    cbn [self]. destruct (status row); try discriminate; reflexivity.
  - rewrite record_payment_goes_through; cbn [self db invoices];
      [| exact Hnum
       | rewrite (get_invoice_id _ _ _ Hget);
         exact (get_invoice_has _ _ _ Hget)
       | exact Hpos
       | intro E; rewrite E in Hc; discriminate ].
    cbn [snd db invoices]. unfold no_overpayment. cbn [invoices].
    apply update_payment_columns_Forall with (row := row).
    + exact Hinv.
    + unfold paid_invoice_after.
      match goal with
      | |- context [_update_payment_status ?x] =>
          destruct (update_payment_status_fields x) as (-> & _)
      end.
      cbn [id set_paid_amount]. rewrite (get_invoice_id _ _ _ Hget).
      exact Hget.
    + cbn [invoice_number set_status set_paid_amount paid_amount total_amount].
      split; [exact Hnum|].
      unfold paid_invoice_after.
      match goal with
      | |- context [_update_payment_status ?x] =>
          destruct (update_payment_status_fields x) as (_ & _ & _ & -> & _)
      end.
      cbn [paid_amount set_paid_amount].
      apply leb_to_Q. rewrite to_Q_add.
      unfold balance_due in Hbal. cbn [self] in Hbal.
      rewrite to_Q_sub in Hbal.
      apply Qplus_le_r with (z := Exact.to_Q (paid_amount row)) in Hbal.
      ring_simplify in Hbal. ring_simplify. exact Hbal.
Qed.

(** X28: no series of requests to the payment endpoint overpays an
    invoice.  Starting from a database in which every stored invoice has
    its number and a [paid_amount] that does not exceed its
    [total_amount], after any requests whatever (any invoice, any amount,
    well formed or not, accepted or refused) every stored invoice still
    has. *)
Theorem payments_never_exceed_total
    (env : Core.Env) (rs : list PaymentRequest) (d : Database) :
  no_overpayment d -> no_overpayment (handle_payment_requests env rs d).
Proof.
  unfold handle_payment_requests. revert d.
  induction rs as [|r rest IH]; intros d H; cbn [fold_left]; [exact H|].
  apply IH. now apply payment_request_keeps_invariant.
Qed.

Lemma payments_never_exceed_total_witness :
  no_overpayment
    (handle_payment_requests Sample.env
       [mkPaymentRequest 60%N 80%N 81%N Sample.user
          (Sample.payment_of (mkDecimal 100000 2));
        mkPaymentRequest 60%N 82%N 83%N Sample.user
          (Sample.payment_of (mkDecimal 50000 2))]
       (db (Sample.billing_state true))).
Proof.
  apply (payments_never_exceed_total Sample.env).
  repeat constructor. discriminate.
Defined.

(** The second request of that series exceeds the balance of 180.00 and
    is refused: 1000.00 is what the stored invoice shows as paid. *)
Example payments_never_exceed_total_scenario :
  map (fun r => (paid_amount r, status r))
      (invoices
         (handle_payment_requests Sample.env
            [mkPaymentRequest 60%N 80%N 81%N Sample.user
               (Sample.payment_of (mkDecimal 100000 2));
             mkPaymentRequest 60%N 82%N 83%N Sample.user
               (Sample.payment_of (mkDecimal 50000 2))]
            (db (Sample.billing_state true))))
  = [(mkDecimal 100000 2, PARTIAL)].
Proof. reflexivity. Qed.

Lemma quantize_two_places (d : Decimal) (r : Rounding) :
  places d = 2%nat -> quantize d dec_0_01 r = d.
Proof.
  intro H. unfold quantize. cbn [places dec_0_01]. rewrite H.
  cbn [Nat.leb]. rewrite <- H at 1. rewrite rescale_same.
  destruct d; cbn in *; now subst.
Qed.

Lemma gtb_refl_false (d : Decimal) : gtb d d = false.
Proof.
  unfold gtb, ltb, PyDecimal.compare. now rewrite Z.compare_refl.
Qed.

(** X29: paying the balance closes the invoice.  For a finalized,
    numbered, stored invoice that is not cancelled, whose amounts have two
    decimals and whose balance due is positive, a request for exactly the
    balance is answered 200; the invoice is then PAID, its [paid_amount]
    is its [total_amount], and every later well-formed request for a
    positive amount is refused by the serializer with a
    [ValidationError], the state staying as it is. *)
Theorem paying_the_balance_closes_the_invoice
    (env : Core.Env) (uuid4 uuid4' uuid4'' uuid4''' : UUID) (user : User)
    (method : PaymentMethod) (reference_ notes_ : string)
    (later : RecordPaymentData) (s : State) :
  is_finalized (self s) = true ->
  invoice_number (self s) <> EmptyString ->
  has_invoice (invoices (db s)) (id (self s)) = true ->
  status (self s) <> CANCELLED ->
  places (total_amount (self s)) = 2%nat ->
  places (paid_amount (self s)) = 2%nat ->
  0 < coef (balance_due (self s)) ->
  validate_precision 12 2 (balance_due (self s)) = None ->
  (String.length reference_ <= 100)%nat ->
  validate_precision 12 2 (data_amount later) = None ->
  0 < coef (data_amount later) ->
  exists resp s',
    InvoiceViewSet_record_payment env uuid4 uuid4' user
      (mkPaymentData (balance_due (self s)) method reference_ notes_) s
    = (Returned resp, s')
    /\ Billing.status_code resp = Billing.HTTP_200_OK
    /\ status (self s') = PAID
    /\ paid_amount (self s') = total_amount (self s)
    /\ is_fully_paid (self s') = true
    /\ exists msg,
         InvoiceViewSet_record_payment env uuid4'' uuid4''' user later s'
         = (Raised (ValidationError msg), s').
Proof.
  intros Hfin Hnum Hrow Hst Hpt Hpp Hbal Hprec Href Hlprec Hlpos.
  set (data := mkPaymentData (balance_due (self s)) method reference_ notes_).
  assert (Hb2 : places (balance_due (self s)) = 2%nat).
  { unfold balance_due, PyDecimal.sub. cbn [places]. rewrite Hpt, Hpp.
    reflexivity. }
  assert (Hbc : coef (balance_due (self s))
                = coef (total_amount (self s)) - coef (paid_amount (self s))).
  { unfold balance_due, PyDecimal.sub. cbn [coef places]. rewrite Hpt, Hpp.
    cbn [Nat.max]. now rewrite (rescale_2 _ Hpt), (rescale_2 _ Hpp). }
  rewrite record_payment_view_steps, Hfin.
  rewrite (serializer_accepts data s Hprec Hbal Href (gtb_refl_false _)).
  cbn [data_amount data_payment_method data_reference data_notes data].
  unfold quantize_default. rewrite (quantize_two_places _ _ Hb2).
  rewrite (record_payment_goes_through env uuid4 uuid4' _ method user
             reference_ notes_ s Hnum Hrow Hbal Hst).
  do 2 eexists. split; [reflexivity|].
  cbn [Billing.status_code self].
  set (i1 := set_paid_amount
               (PyDecimal.add (paid_amount (self s)) (balance_due (self s)))
               (self s)).
  assert (Hpaid : paid_amount i1 = total_amount (self s)).
  { unfold i1. cbn [paid_amount set_paid_amount]. unfold PyDecimal.add.
    rewrite Hb2, Hpp. cbn [Nat.max].
    rewrite (rescale_2 _ Hpp), (rescale_2 _ Hb2), Hbc.
    destruct (total_amount (self s)) as [c p].
    cbn in *. subst p. f_equal. lia. }
  assert (Hfp : PyDecimal.leb (balance_due i1) dec_0 = true).
  { unfold balance_due. rewrite Hpaid. unfold i1.
    cbn [total_amount set_paid_amount].
    unfold PyDecimal.leb, PyDecimal.compare, PyDecimal.sub.
    cbn [coef places dec_0]. rewrite Z.sub_diag. 
    unfold rescale. cbn [coef]. rewrite !Z.mul_0_l. reflexivity. }
  assert (Hnc : InvoiceStatus_beq (status i1) CANCELLED = false).
  { unfold i1. cbn [status set_paid_amount].
    destruct (status (self s)); try reflexivity. congruence. }
  assert (Hups : paid_invoice_after (balance_due (self s)) (self s)
                 = set_status PAID i1).
  { unfold paid_invoice_after. fold i1. unfold _update_payment_status.
    now rewrite Hnc, Hfp. }
  rewrite Hups. cbn [status set_status paid_amount].
  split; [reflexivity|]. split; [reflexivity|]. split; [exact Hpaid|].
  split.
  { unfold is_fully_paid, balance_due in *.
    cbn [total_amount paid_amount set_status]. exact Hfp. }
  rewrite record_payment_view_steps.
  cbn [self is_finalized set_status]. unfold i1 at 1.
  cbn [is_finalized set_paid_amount]. rewrite Hfin.
  assert (Hz : (Exact.to_Q (balance_due (set_status PAID i1)) == 0)%Q).
  { unfold balance_due. cbn [total_amount paid_amount set_status].
    rewrite Hpaid. unfold i1. cbn [total_amount set_paid_amount].
    rewrite to_Q_sub. ring. }
  match goal with
  | |- context [RecordPaymentSerializer_is_valid later ?st] =>
      assert (Hg : gtb (data_amount later) (balance_due (self st)) = true)
  end.
  { cbn [self]. unfold gtb, ltb. rewrite compare_to_Q, Hz.
    unfold Qcompare, Exact.to_Q. cbn [Qnum Qden].
    rewrite Z.mul_0_l, Z.mul_1_r.
    destruct (Z.compare_spec 0 (coef (data_amount later)));
      [lia | reflexivity | lia]. }
  destruct (serializer_rejects_excess later _ Hlprec Hlpos Hg) as [msg Hm].
  rewrite Hm. exists msg. reflexivity.
Qed.

Lemma paying_the_balance_closes_the_invoice_witness :
  exists resp s',
    InvoiceViewSet_record_payment Sample.env 80%N 81%N Sample.user
      (mkPaymentData (mkDecimal 118000 2) UPI "txn 9" EmptyString)
      (Sample.billing_state true)
    = (Returned resp, s')
    /\ status (self s') = PAID
    /\ exists msg,
         InvoiceViewSet_record_payment Sample.env 82%N 83%N Sample.user
           (Sample.payment_of (mkDecimal 1 2)) s'
         = (Raised (ValidationError msg), s').
Proof.
  destruct (paying_the_balance_closes_the_invoice Sample.env 80%N 81%N
              82%N 83%N Sample.user UPI "txn 9" EmptyString
              (Sample.payment_of (mkDecimal 1 2))
              (Sample.billing_state true))
    as (resp & s' & H1 & _ & H3 & _ & _ & H6).
  - reflexivity.
  - discriminate.
  - reflexivity.
  - discriminate.
  - reflexivity.
  - reflexivity.
  - vm_compute. reflexivity.
  - reflexivity.
  - cbn. lia.
  - reflexivity.
  - vm_compute. reflexivity.
  - exists resp, s'. auto.
Defined.

End Payments.

(** ** Audit trail *)

Section AuditTrail.

Import Billing.

Lemma audit_noop (uuid4 : UUID) (user : User) (action model : string)
    (key : UUID) (details : list (string * string)) (s : State) :
  audit uuid4 user action model key details s = (Returned tt, s).
Proof. destruct s as [i [b inv l p a]]. reflexivity. Qed.

Lemma Invoice_save_audit (env : Core.Env) (flag : bool) (s : State) :
  audit_logs (db (snd (Invoice_save env flag s))) = audit_logs (db s).
Proof.
  unfold Invoice_save, bind, get.
  destruct (String.eqb (invoice_number (self s)) EmptyString).
  - destruct (Core.get_next_invoice_number env (branch (self s))
                (branches (db s))) as [[number rows]|]; [|reflexivity].
    cbn. unfold has_dirty_fields. rewrite andb_false_r. cbn.
    destruct flag; [|reflexivity].
    match goal with |- context [if ?b then _ else _] => destruct b end;
      reflexivity.
  - cbn. unfold has_dirty_fields. rewrite andb_false_r. cbn.
    destruct flag; [|reflexivity].
    match goal with |- context [if ?b then _ else _] => destruct b end;
      reflexivity.
Qed.

Lemma finalize_audit (env : Core.Env) (uuid4 : UUID) (user : User)
    (s : State) :
  audit_logs (db (snd (finalize env uuid4 user s))) = audit_logs (db s).
Proof.
  unfold finalize, bind at 1, get at 1. cbv beta iota.
  destruct (is_finalized (self s)); [reflexivity|].
  destruct (line_items_of (id (self s)) (db s)); [reflexivity|].
  unfold bind at 1, modify at 1. cbv beta iota.
  unfold bind at 1, modify at 1. cbv beta iota.
  unfold bind at 1, modify at 1. cbv beta iota.
  unfold bind at 1.
  match goal with
  | |- context [Invoice_save env false ?x] =>
      pose proof (Invoice_save_audit env false x) as H;
      destruct (Invoice_save env false x) as [[u|e] s']
  end; cbn [snd] in *.
  - unfold bind at 1, get at 1. cbv beta iota. rewrite audit_noop.
    cbn [snd]. rewrite H. reflexivity.
  - rewrite H. reflexivity.
Qed.

Lemma record_payment_audit (env : Core.Env) (uuid4 uuid4' : UUID)
    (a : Decimal) (m : PaymentMethod) (user : User) (r n : string)
    (s : State) :
  audit_logs (db (snd (record_payment env uuid4 uuid4' a m user r n s)))
  = audit_logs (db s).
Proof.
  unfold record_payment, bind at 1, get at 1. cbv beta iota.
  destruct (PyDecimal.leb a dec_0); [reflexivity|].
  destruct (InvoiceStatus_beq (status (self s)) CANCELLED); [reflexivity|].
  unfold atomic.
  unfold bind at 1, modify at 1. cbv beta iota.
  unfold bind at 1, modify at 1. cbv beta iota.
  unfold bind at 1, modify at 1. cbv beta iota.
  unfold bind at 1.
  match goal with
  | |- context [Invoice_save env true ?x] =>
      pose proof (Invoice_save_audit env true x) as H;
      destruct (Invoice_save env true x) as [[u|e] s']
  end; cbn [snd] in *.
  - unfold bind at 1, get at 1. cbv beta iota.
    unfold bind at 1. rewrite audit_noop. cbn [snd ret]. rewrite H.
    reflexivity.
  - reflexivity.
Qed.

(** X30: the audit trail is never written.  [AuditLogService.log]
    returns [None] and leaves the table as it is for every entry, since
    the entry it builds carries its key before [AuditLog.save] looks at
    it; consequently the [finalize] and [record_payment] endpoints,
    whatever they answer, leave the audit table as they found it. *)
Theorem audit_trail_is_never_written
    (env : Core.Env) (uuid4 uuid4' : UUID) (user : User)
    (action model_name : string) (object_id : UUID)
    (details : list (string * string)) (rows : list Audit.AuditLog)
    (data : RecordPaymentData) (s : State) :
  Audit.AuditLogService_log uuid4 user action model_name object_id details
    rows = (None, rows)
  /\ audit_logs (db (snd (InvoiceViewSet_finalize env uuid4 user s)))
     = audit_logs (db s)
  /\ audit_logs (db (snd (InvoiceViewSet_record_payment env uuid4 uuid4'
                            user data s)))
     = audit_logs (db s).
Proof.
  split; [reflexivity|]. split.
  - unfold InvoiceViewSet_finalize, bind at 1, get at 1. cbv beta iota.
    destruct (is_finalized (self s)); [reflexivity|].
    unfold try_except, bind at 1.
    pose proof (finalize_audit env uuid4 user s) as H.
    destruct (finalize env uuid4 user s) as [[u|e] s']; cbn [snd] in *;
      exact H.
  - rewrite record_payment_view_steps.
    destruct (is_finalized (self s)); [|reflexivity].
    destruct (RecordPaymentSerializer_is_valid data s) as [[v|e] s'] eqn:Hv.
    + assert (s' = s) as ->.
      { revert Hv. unfold RecordPaymentSerializer_is_valid, bind, get.
        destruct (validate_precision 12 2 _); [discriminate|].
        destruct (ltb _ dec_0_01); [discriminate|].
        destruct (gtb _ _); [discriminate|].
        destruct (_ <? _)%nat; [discriminate|].
        intro H. now inversion H. }
      match goal with
      | |- context [record_payment env uuid4 uuid4' ?a ?m user ?r ?n s] =>
          pose proof (record_payment_audit env uuid4 uuid4' a m user r n s)
            as H;
          destruct (record_payment env uuid4 uuid4' a m user r n s)
            as [[p|e] s']
      end; exact H.
    + revert Hv. unfold RecordPaymentSerializer_is_valid, bind, get.
      destruct (validate_precision 12 2 _); [intro H; now inversion H|].
      destruct (ltb _ dec_0_01); [intro H; now inversion H|].
      destruct (gtb _ _); [intro H; now inversion H|].
      destruct (_ <? _)%nat; intro H; now inversion H.
Qed.

End AuditTrail.
